(** * classificatore-voci: the React client, embedded and checked

    The sources are three React components: [VoiceClassifierApp.jsx] (a
    self-contained mock: training and classification are timers that
    draw from [Math.random]), [VoiceLab.jsx] and [ProjectManager.jsx]
    (clients of a backend that is not part of the sources).

    Modelling choices:
    - a component's [useState] cells form a record; an event handler is
      a function on that record;
    - [setTimeout] callbacks are kept in a list of pending timers and
      fire as separate events; the values returned by [Math.random] are
      inputs of the event that fires the timer;
    - JavaScript numbers that the code computes with are IEEE-754
      binary64 values ([float]), so the rounding of
      [Math.random() * 0.05 + 0.95] is the real one;
    - the object [audioFiles] is a finite map from property names to
      arrays; reading a property that is absent yields [undefined], and
      spreading [undefined] (or calling [.filter] on it) throws, which
      is rendered by [None];
    - what the backend answers to [fetch] is an input of the handler;
      the handlers of [ProjectManager.jsx], which call one another
      inside [try], [catch] and [finally], are written in a small monad
      that carries the state, the answers and the effects. *)

From Stdlib Require Import ZArith Lia Floats Bool.
From stdpp Require Import gmap strings list fin_maps.

Set Warnings "-inexact-float".
Open Scope string_scope.
Open Scope list_scope.

(** * Part I. Definitions *)

(** ** JavaScript numbers *)

Module JsNumber.
Local Open Scope Z_scope.

(** [Math.random()] returns a number [r] with [0 <= r < 1]. *)
Definition random_ok (r : float) : bool := ((0 <=? r) && (r <? 1))%float.

(** [Math.floor(x)] for a finite [x], as an integer; [None] stands for
    the results that are not integers (NaN and the infinities). *)
Definition Math_floor (x : float) : option Z :=
  match Prim2SF x with
  | S754_zero _ => Some 0
  | S754_finite s m e => Some (Z.shiftl (cond_Zopp s (Zpos m)) e)
  | _ => None
  end.

(** [arr[i]] for a number [i]: [undefined] ([None]) unless [i] is an
    index of the array. *)
Definition array_get {A} (arr : list A) (i : option Z) : option A :=
  match i with
  | Some z => if (0 <=? z) then arr !! Z.to_nat z else None
  | None => None
  end.

(** Truthiness of a value that is [null] or a number: [null], [0],
    [-0] and [NaN] are falsy. *)
Definition truthy (x : option float) : bool :=
  match x with
  | None => false
  | Some v => negb (is_zero v || is_nan v)
  end.

(** *** Exact values, for the proofs about rounding

    A finite binary64 value [m * 2^e] has [e >= -1074]; the exact
    product of two of them has an exponent above [-2148]. Scaling by
    [2^bias] makes every such value an integer. *)
Definition bias : Z := 2200.
Definition bpow (e : Z) : Z := 2 ^ (e + bias).

Definition SFreal (x : spec_float) : Z :=
  match x with
  | S754_finite s m e => cond_Zopp s (Zpos m * bpow e)
  | _ => 0
  end.

Definition SFnonneg (x : spec_float) : bool :=
  match x with
  | S754_zero _ | S754_finite false _ _ => true
  | _ => false
  end.

(** What the round and sticky bits [r], [s] of a shifted mantissa say
    about the part [rem] that was shifted out, [P] being the weight
    of the last kept bit. *)
Definition loc_ok (r s : bool) (rem P : Z) : Prop :=
  match r, s with
  | false, false => rem = 0
  | false, true => 0 < 2 * rem < P
  | true, false => 2 * rem = P
  | true, true => P < 2 * rem
  end.

Definition shifted (m P : Z) (mrs : shr_record) : Prop :=
  0 < P /\ shr_m mrs = m / P /\ loc_ok (shr_r mrs) (shr_s mrs) (m mod P) P.

(** [R] is a binary64 rounding to nearest of the exact value [V]:
    [R] is [n * 2^g] on the grid of [V], at most half a unit away. *)
Definition rounds_to (V : Z) (R : spec_float) : Prop :=
  exists n g,
    -1074 <= g /\ SFnonneg R = true /\ SFreal R = n * bpow g /\
    2 * n * bpow g - bpow g <= 2 * V <= 2 * n * bpow g + bpow g /\
    V < 2 ^ 53 * bpow g /\ (-1074 < g -> 2 ^ 52 * bpow g <= V).
End JsNumber.

(** ** VoiceClassifierApp.jsx *)

Module VoiceClassifierApp.
Import JsNumber.

(** The keys of [audioFiles] (and of [elementColors], over which the
    upload widgets are rendered), in the order of the array
    [elements] of [classifyNewAudio]. *)
Definition elements : list string := ["aria"; "acqua"; "terra"; "fuoco"].
Definition class_set : gset string := list_to_set elements.

(** What the code reads of a browser [File]. *)
Record File := { file_name : string; file_size : Z }.

(** An entry of [audioFiles[element]], built by [handleDatasetUpload]. *)
Record AudioFile := { name : string; size : Z; element : string }.

(** The object built by [saveProject]. *)
Record ProjectData := {
  pd_name : string;
  pd_datasets : gmap string (list AudioFile);
  pd_accuracy : option float;
  pd_timestamp : string }.

(** The [useState] cells of the component. *)
Record State := {
  currentProject : string;
  datasets : list ProjectData;
  isTraining : bool;
  modelAccuracy : option float;
  audioFiles : gmap string (list AudioFile);
  newAudioForClassification : option File;
  prediction : option string;
  confidence : option float }.

Definition initial : State := {|
  currentProject := "Progetto 1";
  datasets := [];
  isTraining := false;
  modelAccuracy := None;
  audioFiles := {[ "aria" := []; "acqua" := []; "terra" := []; "fuoco" := [] ]};
  newAudioForClassification := None;
  prediction := None;
  confidence := None |}.

Definition setCurrentProject (v : string) (s : State) : State :=
  {| currentProject := v; datasets := datasets s; isTraining := isTraining s;
     modelAccuracy := modelAccuracy s; audioFiles := audioFiles s;
     newAudioForClassification := newAudioForClassification s;
     prediction := prediction s; confidence := confidence s |}.

Definition setDatasets (v : list ProjectData) (s : State) : State :=
  {| currentProject := currentProject s; datasets := v; isTraining := isTraining s;
     modelAccuracy := modelAccuracy s; audioFiles := audioFiles s;
     newAudioForClassification := newAudioForClassification s;
     prediction := prediction s; confidence := confidence s |}.

Definition setIsTraining (v : bool) (s : State) : State :=
  {| currentProject := currentProject s; datasets := datasets s; isTraining := v;
     modelAccuracy := modelAccuracy s; audioFiles := audioFiles s;
     newAudioForClassification := newAudioForClassification s;
     prediction := prediction s; confidence := confidence s |}.

Definition setModelAccuracy (v : option float) (s : State) : State :=
  {| currentProject := currentProject s; datasets := datasets s;
     isTraining := isTraining s; modelAccuracy := v; audioFiles := audioFiles s;
     newAudioForClassification := newAudioForClassification s;
     prediction := prediction s; confidence := confidence s |}.

Definition setAudioFiles (v : gmap string (list AudioFile)) (s : State) : State :=
  {| currentProject := currentProject s; datasets := datasets s;
     isTraining := isTraining s; modelAccuracy := modelAccuracy s; audioFiles := v;
     newAudioForClassification := newAudioForClassification s;
     prediction := prediction s; confidence := confidence s |}.

Definition setNewAudioForClassification (v : option File) (s : State) : State :=
  {| currentProject := currentProject s; datasets := datasets s;
     isTraining := isTraining s; modelAccuracy := modelAccuracy s;
     audioFiles := audioFiles s; newAudioForClassification := v;
     prediction := prediction s; confidence := confidence s |}.

Definition setPrediction (v : option string) (s : State) : State :=
  {| currentProject := currentProject s; datasets := datasets s;
     isTraining := isTraining s; modelAccuracy := modelAccuracy s;
     audioFiles := audioFiles s;
     newAudioForClassification := newAudioForClassification s;
     prediction := v; confidence := confidence s |}.

Definition setConfidence (v : option float) (s : State) : State :=
  {| currentProject := currentProject s; datasets := datasets s;
     isTraining := isTraining s; modelAccuracy := modelAccuracy s;
     audioFiles := audioFiles s;
     newAudioForClassification := newAudioForClassification s;
     prediction := prediction s; confidence := v |}.

(** [handleDatasetUpload(element, files)]: the updater
    [prev => ({...prev, [element]: [...prev[element], ...newFiles]})].
    [prev[element]] is [undefined] for a name that is not a key, and
    spreading it throws. *)
Definition handleDatasetUpload (element : string) (files : list File)
    (s : State) : option State :=
  let newFiles :=
    (λ file, {| name := file_name file; size := file_size file;
                element := element |}) <$> files in
  prev_element ← audioFiles s !! element;
  Some (setAudioFiles (<[element := prev_element ++ newFiles]> (audioFiles s)) s).

(** [Object.values(audioFiles)]; the order plays no role below. *)
Definition Object_values {A} (o : gmap string A) : list A := (map_to_list o).*2.

(** The [disabled] attribute of the training button:
    [isTraining || Object.values(audioFiles).every(arr => arr.length === 0)]. *)
Definition training_disabled (s : State) : bool :=
  isTraining s || forallb (λ arr, Nat.eqb (length arr) 0) (Object_values (audioFiles s)).

(** The [disabled] attribute of the classification input: [!modelAccuracy]. *)
Definition classify_disabled (s : State) : bool := negb (truthy (modelAccuracy s)).

(** [Math.random() * 0.05 + 0.95] and [Math.random() * 0.1 + 0.9]. *)
Definition training_accuracy (r : float) : float := (r * 0.05 + 0.95)%float.
Definition classification_confidence (r : float) : float := (r * 0.1 + 0.9)%float.

(** [elements[Math.floor(Math.random() * elements.length)]], the
    array having four entries. *)
Definition randomElement (r : float) : option string :=
  array_get elements (Math_floor (r * 4)%float).

(** The callback that [startTraining] hands to [setTimeout]. *)
Definition training_timeout (r : float) (s : State) : State :=
  setModelAccuracy (Some (training_accuracy r)) (setIsTraining false s).

(** The callback that [classifyNewAudio] hands to [setTimeout]; [r1]
    and [r2] are its two calls of [Math.random], in order. *)
Definition classification_timeout (r1 r2 : float) (s : State) : State :=
  setConfidence (Some (classification_confidence r2))
    (setPrediction (randomElement r1) s).

(** [saveProject], [now] being [new Date().toISOString()]. The object
    pushed onto [datasets] refers to the current [audioFiles] object;
    every later update of [audioFiles] builds a new object and a new
    array, none writes into an existing one, so the snapshot is a value. *)
Definition saveProject (now : string) (s : State) : State :=
  let projectData := {|
    pd_name := currentProject s;
    pd_datasets := audioFiles s;
    pd_accuracy := modelAccuracy s;
    pd_timestamp := now |} in
  setDatasets (datasets s ++ [projectData]) s.

(** Every entry stored under a key carries that key as its [element]. *)
Definition labelled (o : gmap string (list AudioFile)) : Prop :=
  forall c arr f, o !! c = Some arr -> f ∈ arr -> element f = c.

(** *** The component with its pending timers *)

Inductive Timer := TrainingTimer | ClassificationTimer.

Record World := { app : State; timers : list Timer }.

Definition initial_world : World := {| app := initial; timers := [] |}.

(** [startTraining]: [setIsTraining(true)] and a timer of 3000 ms. *)
Definition startTraining (w : World) : World :=
  {| app := setIsTraining true (app w); timers := timers w ++ [TrainingTimer] |}.

(** [classifyNewAudio(file)]: the file is recorded and a timer of
    1500 ms is set. *)
Definition classifyNewAudio (file : File) (w : World) : World :=
  {| app := setNewAudioForClassification (Some file) (app w);
     timers := timers w ++ [ClassificationTimer] |}.

Inductive Event :=
| ProjectNameChange (v : string)
| DatasetUpload (element : string) (files : list File)
| TrainingClick
| SaveClick (now : string)
| ClassifyUpload (file : File)
| TimerFires (i : nat) (draws : list float).

(** One event of the page. [None]: the event cannot happen in this
    state (the control is disabled, there is no such timer, the
    draws are not results of [Math.random]) or the handler throws. *)
Definition step (w : World) (ev : Event) : option World :=
  match ev with
  | ProjectNameChange v =>
      Some {| app := setCurrentProject v (app w); timers := timers w |}
  | DatasetUpload element files =>
      s ← handleDatasetUpload element files (app w);
      Some {| app := s; timers := timers w |}
  | TrainingClick =>
      if training_disabled (app w) then None else Some (startTraining w)
  | SaveClick now =>
      Some {| app := saveProject now (app w); timers := timers w |}
  | ClassifyUpload file =>
      if classify_disabled (app w) then None else Some (classifyNewAudio file w)
  | TimerFires i draws =>
      match timers w !! i, draws with
      | Some TrainingTimer, [r] =>
          if random_ok r
          then Some {| app := training_timeout r (app w);
                       timers := delete i (timers w) |}
          else None
      | Some ClassificationTimer, [r1; r2] =>
          if random_ok r1 && random_ok r2
          then Some {| app := classification_timeout r1 r2 (app w);
                       timers := delete i (timers w) |}
          else None
      | _, _ => None
      end
  end.

Fixpoint run (w : World) (evs : list Event) : option World :=
  match evs with
  | [] => Some w
  | ev :: evs' => w' ← step w ev; run w' evs'
  end.

Definition reachable (w : World) : Prop := exists evs, run initial_world evs = Some w.

Definition fires_timer (ev : Event) : bool :=
  match ev with
  | TimerFires _ _ => true
  | _ => false
  end.

(** Number of training timers that have not fired yet. *)
Fixpoint trainings_in_flight (ts : list Timer) : nat :=
  match ts with
  | [] => 0
  | TrainingTimer :: ts' => S (trainings_in_flight ts')
  | ClassificationTimer :: ts' => trainings_in_flight ts'
  end.

(** The flag [isTraining] counts the pending training timers. *)
Definition flag_counts (w : World) : Prop :=
  trainings_in_flight (timers w) = if isTraining (app w) then 1 else 0.

(** The accuracy on display, if any, lies in the closed interval
    from 0.95 to 1. *)
Definition accuracy_in_range (s : State) : Prop :=
  forall a, modelAccuracy s = Some a ->
    (0.95 <=? a)%float = true /\ (a <=? 1)%float = true.

(** The prediction on display, if any, is one of the four classes and
    comes with a confidence between 0 and 1. *)
Definition prediction_well_formed (s : State) : Prop :=
  match prediction s, confidence s with
  | None, None => True
  | Some c, Some x =>
      c ∈ elements /\ (0 <=? x)%float = true /\ (x <=? 1)%float = true
  | _, _ => False
  end.

(** A whole classification: the upload of [file], then the timer it
    set firing with the draws [r1], [r2]; the result is what the page
    then shows as prediction and confidence. *)
Definition classify (w : World) (file : File) (r1 r2 : float)
    : option (option string * option float) :=
  w1 ← step w (ClassifyUpload file);
  w2 ← step w1 (TimerFires (length (timers w)) [r1; r2]);
  Some (prediction (app w2), confidence (app w2)).

(** A whole training: the click, then the timer it set firing with
    the draw [r]. *)
Definition train (w : World) (r : float) : option World :=
  w1 ← step w TrainingClick;
  step w1 (TimerFires (length (timers w)) [r]).
End VoiceClassifierApp.

(** ** VoiceLab.jsx *)

Module VoiceLab.
(** The keys of [audioFiles]; the page also spells them out in the
    array over which it renders the [addToDataset] buttons. *)
Definition elements : list string := ["aria"; "acqua"; "terra"; "fuoco"].
Definition class_set : gset string := list_to_set elements.

(** An entry of [audioFiles[element]]: the stored-file metadata that
    the backend returns in [result.files]; the page reads [filename]
    and [size]. *)
Record StoredFile := { filename : string; size : Z }.

Record Recommendation := { priority : string; message : string }.

(** The body of the answer to [GET /dashboard-data], as far as the
    page reads it. *)
Record DashboardData := {
  status : string;
  elements_count : list (string * Z);
  chart_data : list (string * list (string * list float));
  recommendations : list Recommendation }.

(** The [useState] cells that the handlers below read or write. *)
Record State := {
  isAnalyzing : bool;
  audioFiles : gmap string (list StoredFile);
  dashboardData : option DashboardData }.

Definition initial : State := {|
  isAnalyzing := false;
  audioFiles := {[ "aria" := []; "acqua" := []; "terra" := []; "fuoco" := [] ]};
  dashboardData := None |}.

Definition setAudioFiles (v : gmap string (list StoredFile)) (s : State) : State :=
  {| isAnalyzing := isAnalyzing s; audioFiles := v; dashboardData := dashboardData s |}.

Definition setDashboardData (v : option DashboardData) (s : State) : State :=
  {| isAnalyzing := isAnalyzing s; audioFiles := audioFiles s; dashboardData := v |}.

(** Outcome of [fetch] followed by [response.json()] in [uploadFiles]:
    either of them throws, or there is a body, whose [files] may be
    missing. *)
Inductive UploadReply :=
| UploadThrows
| UploadBody (files : option (list StoredFile)).

(** [uploadFiles(element, files)]: an exception of [fetch] or [json]
    is caught and leaves the state as it is; otherwise the updater
    [prev => ({...prev, [element]: [...prev[element], ...result.files]})]
    runs, and throws when it spreads [undefined]. *)
Definition uploadFiles (element : string) (reply : UploadReply)
    (s : State) : option State :=
  match reply with
  | UploadThrows => Some s
  | UploadBody files =>
      prev_element ← audioFiles s !! element;
      result_files ← files;
      Some (setAudioFiles (<[element := prev_element ++ result_files]> (audioFiles s)) s)
  end.

(** Outcome of the [fetch] of [removeFile]: it throws, or there is a
    response with its [ok] flag. *)
Inductive RemoveReply :=
| RemoveThrows
| RemoveResponse (ok : bool).

(** [removeFile(filename, element)]: when [response.ok], the updater
    [prev => ({...prev, [element]: prev[element].filter(f => f.filename !== filename)})]. *)
Definition removeFile (fname element : string) (reply : RemoveReply)
    (s : State) : option State :=
  match reply with
  | RemoveResponse true =>
      prev_element ← audioFiles s !! element;
      Some (setAudioFiles
              (<[element := filter (λ f, filename f ≠ fname) prev_element]> (audioFiles s)) s)
  | _ => Some s
  end.

(** Outcome of the [fetch] of [loadDashboardData]: it throws, or the
    body is a JSON value ([None] for [null]). *)
Inductive DashboardReply :=
| DashboardThrows
| DashboardBody (data : option DashboardData).

Definition loadDashboardData (reply : DashboardReply) (s : State) : State :=
  match reply with
  | DashboardThrows => s
  | DashboardBody data => setDashboardData data s
  end.

(** The right-hand panel:
    [dashboardData && dashboardData.status === 'ready' ? dashboard : placeholder]. *)
Inductive Panel :=
| ScientificDashboard (data : DashboardData)
| InitialPlaceholder.

Definition render_panel (s : State) : Panel :=
  match dashboardData s with
  | Some data =>
      if String.eqb (status data) "ready" then ScientificDashboard data
      else InitialPlaceholder
  | None => InitialPlaceholder
  end.

(** Uploads and removals, each with what the backend answered. *)
Inductive Op :=
| Upload (element : string) (reply : UploadReply)
| Remove (fname element : string) (reply : RemoveReply).

Definition apply_op (s : State) (op : Op) : option State :=
  match op with
  | Upload element reply => uploadFiles element reply s
  | Remove fname element reply => removeFile fname element reply s
  end.

Fixpoint run (s : State) (ops : list Op) : option State :=
  match ops with
  | [] => Some s
  | op :: ops' => s' ← apply_op s op; run s' ops'
  end.

(** How many entries of a list carry the file name [fname]. *)
Definition occurrences (fname : string) (l : list StoredFile) : nat :=
  length (filter (λ f, filename f = fname) l).
End VoiceLab.

(** ** The backend, as far as the claims need it *)

Module Backend.
(** What an analysis run leaves for the dashboard. *)
Record Analysis := {
  an_elements_count : list (string * Z);
  an_chart_data : list (string * list (string * list float));
  an_recommendations : list VoiceLab.Recommendation }.

(** Modelled from the spec: the handler of [GET /dashboard-data]
    (the backend's main.py is not among the sources). Section 6: it
    "returns chart aggregates + recommendations; fails gracefully
    with a "not ready" status if no analysis has run yet".
    [analysis] is [None] until an analysis has run. *)
Definition get_dashboard_data (analysis : option Analysis) : VoiceLab.DashboardReply :=
  VoiceLab.DashboardBody (Some
    match analysis with
    | None =>
        {| VoiceLab.status := "not ready"; VoiceLab.elements_count := [];
           VoiceLab.chart_data := []; VoiceLab.recommendations := [] |}
    | Some a =>
        {| VoiceLab.status := "ready";
           VoiceLab.elements_count := an_elements_count a;
           VoiceLab.chart_data := an_chart_data a;
           VoiceLab.recommendations := an_recommendations a |}
    end).

(** Modelled from the spec: the minimum number of samples per class
    below which training must refuse (section 4.2: "must be
    documented, e.g., 3"); the client has no such constant. *)
Definition minimum_samples : nat := 3.
End Backend.

(** ** Concrete inputs used by the examples *)

Module Examples.
Import VoiceClassifierApp.

Definition fuoco_sample : File := {| file_name := "fuoco_01.wav"; file_size := 204800 |}.
Definition aria_sample : File := {| file_name := "aria_01.wav"; file_size := 102400 |}.

(** The largest binary64 value below 1, [1 - 2^-53], and the one
    before it on the grid of the multiples of [2^-52]. *)
Definition largest_draw : float := 0x1.fffffffffffffp-1%float.
Definition largest_draw_52 : float := 0x1.ffffffffffffep-1%float.

(** One "fuoco" sample uploaded. *)
Definition one_sample_world : World :=
  default initial_world (run initial_world [DatasetUpload "fuoco" [fuoco_sample]]).

(** Two samples in all, one "aria" and one "fuoco". *)
Definition two_sample_world : World :=
  default initial_world
    (run initial_world
       [DatasetUpload "aria" [aria_sample]; DatasetUpload "fuoco" [fuoco_sample]]).

(** One "fuoco" sample uploaded and a training under way. *)
Definition training_world : World :=
  default initial_world (run one_sample_world [TrainingClick]).

(** One "fuoco" sample uploaded and a training completed with the draw 0.5. *)
Definition trained_world : World :=
  default initial_world (train one_sample_world 0.5%float).

(** The project saved after that training. *)
Definition saved_world : World :=
  default initial_world (run trained_world [SaveClick "2024-05-01T10:00:00.000Z"]).

(** After the save, a second training was started and is under way. *)
Definition training_again_world : World :=
  default initial_world (run saved_world [TrainingClick]).

(** A classification of the training sample completed with the draws 0.75 and 0.5. *)
Definition classified_world : World :=
  default initial_world
    (run trained_world [ClassifyUpload fuoco_sample; TimerFires 0 [0.75%float; 0.5%float]]).

Definition stored_file : VoiceLab.StoredFile :=
  {| VoiceLab.filename := "a.wav"; VoiceLab.size := 204800 |}.
Definition other_stored_file : VoiceLab.StoredFile :=
  {| VoiceLab.filename := "b.wav"; VoiceLab.size := 1024 |}.

(** VoiceLab after the backend stored [a.wav] under "aria" and [b.wav] under "terra". *)
Definition lab_state : VoiceLab.State :=
  default VoiceLab.initial
    (VoiceLab.run VoiceLab.initial
       [VoiceLab.Upload "aria" (VoiceLab.UploadBody (Some [stored_file]));
        VoiceLab.Upload "terra" (VoiceLab.UploadBody (Some [other_stored_file]))]).
End Examples.

(** ** VoiceClassifierApp.jsx: what the page shows *)

Module VoiceClassifierAppPage.
Import JsNumber VoiceClassifierApp.

(** A value that is [null] or a number, as an operand of [*]: [null]
    converts to 0. *)
Definition to_number (x : option float) : float := default 0%float x.

(** The panel "Performance Modello": with a truthy [modelAccuracy] it
    shows [modelAccuracy * 100] (as the text [toFixed(1)] and as the
    width of the bar, in percent) and whether
    [modelAccuracy >= 0.96]; otherwise the invitation to train. *)
Inductive PerformancePanel :=
| Performance (percent : float) (target_reached : bool)
| NoPerformance.

Definition render_performance (s : State) : PerformancePanel :=
  if truthy (modelAccuracy s)
  then Performance (to_number (modelAccuracy s) * 100)%float
                   (0.96 <=? to_number (modelAccuracy s))%float
  else NoPerformance.

(** The card under "Classifica Nuovi Audio", rendered when
    [prediction] is truthy (a string that is not empty): the class
    and [confidence * 100]. *)
Definition render_prediction (s : State) : option (string * float) :=
  match prediction s with
  | Some (String a p) => Some (String a p, (to_number (confidence s) * 100)%float)
  | _ => None
  end.

(** [getElementCharacteristics(element)]: the entry of the table
    [characteristics], [undefined] for a name that is not one of its
    keys. *)
Record Characteristics := {
  rhythm : string;
  volume : string;
  tone : string;
  pauses : string;
  pattern : string }.

Definition characteristics : gmap string Characteristics := {[
  "aria" := {| rhythm := "3 frasi/unità";
               volume := "Medio-Alto (65-75 dB)";
               tone := "In salita ↗️";
               pauses := "Brevi e dinamiche";
               pattern := "Leggero, acuto, connessione" |};
  "acqua" := {| rhythm := "2 frasi/unità";
                volume := "Basso-Intimo (45-55 dB)";
                tone := "In discesa ↘️";
                pauses := "Lunghe con trascinamento";
                pattern := "Fluido, grave, condivisione" |};
  "terra" := {| rhythm := "3 frasi/unità";
                volume := "Medio (55-65 dB)";
                tone := "In discesa ↘️";
                pauses := "Regolari senza trascinamento";
                pattern := "Solido, concreto, argomentazioni" |};
  "fuoco" := {| rhythm := "4 frasi/unità";
                volume := "Alto (75-85 dB)";
                tone := "In salita ↗️";
                pauses := "Rapide e incalzanti";
                pattern := "Intenso, pressione, azione" |} ]}.

Definition getElementCharacteristics (element : string) : option Characteristics :=
  characteristics !! element.

(** One card of "Dataset di Training": the class, the number of its
    files and, when there are some, the files and the characteristics
    of the class. Reading [.length] of [audioFiles[element]] or
    [.rhythm] of [getElementCharacteristics(element)] throws when the
    value is [undefined], and then nothing is rendered ([None]). *)
Record Card := {
  card_element : string;
  card_count : nat;
  card_files : list AudioFile;
  card_characteristics : option Characteristics }.

Definition render_card (s : State) (element : string) : option Card :=
  files ← audioFiles s !! element;
  if (0 <? length files)%nat
  then
    shown ← getElementCharacteristics element;
    Some {| card_element := element; card_count := length files;
            card_files := files; card_characteristics := Some shown |}
  else
    Some {| card_element := element; card_count := length files;
            card_files := []; card_characteristics := None |}.

(** The cards, one per key of [elementColors], in its order. *)
Definition render_cards (s : State) : option (list Card) :=
  mapM (render_card s) elements.

(** The prediction and the confidence are written together: a class
    and a number between 0.9 and 1, or neither. *)
Definition drawn_prediction (s : State) : Prop :=
  match prediction s, confidence s with
  | None, None => True
  | Some c, Some x =>
      c ∈ elements /\ (0.9 <=? x)%float = true /\ (x <=? 1)%float = true
  | _, _ => False
  end.

(** The entries that the uploads of a run add under the class [c]. *)
Fixpoint uploaded (c : string) (evs : list Event) : list AudioFile :=
  match evs with
  | [] => []
  | DatasetUpload element files :: evs' =>
      (if decide (element = c)
       then (λ file, {| name := file_name file; size := file_size file;
                        element := element |}) <$> files
       else []) ++ uploaded c evs'
  | _ :: evs' => uploaded c evs'
  end.

(** How many times a run saves the project. *)
Fixpoint saves (evs : list Event) : nat :=
  match evs with
  | [] => 0
  | SaveClick _ :: evs' => S (saves evs')
  | _ :: evs' => saves evs'
  end.

(** The events that let every pending timer fire, the first one
    first, each with draws equal to 0. *)
Fixpoint fire_all (ts : list Timer) : list Event :=
  match ts with
  | [] => []
  | TrainingTimer :: ts' => TimerFires 0 [0%float] :: fire_all ts'
  | ClassificationTimer :: ts' => TimerFires 0 [0%float; 0%float] :: fire_all ts'
  end.
(** A classification has been asked for: a class or a confidence is
    on display, a file is held for classification, or the timer of
    [classifyNewAudio] is pending. *)
Definition classification_started (w : World) : Prop :=
  prediction (app w) <> None \/ confidence (app w) <> None \/
  newAudioForClassification (app w) <> None \/ ClassificationTimer ∈ timers w.
End VoiceClassifierAppPage.

(** ** VoiceLab.jsx: analysis, live analysis and the chart *)

Module VoiceLabSession.
Import JsNumber VoiceLab.

(** What the page reads of the answer to [POST /analyze-live]. *)
Record Prediction := {
  p_element : string;
  p_confidence : float;
  p_suggestion : string }.

Record LiveAnalysis := { la_prediction : option Prediction }.

(** The [useState] cells that the handlers below read or write: those
    of [VoiceLab.State], [analysisResults] (the body of the answer to
    [POST /analyze-dataset], which the page stores and never reads)
    and [liveAnalysis]. *)
Record Session := {
  lab : State;
  analysisResults : option string;
  liveAnalysis : option LiveAnalysis }.

Definition initial_session : Session := {|
  lab := initial;
  analysisResults := None;
  liveAnalysis := None |}.

Definition setIsAnalyzing (v : bool) (s : Session) : Session :=
  {| lab := {| isAnalyzing := v; audioFiles := audioFiles (lab s);
               dashboardData := dashboardData (lab s) |};
     analysisResults := analysisResults s; liveAnalysis := liveAnalysis s |}.

Definition setAnalysisResults (v : option string) (s : Session) : Session :=
  {| lab := lab s; analysisResults := v; liveAnalysis := liveAnalysis s |}.

Definition setLiveAnalysis (v : option LiveAnalysis) (s : Session) : Session :=
  {| lab := lab s; analysisResults := analysisResults s; liveAnalysis := v |}.

Definition setLab (v : State) (s : Session) : Session :=
  {| lab := v; analysisResults := analysisResults s; liveAnalysis := liveAnalysis s |}.

(** Outcome of [fetch] and [response.json()] in [analyzeDataset]. *)
Inductive AnalysisReply :=
| AnalysisThrows
| AnalysisBody (results : string).

(** [analyzeDataset]: the new session and the texts of its [alert]s.
    The status of the answer is not looked at; [loadDashboardData]
    catches what it throws. *)
Definition analyzeDataset (reply : AnalysisReply) (dashboard : DashboardReply)
    (s : Session) : Session * list string :=
  let s1 := setIsAnalyzing true s in
  let '(s2, alerts) :=
    match reply with
    | AnalysisBody results =>
        let s' := setAnalysisResults (Some results) s1 in
        (setLab (loadDashboardData dashboard (lab s')) s', [])
    | AnalysisThrows =>
        (s1, ["Errore durante l'analisi. Verifica che ci siano file caricati."])
    end in
  (setIsAnalyzing false s2, alerts).

(** Outcome of [fetch] and [response.json()] in [analyzeLiveAudio];
    [None] is the body [null]. *)
Inductive LiveReply :=
| LiveThrows
| LiveBody (result : option LiveAnalysis).

(** [analyzeLiveAudio(audioBlob)], which the recorder's [onstop] calls. *)
Definition analyzeLiveAudio (reply : LiveReply) (s : Session) : Session :=
  match reply with
  | LiveThrows => s
  | LiveBody result => setLiveAnalysis result s
  end.

(** The body of the answer to [POST /add-to-dataset]. *)
Record Addition := { added : bool; message : option string }.

Inductive AddReply :=
| AddThrows
| AddBody (result : option Addition).

(** [addToDataset(element)]: the new session, whether a request was
    sent, and the texts of the [alert]s. Without a live analysis it
    returns at once; reading [result.added] of a [null] body throws,
    and the handler catches it. *)
Definition addToDataset (element : string) (reply : AddReply) (s : Session)
    : Session * bool * list string :=
  match liveAnalysis s with
  | None => (s, false, [])
  | Some _ =>
      match reply with
      | AddBody (Some result) =>
          if added result
          then (setLiveAnalysis None s, true,
                ["Audio aggiunto al dataset " +:+ element +:+ "!"])
          else (s, true, [default "undefined" (message result)])
      | _ => (s, true, [])
      end
  end.

(** The operations of a session, each with what the backend answered. *)
Inductive SessionOp :=
| Dataset (op : Op)
| Analyze (reply : AnalysisReply) (dashboard : DashboardReply)
| Live (reply : LiveReply)
| Add (element : string) (reply : AddReply).

(** One operation: the new session and, for an [addToDataset] that
    sent its request, the class and whether the backend reported the
    recording as added. *)
Definition apply_session_op (s : Session) (op : SessionOp)
    : option (Session * list (string * bool)) :=
  match op with
  | Dataset op => lab' ← apply_op (lab s) op; Some (setLab lab' s, [])
  | Analyze reply dashboard => Some ((analyzeDataset reply dashboard s).1, [])
  | Live reply => Some (analyzeLiveAudio reply s, [])
  | Add element reply =>
      let '(s', sent, _) := addToDataset element reply s in
      Some (s', if sent
                then [(element, match reply with
                                | AddBody (Some result) => added result
                                | _ => false
                                end)]
                else [])
  end.

Fixpoint run_session (s : Session) (ops : list SessionOp)
    : option (Session * list (string * bool)) :=
  match ops with
  | [] => Some (s, [])
  | op :: ops' =>
      '(s1, sent1) ← apply_session_op s op;
      '(s2, sent2) ← run_session s1 ops';
      Some (s2, sent1 ++ sent2)
  end.

(** The uploads and removals among the operations of a session. *)
Fixpoint dataset_ops (ops : list SessionOp) : list Op :=
  match ops with
  | [] => []
  | Dataset op :: ops' => op :: dataset_ops ops'
  | _ :: ops' => dataset_ops ops'
  end.



(** The uploads and removals whose state updater throws on a state
    with the four classes: the class is not one of them, or the
    answer to the upload has no [files]. An answer that does not
    update the state cannot throw. *)
Definition op_throws (op : Op) : bool :=
  match op with
  | Upload element (UploadBody files) =>
      negb (bool_decide (element ∈ elements)) || negb (bool_decide (is_Some files))
  | Remove _ element (RemoveResponse true) => negb (bool_decide (element ∈ elements))
  | _ => false
  end.

(** *** The chart of a feature *)







(** *** Concrete inputs used by the examples *)

Definition recording : StoredFile := {| filename := "a.wav"; size := 204800 |}.

Definition ready_dashboard : DashboardData := {|
  status := "ready";
  elements_count := [("aria", 1%Z)];
  chart_data := [("pitch_mean", [("aria", [220%float]); ("acqua", [])])];
  recommendations := [] |}.

Definition live_result : LiveAnalysis :=
  {| la_prediction := Some {| p_element := "aria"; p_confidence := 0.8%float;
                              p_suggestion := "Aggiungi ad aria" |} |}.

(** One file uploaded, one recording analysed live and added to the
    dataset twice in a row, then the dataset analysed. *)
Definition session_ops : list SessionOp :=
  [Dataset (Upload "aria" (UploadBody (Some [recording])));
   Live (LiveBody (Some live_result));
   Add "aria" (AddBody (Some {| added := true; message := None |}));
   Add "aria" (AddBody (Some {| added := true; message := None |}));
   Analyze (AnalysisBody "{}") (DashboardBody (Some ready_dashboard))].

Definition session_end : Session * list (string * bool) :=
  default (initial_session, []) (run_session initial_session session_ops).
End VoiceLabSession.

(** ** ProjectManager.jsx

    A handler is [async]: it runs up to its first [await], and goes on
    when the awaited promise settles. Below a handler is run from its
    start to its end on the answers that its requests receive, one
    after the other; what other handlers do while it waits is not
    part of the model. *)

Module ProjectManager.
Import JsNumber.

(** *** Strings *)

(** The double quote and the line feed, for the texts that hold them. *)
Definition dquote : string := String (Ascii.ascii_of_nat 34) EmptyString.
Definition newline : string := String (Ascii.ascii_of_nat 10) EmptyString.

(** [!s.trim()]: the string is empty once the code points that
    ECMAScript calls WhiteSpace and LineTerminator are stripped from
    both ends, that is, it consists of such code points only. Strings
    are UTF-8 texts; the code points are U+0009 to U+000D, U+0020,
    U+00A0, U+1680, U+2000 to U+200A, U+2028, U+2029, U+202F, U+205F,
    U+3000 and U+FEFF. *)
Fixpoint blank (s : string) : bool :=
  match s with
  | EmptyString => true
  | String a s1 =>
      let a := Ascii.N_of_ascii a in
      if ((9 <=? a) && (a <=? 13) || (a =? 32))%N then blank s1
      else
        match s1 with
        | String b s2 =>
            let b := Ascii.N_of_ascii b in
            if ((a =? 194) && (b =? 160))%N then blank s2
            else
              match s2 with
              | String c s3 =>
                  let c := Ascii.N_of_ascii c in
                  if ((a =? 225) && (b =? 154) && (c =? 128)
                      || (a =? 226) && (b =? 128) &&
                         ((128 <=? c) && (c <=? 138) || (c =? 168) || (c =? 169)
                          || (c =? 175))
                      || (a =? 226) && (b =? 129) && (c =? 159)
                      || (a =? 227) && (b =? 128) && (c =? 128)
                      || (a =? 239) && (b =? 187) && (c =? 191))%N
                  then blank s3
                  else false
              | EmptyString => false
              end
        | EmptyString => false
        end
  end.

(** [s.replace(pattern, replacement)] for a string pattern: the first
    occurrence is replaced. *)
Fixpoint replace (pattern replacement s : string) : string :=
  if String.prefix pattern s
  then replacement +:+ String.substring (String.length pattern)
                         (String.length s - String.length pattern) s
  else
    match s with
    | EmptyString => EmptyString
    | String a s' => String a (replace pattern replacement s')
    end.

(** *** Projects, as the backend describes them *)

Record Statistics := {
  total_files : option float;
  best_accuracy : option float;
  elements_distribution : option (list (string * float)) }.

Record Project := {
  project_id : string;
  name : string;
  description : string;
  trainer : string;
  last_modified : string;
  statistics : option Statistics }.

(** [x || 0] for a value that is a number, [null] or [undefined]. *)
Definition or_zero (x : option float) : float :=
  match x with
  | Some v => if truthy x then v else 0%float
  | None => 0%float
  end.

(** [project.statistics?.total_files || 0] and
    [project.statistics?.best_accuracy || 0]. *)
Definition totalFiles (project : Project) : float :=
  or_zero (statistics project ≫= total_files).
Definition accuracy (project : Project) : float :=
  or_zero (statistics project ≫= best_accuracy).

Definition getProjectStatusColor (project : Project) : string :=
  if (totalFiles project =? 0)%float then "bg-gray-100 text-gray-600"
  else if (0.96 <=? accuracy project)%float then "bg-green-100 text-green-700"
  else if (0.85 <=? accuracy project)%float then "bg-yellow-100 text-yellow-700"
  else "bg-blue-100 text-blue-700".

Definition getProjectStatusText (project : Project) : string :=
  if (totalFiles project =? 0)%float then "Vuoto"
  else if (0.96 <=? accuracy project)%float then "Ottimale"
  else if (0.85 <=? accuracy project)%float then "Buono"
  else "In sviluppo".

(** *** The component *)

Record NewProject := {
  np_name : string;
  np_description : string;
  np_trainer : string }.

Definition emptyProject : NewProject :=
  {| np_name := EmptyString; np_description := EmptyString;
     np_trainer := EmptyString |}.

(** The [useState] cells. *)
Record State := {
  projects : list Project;
  showCreateForm : bool;
  showImportForm : bool;
  newProject : NewProject;
  selectedProjects : list string;
  isLoading : bool }.

Definition initial : State := {|
  projects := [];
  showCreateForm := false;
  showImportForm := false;
  newProject := emptyProject;
  selectedProjects := [];
  isLoading := false |}.

(** The props [API_BASE] and [currentProject]; the calls of the third
    one, [onProjectChange], are recorded among the effects. *)
Record Props := {
  API_BASE : string;
  currentProject : option Project }.

(** *** What the backend answers *)

(** A JSON object, by the properties that the component reads. *)
Record Json := {
  j_projects : option (list Project);
  j_project : option Project;
  j_new_project : option Project;
  j_message : option string }.

(** How reading the body goes: [response.json()] (or
    [response.blob()]) rejects, or the body is [null], or it is an
    object. *)
Inductive Body :=
| BodyThrows
| BodyNull
| BodyObject (o : Json).

(** How a [fetch] goes: it rejects, or there is a response. *)
Inductive Response :=
| FetchThrows
| Responds (ok : bool) (body : Body).

(** *** What a handler does besides writing state *)

Inductive Effect :=
| Fetch (method url : string) (form : list (string * string))
| Alert (text : string)
| Prompt (text default : string)
| Confirm (text : string)
| ConsoleError (text : string)
| OnProjectChange (project : option Project)
| Download (filename : string).

(** A handler runs on the state, counts its [fetch]es (the [n]-th one
    receives the [n]-th answer) and records its effects in order. *)
Record Run := {
  state : State;
  fetches : nat;
  effects : list Effect }.

Inductive Outcome (A : Type) :=
| Returned (a : A)
| Thrown.
Arguments Returned {A} a.
Arguments Thrown {A}.

Definition Handler (A : Type) : Type := (nat -> Response) -> Run -> Outcome A * Run.

#[export] Instance handler_ret : MRet Handler :=
  λ A a _ r, (Returned a, r).

#[export] Instance handler_bind : MBind Handler :=
  λ A B k h answers r,
    match h answers r with
    | (Returned a, r') => k a answers r'
    | (Thrown, r') => (Thrown, r')
    end.

Definition throw {A} : Handler A := λ _ r, (Thrown, r).

(** [try { body } catch (error) { handler } finally { last }]. *)
Definition try_catch {A} (body handler : Handler A) : Handler A :=
  λ answers r,
    match body answers r with
    | (Returned a, r') => (Returned a, r')
    | (Thrown, r') => handler answers r'
    end.

Definition try_catch_finally {A} (body handler : Handler A) (last : Handler unit)
    : Handler A :=
  λ answers r,
    let '(outcome, r') := try_catch body handler answers r in
    match last answers r' with
    | (Returned _, r'') => (outcome, r'')
    | (Thrown, r'') => (Thrown, r'')
    end.

Definition effect (e : Effect) : Handler unit :=
  λ _ r, (Returned (),
          {| state := state r; fetches := fetches r; effects := effects r ++ [e] |}).

Definition update (f : State -> State) : Handler unit :=
  λ _ r, (Returned (),
          {| state := f (state r); fetches := fetches r; effects := effects r |}).

Definition alert (text : string) : Handler unit := effect (Alert text).
Definition console_error (text : string) : Handler unit := effect (ConsoleError text).
Definition onProjectChange (project : option Project) : Handler unit :=
  effect (OnProjectChange project).

Definition fetch (method url : string) (form : list (string * string))
    : Handler (bool * Body) :=
  λ answers r,
    let r' := {| state := state r; fetches := S (fetches r);
                 effects := effects r ++ [Fetch method url form] |} in
    match answers (fetches r) with
    | FetchThrows => (Thrown, r')
    | Responds ok body => (Returned (ok, body), r')
    end.

(** [response.ok]. *)
Definition ok (response : bool * Body) : bool := response.1.

(** [await response.json()]; [None] is [null]. *)
Definition json (response : bool * Body) : Handler (option Json) :=
  match response.2 with
  | BodyThrows => throw
  | BodyNull => mret None
  | BodyObject o => mret (Some o)
  end.

(** [await response.blob()]. *)
Definition blob (response : bool * Body) : Handler unit :=
  match response.2 with
  | BodyThrows => throw
  | _ => mret ()
  end.

(** [result.property]: a TypeError when [result] is [null]. *)
Definition property {A} (result : option Json) (get : Json -> A) : Handler A :=
  match result with
  | Some o => mret (get o)
  | None => throw
  end.

(** [project.property]: a TypeError when [project] is [undefined]. *)
Definition defined {A} (x : option A) : Handler A :=
  match x with
  | Some a => mret a
  | None => throw
  end.

Definition setProjects (v : list Project) : Handler unit :=
  update (λ s, {| projects := v; showCreateForm := showCreateForm s;
                  showImportForm := showImportForm s; newProject := newProject s;
                  selectedProjects := selectedProjects s; isLoading := isLoading s |}).

Definition setShowCreateForm (v : bool) : Handler unit :=
  update (λ s, {| projects := projects s; showCreateForm := v;
                  showImportForm := showImportForm s; newProject := newProject s;
                  selectedProjects := selectedProjects s; isLoading := isLoading s |}).

Definition setNewProject (v : NewProject) : Handler unit :=
  update (λ s, {| projects := projects s; showCreateForm := showCreateForm s;
                  showImportForm := showImportForm s; newProject := v;
                  selectedProjects := selectedProjects s; isLoading := isLoading s |}).

(** [setNewProject(prev => ...)], the form of the three inputs. *)
Definition updateNewProject (f : NewProject -> NewProject) : Handler unit :=
  update (λ s, {| projects := projects s; showCreateForm := showCreateForm s;
                  showImportForm := showImportForm s; newProject := f (newProject s);
                  selectedProjects := selectedProjects s; isLoading := isLoading s |}).

Definition setIsLoading (v : bool) : Handler unit :=
  update (λ s, {| projects := projects s; showCreateForm := showCreateForm s;
                  showImportForm := showImportForm s; newProject := newProject s;
                  selectedProjects := selectedProjects s; isLoading := v |}).

(** *** The handlers *)

Section Handlers.
Variable props : Props.

Definition loadProjects : Handler unit :=
  try_catch
    (response ← fetch "GET" (API_BASE props +:+ "/projects") [];
     data ← json response;
     listed ← property data j_projects;
     setProjects (default [] listed))
    (console_error "Error loading projects:").

Definition loadProject (projectId : string) : Handler unit :=
  setIsLoading true;;
  try_catch_finally
    (response ← fetch "POST" (API_BASE props +:+ "/projects/load/" +:+ projectId) [];
     if ok response then
       result ← json response;
       project ← property result j_project;
       onProjectChange project;;
       loadProjects;;
       message ← property result j_message;
       alert (default "undefined" message)
     else mret ())
    (console_error "Error loading project:";;
     alert "Errore nel caricamento del progetto")
    (setIsLoading false).

(** [createProject], in a render where the cell [newProject] holds [form]. *)
Definition createProject (form : NewProject) : Handler unit :=
  if blank (np_name form) then alert "Nome progetto richiesto"
  else
    setIsLoading true;;
    try_catch_finally
      (response ← fetch "POST" (API_BASE props +:+ "/projects/create")
                    [("name", np_name form); ("description", np_description form);
                     ("trainer", np_trainer form)];
       if ok response then
         result ← json response;
         loadProjects;;
         setShowCreateForm false;;
         setNewProject emptyProject;;
         created ← property result j_project;
         project ← defined created;
         loadProject (project_id project);;
         alert ("Progetto " +:+ dquote +:+ name project +:+ dquote +:+
                " creato e caricato!")
       else mret ())
      (console_error "Error creating project:";;
       alert "Errore nella creazione del progetto")
      (setIsLoading false).

Definition saveCurrentProject : Handler unit :=
  setIsLoading true;;
  try_catch_finally
    (response ← fetch "POST" (API_BASE props +:+ "/projects/save") [];
     if ok response then
       result ← json response;
       loadProjects;;
       alert "Progetto salvato con successo!"
     else mret ())
    (console_error "Error saving project:";;
     alert "Errore nel salvataggio del progetto")
    (setIsLoading false).

(** [!newName] for what [prompt] returned: [null] and the empty
    string are falsy. *)
Definition no_name (answer : option string) : bool :=
  match answer with
  | Some (String _ _) => false
  | _ => true
  end.

(** [duplicateProject], [answer] being what [prompt] returns. *)
Definition duplicateProject (form : NewProject) (projectId projectName : string)
    (answer : option string) : Handler unit :=
  effect (Prompt ("Nome per la copia di " +:+ dquote +:+ projectName +:+ dquote +:+ ":")
                 (projectName +:+ " - Copia"));;
  if no_name answer then mret ()
  else
    setIsLoading true;;
    try_catch_finally
      (response ← fetch "POST" (API_BASE props +:+ "/projects/duplicate/" +:+ projectId)
                    [("new_name", default EmptyString answer);
                     ("trainer", match np_trainer form with
                                 | EmptyString => "Unknown"
                                 | t => t
                                 end)];
       if ok response then
         result ← json response;
         loadProjects;;
         copied ← property result j_new_project;
         project ← defined copied;
         alert ("Progetto duplicato: " +:+ name project)
       else mret ())
      (console_error "Error duplicating project:";;
       alert "Errore nella duplicazione del progetto")
      (setIsLoading false).

(** [deleteProject], [confirmed] being what [confirm] returns. *)
Definition deleteProject (projectId projectName : string) (confirmed : bool)
    : Handler unit :=
  effect (Confirm ("Sei sicuro di voler eliminare " +:+ dquote +:+ projectName +:+
                   dquote +:+ "?" +:+ newline +:+
                   "Questa azione creerà un backup ma il progetto non sarà più visibile."));;
  if negb confirmed then mret ()
  else
    setIsLoading true;;
    try_catch_finally
      (response ← fetch "DELETE" (API_BASE props +:+ "/projects/" +:+ projectId) [];
       if ok response then
         loadProjects;;
         alert "Progetto eliminato con successo"
       else mret ())
      (console_error "Error deleting project:";;
       alert "Errore nell'eliminazione del progetto")
      (setIsLoading false).

(** [exportProject]; reading the body is [response.blob()], and the
    download is the click on the link that the handler builds. *)
Definition exportProject (projectId projectName : string) : Handler unit :=
  setIsLoading true;;
  try_catch_finally
    (response ← fetch "GET" (API_BASE props +:+ "/projects/export/" +:+ projectId) [];
     if ok response then
       blob response;;
       effect (Download (projectName +:+ "_export.zip"));;
       alert "Progetto esportato con successo!"
     else mret ())
    (console_error "Error exporting project:";;
     alert "Errore nell'esportazione del progetto")
    (setIsLoading false).

(** [importProject(file)], [fileName] being [file.name] and [answer]
    what [prompt] returns. *)
Definition importProject (fileName : string) (answer : option string) : Handler unit :=
  effect (Prompt "Nome per il progetto importato:"
                 (replace ".zip" EmptyString fileName));;
  if no_name answer then mret ()
  else
    setIsLoading true;;
    try_catch_finally
      (response ← fetch "POST" (API_BASE props +:+ "/projects/import")
                    [("project_file", fileName);
                     ("new_name", default EmptyString answer)];
       if ok response then
         result ← json response;
         loadProjects;;
         imported ← property result j_project;
         project ← defined imported;
         alert ("Progetto " +:+ dquote +:+ name project +:+ dquote +:+
                " importato con successo!")
       else mret ())
      (console_error "Error importing project:";;
       alert "Errore nell'importazione del progetto")
      (setIsLoading false).

(** *** The events of the page *)

Inductive Event :=
| Mount
| NewProjectClick
| CancelClick
| NameChange (value : string)
| DescriptionChange (value : string)
| TrainerChange (value : string)
| CreateClick
| SaveCurrentClick
| ImportChange (fileName : option string) (answer : option string)
| LoadClick (card : nat)
| DuplicateClick (card : nat) (answer : option string)
| ExportClick (card : nat)
| DeleteClick (card : nat) (confirmed : bool).

(** The handler that an event runs in a render of state [s]; [None]
    when the control is not on the page or is disabled. The cards are
    those of [projects], in order. *)
Definition handler (s : State) (ev : Event) : option (Handler unit) :=
  match ev with
  | Mount => Some loadProjects
  | NewProjectClick => Some (setShowCreateForm true)
  | CancelClick =>
      if showCreateForm s then Some (setShowCreateForm false) else None
  | NameChange v =>
      if showCreateForm s
      then Some (updateNewProject (λ prev,
             {| np_name := v; np_description := np_description prev;
                np_trainer := np_trainer prev |}))
      else None
  | DescriptionChange v =>
      if showCreateForm s
      then Some (updateNewProject (λ prev,
             {| np_name := np_name prev; np_description := v;
                np_trainer := np_trainer prev |}))
      else None
  | TrainerChange v =>
      if showCreateForm s
      then Some (updateNewProject (λ prev,
             {| np_name := np_name prev; np_description := np_description prev;
                np_trainer := v |}))
      else None
  | CreateClick =>
      if showCreateForm s && negb (isLoading s || blank (np_name (newProject s)))
      then Some (createProject (newProject s))
      else None
  | SaveCurrentClick =>
      match currentProject props with
      | Some _ => if isLoading s then None else Some saveCurrentProject
      | None => None
      end
  | ImportChange fileName answer =>
      match fileName with
      | Some f => Some (importProject f answer)
      | None => Some (mret ())
      end
  | LoadClick card =>
      project ← projects s !! card;
      if isLoading s then None else Some (loadProject (project_id project))
  | DuplicateClick card answer =>
      project ← projects s !! card;
      if isLoading s then None
      else Some (duplicateProject (newProject s) (project_id project) (name project)
                   answer)
  | ExportClick card =>
      project ← projects s !! card;
      if isLoading s then None
      else Some (exportProject (project_id project) (name project))
  | DeleteClick card confirmed =>
      project ← projects s !! card;
      if isLoading s then None
      else Some (deleteProject (project_id project) (name project) confirmed)
  end.

(** The events in which the user dismisses the dialog that the handler
    opens ([prompt] returns [null] or nothing was typed, [confirm]
    returns [false]) or selects no file. *)
Definition dismissed (ev : Event) : bool :=
  match ev with
  | ImportChange None _ => true
  | ImportChange (Some _) answer | DuplicateClick _ answer => no_name answer
  | DeleteClick _ confirmed => negb confirmed
  | _ => false
  end.

(** One event, run to its end on the answers that its [fetch]es
    receive. *)
Definition dispatch (answers : nat -> Response) (s : State) (ev : Event)
    : option (Outcome unit * Run) :=
  h ← handler s ev;
  Some (h answers {| state := s; fetches := 0; effects := [] |}).
End Handlers.

(** *** Concrete inputs used by the examples *)

Definition voci : Project := {|
  project_id := "p-1"; name := "Voci"; description := "Prova";
  trainer := "Ada"; last_modified := "2024-05-01T10:00:00";
  statistics := Some {| total_files := Some 12%float;
                        best_accuracy := Some 0.9%float;
                        elements_distribution := None |} |}.

Definition voci_ottimale : Project := {|
  project_id := "p-2"; name := "Voci 2"; description := EmptyString;
  trainer := EmptyString; last_modified := "2024-05-02T10:00:00";
  statistics := Some {| total_files := Some 40%float;
                        best_accuracy := Some 0.97%float;
                        elements_distribution := None |} |}.

Definition lab_props : Props :=
  {| API_BASE := "http://localhost:8000"; currentProject := Some voci |}.

(** The page with one project listed and the creation form filled in. *)
Definition listing : State := {|
  projects := [voci];
  showCreateForm := true;
  showImportForm := false;
  newProject := {| np_name := "Voci 2"; np_description := EmptyString;
                   np_trainer := "Ada" |};
  selectedProjects := [];
  isLoading := false |}.

Definition reply : Json := {|
  j_projects := Some [voci; voci_ottimale];
  j_project := Some voci_ottimale;
  j_new_project := Some voci_ottimale;
  j_message := Some "Progetto caricato" |}.

(** A backend that answers every request with [reply]. *)
Definition all_fine (n : nat) : Response := Responds true (BodyObject reply).

(** A backend that answers every request with status 500 and the body [null]. *)
Definition all_refused (n : nat) : Response := Responds false BodyNull.

(** A backend that creates the project and then goes away. *)
Definition gone_after_first (n : nat) : Response :=
  match n with
  | 0 => Responds true (BodyObject reply)
  | _ => FetchThrows
  end.

(** What an event of these examples does: the outcome and the run. *)
Definition example (answers : nat -> Response) (s : State) (ev : Event)
    : Outcome unit * Run :=
  default (Thrown, {| state := s; fetches := 0; effects := [] |})
          (dispatch lab_props answers s ev).
End ProjectManager.

(** * Part II. Lemmas and theorems *)

(** ** Rounding of binary64 products and sums

    [FloatAxioms] specifies the primitive operations by the functions
    of [SpecFloat]; the lemmas below read those functions as rounding
    to nearest of exact values. *)

Module Binary64Facts.
Import JsNumber.
Local Open Scope Z_scope.

(** *** Powers of two *)

Lemma bpow_pos e : - bias <= e -> 0 < bpow e.
Proof. intros H. unfold bpow. apply Z.pow_pos_nonneg; lia. Qed.

Lemma bpow_shift e k : - bias <= e -> 0 <= k -> bpow (e + k) = 2 ^ k * bpow e.
Proof.
  intros He Hk. unfold bpow.
  replace (e + k + bias) with (k + (e + bias)) by lia.
  apply Z.pow_add_r; lia.
Qed.

Lemma bpow_le e1 e2 : - bias <= e1 -> e1 <= e2 -> bpow e1 <= bpow e2.
Proof. intros H1 H2. unfold bpow. apply Z.pow_le_mono_r; lia. Qed.

Lemma bpow_mul a b : - bias <= a -> - bias <= b -> - bias <= a + b ->
  bpow a * bpow b = bpow (a + b) * bpow 0.
Proof.
  intros Ha Hb Hab. unfold bpow.
  assert (Hb0 : 0 <= bias) by (unfold bias; lia).
  rewrite <- !Z.pow_add_r by lia.
  f_equal. lia.
Qed.

(** A mantissa of [d] binary digits lies between [2^(d-1)] and [2^d]. *)
Lemma digits2_pos_bounds m :
  2 ^ (Zpos (digits2_pos m) - 1) <= Zpos m < 2 ^ Zpos (digits2_pos m).
Proof.
  induction m as [m IH|m IH|]; cbn [digits2_pos].
  - rewrite Pos2Z.inj_succ.
    replace (Z.succ (Zpos (digits2_pos m)) - 1) with (Z.succ (Zpos (digits2_pos m) - 1)) by lia.
    rewrite !Z.pow_succ_r by lia. lia.
  - rewrite Pos2Z.inj_succ.
    replace (Z.succ (Zpos (digits2_pos m)) - 1) with (Z.succ (Zpos (digits2_pos m) - 1)) by lia.
    rewrite !Z.pow_succ_r by lia. lia.
  - cbn. lia.
Qed.

(** *** Shifting a mantissa to the right

    [shr_1] drops one bit and keeps track of what was dropped in the
    round and sticky bits; [shifted m P mrs] is the invariant of the
    iteration. *)

Lemma shifted_init m : shifted m 1 (shr_record_of_loc m loc_Exact).
Proof.
  unfold shifted; cbn. rewrite Z.div_1_r, Z.mod_1_r. repeat split; lia.
Qed.

Lemma shifted_shr_1 m P mrs : 0 <= m -> shifted m P mrs -> shifted m (2 * P) (shr_1 mrs).
Proof.
  intros Hm (HP & Hq & Hl).
  assert (Hrem := Z.mod_pos_bound m P HP).
  assert (Hmod : m mod (2 * P) = m mod P + P * ((m / P) mod 2)).
  { rewrite (Z.mul_comm 2 P). apply Z.rem_mul_r; lia. }
  assert (Hdiv : m / (2 * P) = m / P / 2).
  { rewrite (Z.mul_comm 2 P). symmetry. apply Z.div_div; lia. }
  assert (Hq0 : 0 <= m / P) by (apply Z.div_pos; lia).
  unfold shifted. rewrite Hmod, Hdiv, <- Hq.
  destruct mrs as [q r s]; cbn [shr_m shr_r shr_s] in *.
  split; [lia|].
  destruct q as [|[p|p|]|p]; try lia; cbn [shr_1 shr_m shr_r shr_s].
  - split; [reflexivity|]. change (0 mod 2) with 0.
    destruct r, s; unfold loc_ok in *; cbn [orb] in *; lia.
  - split; [apply Z.div_unique with (r := 1); lia|].
    replace (Zpos p~1 mod 2) with 1
      by (apply Z.mod_unique with (q := Zpos p); lia).
    destruct r, s; unfold loc_ok in *; cbn [orb] in *; lia.
  - split; [apply Z.div_unique with (r := 0); lia|].
    replace (Zpos p~0 mod 2) with 0
      by (apply Z.mod_unique with (q := Zpos p); lia).
    destruct r, s; unfold loc_ok in *; cbn [orb] in *; lia.
  - split; [reflexivity|]. change (1 mod 2) with 1.
    destruct r, s; unfold loc_ok in *; cbn [orb] in *; lia.
Qed.

Lemma shifted_iter m (Hm : 0 <= m) p : forall P mrs,
  shifted m P mrs -> shifted m (2 ^ Zpos p * P) (SpecFloat.iter_pos shr_1 p mrs).
Proof.
  induction p as [p IH|p IH|]; intros P mrs H; cbn [SpecFloat.iter_pos].
  - replace (2 ^ Zpos p~1 * P) with (2 ^ Zpos p * (2 ^ Zpos p * (2 * P))).
    + apply IH, IH, shifted_shr_1; assumption.
    + replace (Zpos p~1) with (1 + (Zpos p + Zpos p)) by lia.
      rewrite !Z.pow_add_r by lia. rewrite Z.pow_1_r. ring.
  - replace (2 ^ Zpos p~0 * P) with (2 ^ Zpos p * (2 ^ Zpos p * P)).
    + apply IH, IH; assumption.
    + replace (Zpos p~0) with (Zpos p + Zpos p) by lia.
      rewrite !Z.pow_add_r by lia. ring.
  - rewrite Z.pow_1_r. apply shifted_shr_1; assumption.
Qed.

(** Rounding the shifted mantissa to nearest, ties to even, moves the
    value by at most half the weight of the last kept bit. *)
Lemma round_nearest_even_spec m P mrs : 0 <= m -> shifted m P mrs ->
  let n := round_nearest_even (shr_m mrs) (loc_of_shr_record mrs) in
  2 * n * P - P <= 2 * m <= 2 * n * P + P /\ m / P <= n <= m / P + 1.
Proof.
  intros Hm (HP & Hq & Hl).
  assert (Hrem := Z.mod_pos_bound m P HP).
  assert (Hdm := Z.div_mod m P ltac:(lia)).
  destruct mrs as [q r s]; cbn [shr_m shr_r shr_s] in *. subst q.
  destruct r, s; cbn [loc_of_shr_record round_nearest_even loc_ok] in *;
    try destruct (Z.even (m / P)); nia.
Qed.

(** *** The exponent of a rounded value *)

Lemma fexp_spec x : fexp prec emax x = Z.max (x - 53) (-1074).
Proof. reflexivity. Qed.

Lemma bias_val : bias = 2200.
Proof. reflexivity. Qed.

(** The exponent [g] chosen for [m * 2^e] leaves at most 53 digits,
    and exactly 53 of them above the subnormal range. *)
Lemma mantissa_magnitude m e :
  let g := fexp prec emax (Zpos (digits2_pos m) + e) in
  - bias <= e ->
  -1074 <= g /\ Zpos m * bpow e < 2 ^ 53 * bpow g /\
  (-1074 < g -> 2 ^ 52 * bpow g <= Zpos m * bpow e).
Proof.
  intros g He. subst g. rewrite fexp_spec.
  set (d := Zpos (digits2_pos m)).
  assert (Hd := digits2_pos_bounds m). fold d in Hd.
  assert (Hd1 : 1 <= d) by (unfold d; lia).
  assert (Hb := bias_val).
  assert (He0 := bpow_pos e He).
  split; [lia|]. split.
  - set (g := Z.max (d + e - 53) (-1074)).
    assert (Hg : - bias <= g) by lia.
    rewrite <- (bpow_shift g 53) by lia.
    assert (bpow (e + d) <= bpow (g + 53)) by (apply bpow_le; lia).
    rewrite (bpow_shift e d) in H by lia. nia.
  - intros Hg.
    replace (Z.max (d + e - 53) (-1074)) with (d + e - 53) in * by lia.
    rewrite <- (bpow_shift (d + e - 53) 52) by lia.
    replace (d + e - 53 + 52) with (e + (d - 1)) by lia.
    rewrite (bpow_shift e (d - 1)) by lia. nia.
Qed.

Lemma shr_nonpos mrs e n : n <= 0 -> shr mrs e n = (mrs, e).
Proof. destruct n; [reflexivity | lia | reflexivity]. Qed.

Lemma shr_pos mrs e p : shr mrs e (Zpos p) = (SpecFloat.iter_pos shr_1 p mrs, e + Zpos p).
Proof. reflexivity. Qed.

(** The second normalisation of [binary_round_aux]: a carry out of the
    mantissa is absorbed without loss. *)
Lemma round_pack m1 g : 0 <= m1 <= 2 ^ 53 -> -1074 <= g <= 900 ->
  forall mrs e, shr_fexp prec emax m1 g loc_Exact = (mrs, e) ->
  let R := match shr_m mrs with
           | Z0 => S754_zero false
           | Zpos m => if e <=? emax - prec then S754_finite false m e
                       else S754_infinity false
           | Zneg _ => S754_nan
           end in
  SFnonneg R = true /\ SFreal R = m1 * bpow g.
Proof.
  intros Hm Hg mrs e. unfold shr_fexp. rewrite fexp_spec.
  assert (Hb := bias_val).
  destruct m1 as [|p|p]; [| |lia].
  - cbn [Zdigits2]. rewrite shr_nonpos by lia.
    intros [= <- <-]. cbn. auto.
  - cbn [Zdigits2]. set (d := Zpos (digits2_pos p)).
    assert (Hd := digits2_pos_bounds p). fold d in Hd.
    destruct (Z.eq_dec (Zpos p) (2 ^ 53)) as [E|E].
    + assert (Hp : p = 9007199254740992%positive) by (change (2 ^ 53) with 9007199254740992 in E; congruence).
      subst p. change d with 54.
      replace (Z.max (54 + g - 53) (-1074) - g) with 1 by lia.
      rewrite shr_pos. intros [= <- <-]. cbn [SpecFloat.iter_pos shr_1 shr_record_of_loc shr_m].
      replace (g + 1 <=? emax - prec) with true
        by (symmetry; apply Z.leb_le; change (emax - prec) with 971; lia).
      cbn [SFnonneg SFreal cond_Zopp]. split; [reflexivity|].
      rewrite (bpow_shift g 1) by lia. change (2 ^ 1) with 2. lia.
    + assert (Hd53 : d <= 53).
      { destruct (Z_le_gt_dec d 53) as [|Hgt]; [assumption|exfalso].
        assert (2 ^ 53 <= 2 ^ (d - 1)) by (apply Z.pow_le_mono_r; lia). lia. }
      rewrite shr_nonpos by lia.
      intros [= <- <-]. cbn [shr_record_of_loc shr_m].
      replace (g <=? emax - prec) with true
        by (symmetry; apply Z.leb_le; change (emax - prec) with 971; lia).
      cbn [SFnonneg SFreal cond_Zopp]. auto.
Qed.

(** [binary_round_aux] on an exact positive value [m * 2^e]: the
    result is nonnegative and finite, a multiple [n] of [2^g], at most
    half of [2^g] away from the value. *)
Lemma binary_round_aux_spec m e :
  let g := fexp prec emax (Zpos (digits2_pos m) + e) in
  - bias <= e -> Zpos (digits2_pos m) + e <= 900 ->
  exists n,
    let R := binary_round_aux prec emax false (Zpos m) e loc_Exact in
    SFnonneg R = true /\ SFreal R = n * bpow g /\
    2 * n * bpow g - bpow g <= 2 * (Zpos m * bpow e) <= 2 * n * bpow g + bpow g.
Proof.
  intros g He Hde.
  destruct (mantissa_magnitude m e He) as (Hg & Hlt & Hge). fold g in Hg, Hlt, Hge.
  assert (Hb := bias_val).
  assert (HG : 0 < bpow g) by (apply bpow_pos; lia).
  assert (HE : 0 < bpow e) by (apply bpow_pos; lia).
  assert (Hg900 : g <= 900) by (unfold g; rewrite fexp_spec; lia).
  unfold binary_round_aux.
  destruct (shr_fexp prec emax (Zpos m) e loc_Exact) as [mrs' e'] eqn:E1.
  unfold shr_fexp in E1. cbn [Zdigits2] in E1. fold g in E1.
  destruct (Z_le_gt_dec g e) as [Hle|Hgt].
  - rewrite shr_nonpos in E1 by lia. injection E1 as <- <-.
    cbn [shr_record_of_loc shr_m loc_of_shr_record round_nearest_even].
    destruct (shr_fexp prec emax (Zpos m) e loc_Exact) as [mrs e''] eqn:E2.
    assert (Hm53 : Zpos m < 2 ^ 53).
    { assert (bpow g <= bpow e) by (apply bpow_le; lia). nia. }
    destruct (round_pack (Zpos m) e ltac:(lia) ltac:(lia) _ _ E2) as [N V].
    exists (Zpos m * 2 ^ (e - g)).
    cbv beta iota zeta. split; [exact N|].
    assert (Hs : bpow e = 2 ^ (e - g) * bpow g).
    { rewrite <- bpow_shift by lia. f_equal. lia. }
    split; [rewrite V, Hs; ring|]. rewrite Hs. nia.
  - destruct (g - e) as [|k|k] eqn:Hk; try lia.
    rewrite shr_pos in E1. replace (e + Zpos k) with g in E1 by lia.
    injection E1 as <- <-.
    assert (Hsh := shifted_iter (Zpos m) ltac:(lia) k 1 _ (shifted_init (Zpos m))).
    rewrite Z.mul_1_r in Hsh. cbn [shr_record_of_loc] in Hsh.
    set (mrs' := SpecFloat.iter_pos shr_1 k _) in *.
    destruct (round_nearest_even_spec (Zpos m) _ _ ltac:(lia) Hsh) as [Hn Hq].
    set (n := round_nearest_even (shr_m mrs') (loc_of_shr_record mrs')) in *.
    assert (Hs : bpow g = 2 ^ Zpos k * bpow e).
    { rewrite <- bpow_shift by lia. f_equal. lia. }
    assert (HP : 0 < 2 ^ Zpos k) by (apply Z.pow_pos_nonneg; lia).
    assert (Hq0 : 0 <= Zpos m / 2 ^ Zpos k) by (apply Z.div_pos; lia).
    assert (Hq53 : Zpos m / 2 ^ Zpos k < 2 ^ 53).
    { apply Z.div_lt_upper_bound; [lia|]. rewrite Hs in Hlt. nia. }
    destruct (shr_fexp prec emax n g loc_Exact) as [mrs e''] eqn:E2.
    destruct (round_pack n g ltac:(lia) ltac:(lia) _ _ E2) as [N V].
    exists n. cbv beta iota zeta. split; [exact N|]. split; [exact V|].
    rewrite Hs. nia.
Qed.

(** *** Canonical representations *)

Lemma bounded_spec m e : bounded prec emax m e = true ->
  -1074 <= e <= 971 /\ Zpos m < 2 ^ 53 /\ (-1074 < e -> 2 ^ 52 <= Zpos m).
Proof.
  unfold bounded, canonical_mantissa. rewrite fexp_spec.
  intros H. apply andb_true_iff in H as [Hc He].
  apply Z.eqb_eq in Hc. apply Z.leb_le in He. change (emax - prec) with 971 in He.
  assert (Hd := digits2_pos_bounds m).
  set (d := Zpos (digits2_pos m)) in *.
  assert (d <= 53) by lia.
  assert (2 ^ d <= 2 ^ 53) by (apply Z.pow_le_mono_r; lia).
  split; [lia|]. split; [lia|].
  intros Hn. replace (d - 1) with 52 in Hd by lia. lia.
Qed.

(** *** Rounding does not step over a representable number

    [V] is an exact value at least [2^52] units of its grid [2^g] (or
    on the lowest grid), [n * 2^g] a rounding of it, and [mb * 2^eb] a
    representable number: that number is a multiple of the unit, or is
    smaller than [V] by more than a unit. *)

Section NoCross.
Variables (V n g : Z) (mb : positive) (eb : Z).
Hypothesis Hg : -1074 <= g.
Hypothesis Hmag : -1074 < g -> 2 ^ 52 * bpow g <= V.
Hypothesis Hb : bounded prec emax mb eb = true.

Lemma grid_cases :
  (exists c, Zpos mb * bpow eb = c * bpow g) \/
  (2 ^ 52 * bpow g <= V /\ 2 * (Zpos mb * bpow eb) < 2 ^ 53 * bpow g).
Proof.
  destruct (bounded_spec _ _ Hb) as (He & Hm & _).
  assert (Hbv := bias_val).
  destruct (Z_le_gt_dec g eb) as [Hle|Hgt].
  - left. exists (Zpos mb * 2 ^ (eb - g)).
    replace eb with (g + (eb - g)) at 1 by lia.
    rewrite bpow_shift by lia. ring.
  - right. split; [apply Hmag; lia|].
    assert (bpow (eb + 1) <= bpow g) by (apply bpow_le; lia).
    rewrite (bpow_shift eb 1) in H by lia. change (2 ^ 1) with 2 in H.
    assert (0 < bpow eb) by (apply bpow_pos; lia). nia.
Qed.

Lemma no_cross_upper :
  2 * n * bpow g - bpow g <= 2 * V -> V <= Zpos mb * bpow eb ->
  n * bpow g <= Zpos mb * bpow eb.
Proof.
  intros Hn HV. assert (Hbv := bias_val).
  assert (HG : 0 < bpow g) by (apply bpow_pos; lia).
  destruct grid_cases as [[c Hc]|[H1 H2]]; [rewrite Hc in *|lia].
  destruct (Z_le_gt_dec n c) as [Hle|Hgt].
  - apply Z.mul_le_mono_nonneg_r; lia.
  - assert ((c + 1) * bpow g <= n * bpow g)
      by (apply Z.mul_le_mono_nonneg_r; lia).
    lia.
Qed.

Lemma no_cross_lower :
  2 * V <= 2 * n * bpow g + bpow g -> Zpos mb * bpow eb <= V ->
  Zpos mb * bpow eb <= n * bpow g.
Proof.
  intros Hn HV. assert (Hbv := bias_val).
  assert (HG : 0 < bpow g) by (apply bpow_pos; lia).
  destruct grid_cases as [[c Hc]|[H1 H2]]; [rewrite Hc in *|].
  - destruct (Z_le_gt_dec c n) as [Hle|Hgt].
    + apply Z.mul_le_mono_nonneg_r; lia.
    + assert ((n + 1) * bpow g <= c * bpow g)
        by (apply Z.mul_le_mono_nonneg_r; lia).
      lia.
  - change (2 ^ 53) with (2 * 2 ^ 52) in H2.
    destruct (Z_le_gt_dec (2 ^ 52) n) as [Hle|Hgt].
    + assert (2 ^ 52 * bpow g <= n * bpow g)
        by (apply Z.mul_le_mono_nonneg_r; lia).
      lia.
    + assert (n * bpow g <= (2 ^ 52 - 1) * bpow g)
        by (apply Z.mul_le_mono_nonneg_r; lia).
      lia.
Qed.
End NoCross.

(** *** The order of canonical values is the order of the values *)

Lemma SFleb_real x y :
  valid_binary x = true -> valid_binary y = true ->
  SFnonneg x = true -> SFnonneg y = true ->
  SFreal x <= SFreal y -> SFleb x y = true.
Proof.
  assert (Hbv := bias_val).
  destruct x as [sx| | |sx mx ex], y as [sy| | |sy my ey]; try discriminate;
    cbn [valid_binary SFnonneg SFreal]; intros Vx Vy Nx Ny H; try reflexivity.
  - destruct sy; [discriminate|reflexivity].
  - destruct sx; [discriminate|]. cbn [cond_Zopp] in H.
    destruct (bounded_spec _ _ Vx) as (He & _).
    assert (0 < bpow ex) by (apply bpow_pos; lia). lia.
  - destruct sx, sy; try discriminate. cbn [cond_Zopp] in H.
    destruct (bounded_spec _ _ Vx) as (Hex & Hmx & Hnx).
    destruct (bounded_spec _ _ Vy) as (Hey & Hmy & Hny).
    assert (0 < bpow ex) by (apply bpow_pos; lia).
    assert (0 < bpow ey) by (apply bpow_pos; lia).
    unfold SFleb, SFcompare.
    destruct (Z.compare_spec ex ey) as [E|L|G]; [subst ey| reflexivity |exfalso].
    + rewrite Pos.compare_cont_spec. cbn [Pos.switch_Eq].
      destruct (Pos.compare_spec mx my) as [E|L|G]; try reflexivity. nia.
    + assert (bpow (ey + 1) <= bpow ex) by (apply bpow_le; lia).
      rewrite (bpow_shift ey 1) in H2 by lia. change (2 ^ 1) with 2 in H2.
      specialize (Hnx ltac:(lia)). nia.
Qed.

Lemma SFltb_real x y :
  valid_binary x = true -> valid_binary y = true ->
  SFnonneg x = true -> SFnonneg y = true ->
  SFltb x y = true -> SFreal x < SFreal y.
Proof.
  assert (Hbv := bias_val).
  destruct x as [sx| | |sx mx ex], y as [sy| | |sy my ey]; try discriminate;
    cbn [valid_binary SFnonneg SFreal]; intros Vx Vy Nx Ny H; try discriminate.
  - destruct sy; [discriminate|]. cbn [cond_Zopp].
    destruct (bounded_spec _ _ Vy) as (He & _).
    assert (0 < bpow ey) by (apply bpow_pos; lia). lia.
  - destruct sx; discriminate.
  - destruct sx, sy; try discriminate. cbn [cond_Zopp].
    destruct (bounded_spec _ _ Vx) as (Hex & Hmx & Hnx).
    destruct (bounded_spec _ _ Vy) as (Hey & Hmy & Hny).
    assert (0 < bpow ex) by (apply bpow_pos; lia).
    assert (0 < bpow ey) by (apply bpow_pos; lia).
    unfold SFltb, SFcompare in H.
    destruct (Z.compare_spec ex ey) as [E|L|G]; [subst ey| |discriminate].
    + rewrite Pos.compare_cont_spec in H. cbn [Pos.switch_Eq] in H.
      destruct (Pos.compare_spec mx my) as [E|L|G]; try discriminate. nia.
    + assert (bpow (ex + 1) <= bpow ey) by (apply bpow_le; lia).
      rewrite (bpow_shift ex 1) in H2 by lia. change (2 ^ 1) with 2 in H2.
      specialize (Hny ltac:(lia)). nia.
Qed.

(** *** The relation [rounds_to] *)

Lemma bpow_lt_inv a b : - bias <= b -> bpow a < bpow b -> a < b.
Proof.
  intros Hb H. destruct (Z_lt_le_dec a b) as [|Hle]; [assumption|exfalso].
  assert (bpow b <= bpow a) by (apply bpow_le; lia). lia.
Qed.

Lemma binary_round_aux_rounds m e :
  - bias <= e -> Zpos m * bpow e < bpow 800 ->
  rounds_to (Zpos m * bpow e) (binary_round_aux prec emax false (Zpos m) e loc_Exact).
Proof.
  intros He Hlt. assert (Hbv := bias_val).
  assert (Hd := digits2_pos_bounds m).
  assert (HE : 0 < bpow e) by (apply bpow_pos; lia).
  assert (Hde : Zpos (digits2_pos m) + e <= 900).
  { assert (bpow (e + (Zpos (digits2_pos m) - 1)) < bpow 800).
    { rewrite bpow_shift by lia. nia. }
    apply bpow_lt_inv in H; lia. }
  destruct (binary_round_aux_spec m e He Hde) as (n & N & V & B).
  destruct (mantissa_magnitude m e He) as (Hg & Hl & Hm).
  exists n, (fexp prec emax (Zpos (digits2_pos m) + e)). auto 10.
Qed.

Lemma rounds_to_upper V R mb eb :
  rounds_to V R -> bounded prec emax mb eb = true ->
  V <= Zpos mb * bpow eb -> SFreal R <= Zpos mb * bpow eb.
Proof.
  intros (n & g & Hg & _ & -> & Hn & _ & Hm) Hb HV.
  apply no_cross_upper with (V := V); tauto.
Qed.

Lemma rounds_to_lower V R mb eb :
  rounds_to V R -> bounded prec emax mb eb = true ->
  Zpos mb * bpow eb <= V -> Zpos mb * bpow eb <= SFreal R.
Proof.
  intros (n & g & Hg & _ & -> & Hn & _ & Hm) Hb HV.
  apply no_cross_lower with (V := V); tauto.
Qed.

Lemma rounds_to_nonneg V R : rounds_to V R -> SFnonneg R = true.
Proof. intros (n & g & _ & H & _). exact H. Qed.

(** A value that is a canonical mantissa times a power of two at or
    above its exponent is returned unchanged. *)
Lemma rounds_to_exact V R m e :
  rounds_to V R -> bounded prec emax m e = true -> - bias <= e ->
  forall k, 0 <= k -> V = Zpos m * bpow (e + k) -> SFreal R = V.
Proof.
  intros (n & g & Hg & _ & -> & Hn & Hlt & Hm) Hb He k Hk HV.
  assert (Hbv := bias_val).
  destruct (bounded_spec _ _ Hb) as (Hee & Hm53 & _).
  assert (HG : 0 < bpow g) by (apply bpow_pos; lia).
  assert (HK : 0 < bpow (e + k)) by (apply bpow_pos; lia).
  assert (Hgk : g <= e + k).
  { destruct (Z.eq_dec g (-1074)) as [|Hne]; [lia|].
    specialize (Hm ltac:(lia)).
    assert (bpow g < bpow (e + k + 1)).
    { rewrite (bpow_shift (e + k) 1) by lia. change (2 ^ 1) with 2.
      change (2 ^ 53) with (2 * 2 ^ 52) in Hm53. nia. }
    apply bpow_lt_inv in H; lia. }
  assert (Hc : V = (Zpos m * 2 ^ (e + k - g)) * bpow g).
  { rewrite HV. replace (e + k) with (g + (e + k - g)) at 1 by lia.
    rewrite bpow_shift by lia. ring. }
  set (c := Zpos m * 2 ^ (e + k - g)) in *.
  rewrite Hc in *.
  destruct (Z.lt_trichotomy n c) as [L|[E|G]]; [exfalso|subst; reflexivity|exfalso].
  - assert ((n + 1) * bpow g <= c * bpow g)
      by (apply Z.mul_le_mono_nonneg_r; lia). lia.
  - assert ((c + 1) * bpow g <= n * bpow g)
      by (apply Z.mul_le_mono_nonneg_r; lia). lia.
Qed.

(** An exact value at most [2^-55] above 1 rounds to at most 1. *)
Lemma rounds_to_near_one V R :
  rounds_to V R -> V <= bpow 0 + bpow (-55) -> SFreal R <= bpow 0.
Proof.
  intros HR HV. assert (Hbv := bias_val).
  assert (H1 : bounded prec emax 4503599627370496 (-52) = true) by reflexivity.
  assert (E1 : Zpos 4503599627370496 * bpow (-52) = bpow 0).
  { change (Zpos 4503599627370496) with (2 ^ 52).
    rewrite <- bpow_shift by lia. reflexivity. }
  destruct (Z_le_gt_dec V (bpow 0)) as [Hle|Hgt].
  - rewrite <- E1. apply rounds_to_upper with (V := V); [assumption..|lia].
  - destruct HR as (n & g & Hg & _ & -> & Hn & Hlt & Hm).
    assert (HG : 0 < bpow g) by (apply bpow_pos; lia).
    assert (H55 : 0 < bpow (-55)) by (apply bpow_pos; lia).
    assert (E0 : bpow 0 = 2 ^ 55 * bpow (-55)).
    { rewrite <- bpow_shift by lia. reflexivity. }
    assert (Hlo : -52 <= g).
    { assert (bpow (-53) < bpow g).
      { assert (E53 : bpow 0 = 2 ^ 53 * bpow (-53))
          by (rewrite <- bpow_shift by lia; reflexivity).
        nia. }
      apply bpow_lt_inv in H; lia. }
    assert (Hhi : g <= 0).
    { specialize (Hm ltac:(lia)).
      assert (bpow g < bpow 1).
      { change (bpow 1) with (bpow (0 + 1)).
        rewrite (bpow_shift 0 1) by lia. change (2 ^ 1) with 2.
        assert (1 <= 2 ^ 52) by (change (2 ^ 52) with 4503599627370496; lia).
        nia. }
      apply bpow_lt_inv in H; lia. }
    assert (EG : bpow g = 2 ^ (g + 55) * bpow (-55)).
    { rewrite <- bpow_shift by lia. f_equal. lia. }
    assert (E00 : bpow 0 = 2 ^ (- g) * bpow g).
    { rewrite <- bpow_shift by lia. f_equal. lia. }
    assert (HP : 8 <= 2 ^ (g + 55)).
    { change 8 with (2 ^ 3). apply Z.pow_le_mono_r; lia. }
    destruct (Z_le_gt_dec n (2 ^ (- g))) as [Hnle|Hngt].
    + rewrite E00. apply Z.mul_le_mono_nonneg_r; lia.
    + exfalso.
      assert ((2 ^ (- g) + 1) * bpow g <= n * bpow g)
        by (apply Z.mul_le_mono_nonneg_r; lia).
      nia.
Qed.

(** *** Sums: the exponents are aligned first *)

Lemma iter_xO_spec m d :
  Zpos (Pos.iter xO m d) = Zpos m * 2 ^ Zpos d.
Proof.
  induction d as [|d IH] using Pos.peano_ind.
  - cbn [Pos.iter]. rewrite Z.pow_1_r. lia.
  - rewrite Pos.iter_succ, Pos2Z.inj_xO, IH, Pos2Z.inj_succ, Z.pow_succ_r by lia.
    ring.
Qed.

Lemma shl_align_spec m e e' : - bias <= e' -> - bias <= e ->
  Zpos (fst (shl_align m e e')) * bpow (snd (shl_align m e e')) = Zpos m * bpow e /\
  snd (shl_align m e e') = Z.min e e'.
Proof.
  intros He' He. unfold shl_align.
  destruct (e' - e) as [|d|d] eqn:Hd; cbn [fst snd].
  - split; [reflexivity|lia].
  - split; [reflexivity|lia].
  - rewrite iter_xO_spec. split; [|lia].
    replace e with (e' + Zpos d) by lia.
    rewrite bpow_shift by lia. ring.
Qed.

Lemma SFmul_rounds mx ex my ey :
  - bias <= ex + ey -> Zpos (mx * my) * bpow (ex + ey) < bpow 800 ->
  rounds_to (Zpos (mx * my) * bpow (ex + ey))
    (SF64mul (S754_finite false mx ex) (S754_finite false my ey)).
Proof. intros. apply binary_round_aux_rounds; assumption. Qed.

Lemma SFadd_rounds mx ex my ey :
  -1074 <= ex -> -1074 <= ey ->
  Zpos mx * bpow ex + Zpos my * bpow ey < bpow 800 ->
  rounds_to (Zpos mx * bpow ex + Zpos my * bpow ey)
    (SF64add (S754_finite false mx ex) (S754_finite false my ey)).
Proof.
  intros Hx Hy Hlt. assert (Hbv := bias_val).
  unfold SF64add, SFadd. cbn [cond_Zopp].
  set (ez := Z.min ex ey).
  destruct (shl_align_spec mx ex ez ltac:(lia) ltac:(lia)) as [Vx Ex].
  destruct (shl_align_spec my ey ez ltac:(lia) ltac:(lia)) as [Vy Ey].
  replace (snd (shl_align mx ex ez)) with ez in Vx by lia.
  replace (snd (shl_align my ey ez)) with ez in Vy by lia.
  set (mx' := fst (shl_align mx ex ez)) in *.
  set (my' := fst (shl_align my ey ez)) in *.
  change (Zpos mx' + Zpos my') with (Zpos (mx' + my')).
  cbn [binary_normalize]. unfold binary_round.
  set (gz := fexp prec emax (Zpos (digits2_pos (mx' + my')) + ez)).
  assert (Hgz : -1074 <= gz) by (unfold gz; rewrite fexp_spec; lia).
  destruct (shl_align_spec (mx' + my') ez gz ltac:(lia) ltac:(lia)) as [Vz Ez].
  destruct (shl_align (mx' + my') ez gz) as [mz ez'] eqn:Hz. cbn [fst snd] in *.
  assert (E : Zpos mz * bpow ez' = Zpos mx * bpow ex + Zpos my * bpow ey).
  { rewrite Vz, Pos2Z.inj_add. lia. }
  rewrite <- E. apply binary_round_aux_rounds; [lia|]. rewrite E. exact Hlt.
Qed.

(** *** The primitive operations on nonnegative numbers *)

Lemma SFreal_nonneg x : SFnonneg x = true -> 0 <= SFreal x.
Proof.
  destruct x as [s| | |[|] m e]; cbn [SFnonneg SFreal cond_Zopp];
    try discriminate; try lia.
  intros _. assert (0 <= bpow e) by (unfold bpow; apply Z.pow_nonneg; lia). lia.
Qed.

Lemma rounds_to_zero s : rounds_to 0 (S754_zero s).
Proof.
  assert (Hbv := bias_val).
  assert (0 < bpow (-1074)) by (apply bpow_pos; lia).
  exists 0, (-1074). cbn [SFnonneg SFreal]. repeat split; try reflexivity; lia.
Qed.

Lemma rounds_to_self m e : bounded prec emax m e = true ->
  rounds_to (Zpos m * bpow e) (S754_finite false m e).
Proof.
  intros Hb. assert (Hbv := bias_val).
  destruct (bounded_spec _ _ Hb) as (He & Hm & Hn).
  assert (0 < bpow e) by (apply bpow_pos; lia).
  exists (Zpos m), e. cbn [SFnonneg SFreal cond_Zopp].
  split; [lia|]. split; [reflexivity|]. split; [reflexivity|].
  split; [lia|]. split; [nia|]. intros Hlt. specialize (Hn Hlt). nia.
Qed.

Lemma valid_exponent s m e :
  valid_binary (S754_finite s m e) = true -> -1074 <= e <= 971.
Proof. intros H. apply bounded_spec in H. tauto. Qed.

(** The product of two nonnegative numbers is a rounding of the exact
    product [V] (the two factors being scaled, [V] is scaled twice). *)
Lemma mul_rounds x c :
  SFnonneg (Prim2SF x) = true -> SFnonneg (Prim2SF c) = true ->
  SFreal (Prim2SF x) <= bpow 0 -> SFreal (Prim2SF c) < bpow 800 ->
  exists V, V * bpow 0 = SFreal (Prim2SF x) * SFreal (Prim2SF c) /\
            rounds_to V (Prim2SF (x * c)).
Proof.
  intros Nx Nc Hx Hc. rewrite mul_spec. assert (Hbv := bias_val).
  assert (Vx := Prim2SF_valid x). assert (Vc := Prim2SF_valid c).
  destruct (Prim2SF x) as [sx| | |sx mx ex], (Prim2SF c) as [sc| | |sc mc ec];
    try discriminate; cbn [SF64mul SFmul SFreal] in *;
    try (exists 0; split; [lia | apply rounds_to_zero]).
  destruct sx, sc; try discriminate. cbn [cond_Zopp xorb] in *.
  apply valid_exponent in Vx, Vc.
  assert (E : Zpos (mx * mc) * bpow (ex + ec) * bpow 0
              = Zpos mx * bpow ex * (Zpos mc * bpow ec)).
  { rewrite Pos2Z.inj_mul, <- Z.mul_assoc, <- bpow_mul by lia. ring. }
  exists (Zpos (mx * mc) * bpow (ex + ec)). split; [exact E|].
  apply SFmul_rounds; [lia|].
  assert (0 < bpow 0) by (apply bpow_pos; lia).
  assert (0 < bpow ec) by (apply bpow_pos; lia). nia.
Qed.

(** The sum of two nonnegative numbers is a rounding of the exact sum. *)
Lemma add_rounds x d :
  SFnonneg (Prim2SF x) = true -> SFnonneg (Prim2SF d) = true ->
  SFreal (Prim2SF x) + SFreal (Prim2SF d) < bpow 800 ->
  rounds_to (SFreal (Prim2SF x) + SFreal (Prim2SF d)) (Prim2SF (x + d)).
Proof.
  intros Nx Nd H. rewrite add_spec.
  assert (Vx := Prim2SF_valid x). assert (Vd := Prim2SF_valid d).
  destruct (Prim2SF x) as [sx| | |sx mx ex], (Prim2SF d) as [sd| | |sd md ed];
    try discriminate; cbn [SF64add SFadd SFreal] in *.
  - destruct sx, sd; apply rounds_to_zero.
  - destruct sd; [discriminate|]. cbn [cond_Zopp]. apply rounds_to_self, Vd.
  - destruct sx; [discriminate|]. cbn [cond_Zopp].
    rewrite Z.add_0_r. apply rounds_to_self, Vx.
  - destruct sx, sd; try discriminate. cbn [cond_Zopp] in *.
    apply valid_exponent in Vx, Vd. apply SFadd_rounds; lia.
Qed.

Lemma leb_of_real x y :
  SFnonneg (Prim2SF x) = true -> SFnonneg (Prim2SF y) = true ->
  SFreal (Prim2SF x) <= SFreal (Prim2SF y) -> (x <=? y)%float = true.
Proof.
  intros. rewrite leb_spec. apply SFleb_real; auto using Prim2SF_valid.
Qed.

(** A result of [Math.random] is nonnegative and below 1. *)
Lemma random_ok_spec r : random_ok r = true ->
  SFnonneg (Prim2SF r) = true /\ SFreal (Prim2SF r) < bpow 0.
Proof.
  unfold random_ok. rewrite andb_true_iff, leb_spec, ltb_spec.
  intros [H0 H1]. assert (Hbv := bias_val).
  assert (Vr := Prim2SF_valid r).
  assert (N : SFnonneg (Prim2SF r) = true).
  { change (Prim2SF 0) with (S754_zero false) in H0.
    change (Prim2SF 1) with (S754_finite false 4503599627370496 (-52)) in H1.
    destruct (Prim2SF r) as [s|[|]| |[|] m e]; try reflexivity; discriminate. }
  split; [exact N|].
  pose proof (SFltb_real _ _ Vr (Prim2SF_valid 1) N eq_refl H1) as H2.
  change (Prim2SF 1) with (S754_finite false 4503599627370496 (-52)) in H2.
  cbn [SFreal cond_Zopp] in H2.
  change (Zpos 4503599627370496) with (2 ^ 52) in H2.
  rewrite <- bpow_shift in H2 by lia. exact H2.
Qed.

(** *** The shape [Math.random() * c + d] *)

Lemma bounded_lt_bpow m e : bounded prec emax m e = true -> e <= 700 ->
  2 * (Zpos m * bpow e) < bpow 800.
Proof.
  intros Hb He. assert (Hbv := bias_val).
  destruct (bounded_spec _ _ Hb) as (Hee & Hm & _).
  assert (0 < bpow e) by (apply bpow_pos; lia).
  assert (bpow (e + 54) <= bpow 800) by (apply bpow_le; lia).
  rewrite bpow_shift in H0 by lia.
  change (2 ^ 54) with (2 * 2 ^ 53) in H0. nia.
Qed.

(** For positive constants [c] and [d] below 1, the result is a
    rounding of an exact value between [d] and [c + d]. *)
Lemma random_affine_rounds r c d mc ec md ed :
  random_ok r = true ->
  Prim2SF c = S754_finite false mc ec -> Prim2SF d = S754_finite false md ed ->
  ec <= 0 -> ed <= 0 ->
  exists V, rounds_to V (Prim2SF (r * c + d)) /\
            Zpos md * bpow ed <= V <= Zpos mc * bpow ec + Zpos md * bpow ed.
Proof.
  intros Hr Hc Hd Hec Hed. assert (Hbv := bias_val).
  destruct (random_ok_spec r Hr) as [Nr Lr].
  assert (Vc := Prim2SF_valid c). assert (Vd := Prim2SF_valid d).
  rewrite Hc in Vc. rewrite Hd in Vd. cbn [valid_binary] in Vc, Vd.
  assert (Bc := bounded_lt_bpow _ _ Vc ltac:(lia)).
  assert (Bd := bounded_lt_bpow _ _ Vd ltac:(lia)).
  assert (H0 : 0 < bpow 0) by (apply bpow_pos; lia).
  assert (Pc : 0 < bpow ec) by (apply bpow_pos; apply bounded_spec in Vc; lia).
  destruct (mul_rounds r c) as (V1 & E1 & R1);
    [exact Nr | rewrite Hc; reflexivity | lia | rewrite Hc; cbn [SFreal cond_Zopp]; lia |].
  rewrite Hc in E1. cbn [SFreal cond_Zopp] in E1.
  assert (Xr := SFreal_nonneg _ Nr).
  assert (HV1 : V1 <= Zpos mc * bpow ec) by nia.
  assert (U1 := rounds_to_upper _ _ _ _ R1 Vc HV1).
  assert (N1 := rounds_to_nonneg _ _ R1).
  assert (L1 := SFreal_nonneg _ N1).
  exists (SFreal (Prim2SF (r * c)) + Zpos md * bpow ed). split; [|lia].
  replace (Zpos md * bpow ed) with (SFreal (Prim2SF d)) by (rewrite Hd; reflexivity).
  apply add_rounds; [exact N1 | rewrite Hd; reflexivity |].
  rewrite Hd. cbn [SFreal cond_Zopp]. lia.
Qed.

Lemma one_real : SFreal (Prim2SF 1) = bpow 0.
Proof.
  assert (Hbv := bias_val).
  change (Prim2SF 1) with (S754_finite false 4503599627370496 (-52)).
  cbn [SFreal cond_Zopp]. change (Zpos 4503599627370496) with (2 ^ 52).
  rewrite <- bpow_shift by lia. reflexivity.
Qed.
End Binary64Facts.

(** ** The two mocked results of VoiceClassifierApp.jsx *)

Module MockedResultFacts.
Import JsNumber Binary64Facts VoiceClassifierApp.
Local Open Scope Z_scope.

(** [Math.random() * 0.05 + 0.95] lies between 0.95 and 1, bounds included. *)
Lemma training_accuracy_range r : random_ok r = true ->
  (0.95 <=? training_accuracy r)%float = true /\
  (training_accuracy r <=? 1)%float = true.
Proof.
  intros Hr. assert (Hbv := bias_val).
  destruct (random_affine_rounds r 0.05 0.95 7205759403792794 (-57)
              8556839292003942 (-53) Hr eq_refl eq_refl
              ltac:(lia) ltac:(lia)) as (V & R & Hlo & Hhi).
  fold (training_accuracy r) in R.
  assert (N := rounds_to_nonneg _ _ R).
  assert (E57 : bpow 0 = 2 ^ 57 * bpow (-57))
    by (rewrite <- bpow_shift by lia; reflexivity).
  assert (E53 : bpow (-53) = 2 ^ 4 * bpow (-57))
    by (rewrite <- bpow_shift by lia; reflexivity).
  assert (P57 : 0 < bpow (-57)) by (apply bpow_pos; lia).
  split; apply leb_of_real; try exact N; try reflexivity.
  - change (Prim2SF 0.95) with (S754_finite false 8556839292003942 (-53)).
    cbn [SFreal cond_Zopp].
    exact (rounds_to_lower V _ 8556839292003942 (-53) R eq_refl Hlo).
  - rewrite one_real.
    replace (bpow 0) with (Zpos 4503599627370496 * bpow (-52))
      by (change (Zpos 4503599627370496) with (2 ^ 52);
          rewrite <- bpow_shift by lia; reflexivity).
    apply (rounds_to_upper V _ 4503599627370496 (-52) R eq_refl).
    change (Zpos 4503599627370496) with (2 ^ 52).
    rewrite <- bpow_shift by lia. change (-52 + 52) with 0.
    rewrite E53 in Hhi. rewrite E57.
    change (2 ^ 57) with 144115188075855872.
    change (2 ^ 4) with 16 in Hhi. lia.
Qed.

(** [Math.random() * 0.1 + 0.9] lies between 0.9 and 1, bounds
    included: the exact sum may exceed 1 by [2^-55], and rounds to 1. *)
Lemma classification_confidence_range r : random_ok r = true ->
  (0.9 <=? classification_confidence r)%float = true /\
  (classification_confidence r <=? 1)%float = true.
Proof.
  intros Hr. assert (Hbv := bias_val).
  destruct (random_affine_rounds r 0.1 0.9 7205759403792794 (-56)
              8106479329266893 (-53) Hr eq_refl eq_refl
              ltac:(lia) ltac:(lia)) as (V & R & Hlo & Hhi).
  fold (classification_confidence r) in R.
  assert (N := rounds_to_nonneg _ _ R).
  assert (E56 : bpow 0 = 2 ^ 56 * bpow (-56))
    by (rewrite <- bpow_shift by lia; reflexivity).
  assert (E55 : bpow (-55) = 2 ^ 1 * bpow (-56))
    by (rewrite <- bpow_shift by lia; reflexivity).
  assert (E53 : bpow (-53) = 2 ^ 3 * bpow (-56))
    by (rewrite <- bpow_shift by lia; reflexivity).
  assert (P56 : 0 < bpow (-56)) by (apply bpow_pos; lia).
  split; apply leb_of_real; try exact N; try reflexivity.
  - change (Prim2SF 0.9) with (S754_finite false 8106479329266893 (-53)).
    cbn [SFreal cond_Zopp].
    exact (rounds_to_lower V _ 8106479329266893 (-53) R eq_refl Hlo).
  - rewrite one_real. apply (rounds_to_near_one _ _ R).
    rewrite E53 in Hhi. rewrite E56, E55.
    change (2 ^ 56) with 72057594037927936.
    change (2 ^ 3) with 8 in Hhi. change (2 ^ 1) with 2. lia.
Qed.

(** [Math.floor(Math.random() * 4)] is one of 0, 1, 2, 3: the product
    by 4 is exact. *)
Lemma floor_random_index r : random_ok r = true ->
  exists i, Math_floor (r * 4) = Some i /\ 0 <= i < 4.
Proof.
  intros Hr. assert (Hbv := bias_val).
  destruct (random_ok_spec r Hr) as [Nr Lr].
  assert (Vr := Prim2SF_valid r).
  assert (Vp := Prim2SF_valid (r * 4)).
  assert (H0 : 0 < bpow 0) by (apply bpow_pos; lia).
  assert (B4 : SFreal (Prim2SF 4) = 4 * bpow 0).
  { change (Prim2SF 4) with (S754_finite false 4503599627370496 (-50)).
    cbn [SFreal cond_Zopp]. change (Zpos 4503599627370496) with (2 ^ 52).
    change (bpow 0) with (bpow (-50 + 50)). rewrite (bpow_shift (-50) 50) by lia.
    change (2 ^ 50) with 1125899906842624. change (2 ^ 52) with 4503599627370496.
    lia. }
  assert (B800 : bpow 3 <= bpow 800) by (apply bpow_le; lia).
  assert (B3 : bpow 3 = 8 * bpow 0).
  { change (bpow 3) with (bpow (0 + 3)). rewrite bpow_shift by lia. reflexivity. }
  destruct (mul_rounds r 4) as (V & E & R);
    [exact Nr | reflexivity | lia | rewrite B4; lia |].
  rewrite B4 in E.
  assert (HV : V = 4 * SFreal (Prim2SF r)) by nia.
  assert (Ex : SFreal (Prim2SF (r * 4)) = V).
  { destruct (Prim2SF r) as [s| | |s m e] eqn:Er; try discriminate.
    - cbn [SFreal] in HV. subst V.
      destruct R as (n & g & Hg & _ & -> & Hn & _).
      assert (0 < bpow g) by (apply bpow_pos; lia).
      destruct (Z.lt_trichotomy n 0) as [L|[->|G]]; [exfalso|lia|exfalso].
      + assert (n * bpow g <= (-1) * bpow g)
          by (apply Z.mul_le_mono_nonneg_r; lia). lia.
      + assert (1 * bpow g <= n * bpow g)
          by (apply Z.mul_le_mono_nonneg_r; lia). lia.
    - destruct s; [discriminate|]. cbn [SFreal cond_Zopp valid_binary] in *.
      apply (rounds_to_exact _ _ m e R Vr) with (k := 2);
        [apply bounded_spec in Vr; lia | lia |].
      rewrite bpow_shift by (apply bounded_spec in Vr; lia).
      change (2 ^ 2) with 4. lia. }
  assert (N := rounds_to_nonneg _ _ R).
  unfold Math_floor.
  destruct (Prim2SF (r * 4)) as [s| | |s m e]; try discriminate.
  - exists 0. split; [reflexivity|lia].
  - destruct s; [discriminate|]. cbn [SFreal cond_Zopp valid_binary] in *.
    exists (Z.shiftl (Zpos m) e). split; [reflexivity|].
    apply bounded_spec in Vp. destruct Vp as (He & _).
    assert (0 < bpow e) by (apply bpow_pos; lia).
    destruct (Z_le_gt_dec 0 e) as [Hpos|Hneg].
    + rewrite Z.shiftl_mul_pow2 by lia.
      assert (0 < 2 ^ e) by (apply Z.pow_pos_nonneg; lia).
      change (bpow e) with (bpow (0 + e)) in Ex.
      rewrite (bpow_shift 0 e) in Ex by lia.
      split; [lia|].
      apply (Z.mul_lt_mono_pos_r (bpow 0)); lia.
    + rewrite Z.shiftl_div_pow2 by lia.
      assert (0 < 2 ^ (- e)) by (apply Z.pow_pos_nonneg; lia).
      assert (E0 : bpow 0 = 2 ^ (- e) * bpow e).
      { rewrite <- bpow_shift by lia. f_equal. lia. }
      split; [apply Z.div_pos; lia|].
      apply Z.div_lt_upper_bound; [lia|]. nia.
Qed.

(** [randomElement] is therefore never [undefined]. *)
Lemma randomElement_defined r : random_ok r = true ->
  exists c, randomElement r = Some c /\ c ∈ elements.
Proof.
  intros Hr. destruct (floor_random_index r Hr) as (i & Hi & Hrange).
  unfold randomElement. rewrite Hi. unfold array_get.
  assert (Hc : i = 0 \/ i = 1 \/ i = 2 \/ i = 3) by lia. clear Hrange.
  destruct Hc as [Hc | [Hc | [Hc | Hc]]]; subst i; cbn; eexists;
    (split; [reflexivity|]); unfold elements; set_solver.
Qed.

Lemma confidence_nonneg r : random_ok r = true ->
  (0 <=? classification_confidence r)%float = true.
Proof.
  intros Hr.
  destruct (random_affine_rounds r 0.1 0.9 7205759403792794 (-56)
              8106479329266893 (-53) Hr eq_refl eq_refl
              ltac:(lia) ltac:(lia)) as (V & R & _).
  fold (classification_confidence r) in R.
  assert (N := rounds_to_nonneg _ _ R).
  apply leb_of_real; [reflexivity | exact N |].
  apply (SFreal_nonneg _ N).
Qed.
End MockedResultFacts.

(** ** VoiceClassifierApp.jsx *)

Module VoiceClassifierAppFacts.
Import JsNumber VoiceClassifierApp MockedResultFacts.

(** *** Runs *)

Lemma run_invariant (P : World -> Prop) :
  (forall w ev w', P w -> step w ev = Some w' -> P w') ->
  forall evs w w', P w -> run w evs = Some w' -> P w'.
Proof.
  intros Hstep evs. induction evs as [|ev evs IH]; intros w w' Hw Hrun.
  - cbn in Hrun. congruence.
  - cbn [run] in Hrun. destruct (step w ev) as [w1|] eqn:E; [|discriminate].
    cbn in Hrun. eapply IH; [|exact Hrun]. eapply Hstep; eauto.
Qed.

Lemma reachable_invariant (P : World -> Prop) :
  P initial_world ->
  (forall w ev w', P w -> step w ev = Some w' -> P w') ->
  forall w, reachable w -> P w.
Proof.
  intros H0 Hstep w [evs Hrun]. eapply run_invariant; eauto.
Qed.

(** What an event leaves of the state, handler by handler. *)
Lemma step_inv w ev w' : step w ev = Some w' ->
  match ev with
  | ProjectNameChange v =>
      w' = {| app := setCurrentProject v (app w); timers := timers w |}
  | DatasetUpload element files =>
      exists s, handleDatasetUpload element files (app w) = Some s /\
                w' = {| app := s; timers := timers w |}
  | TrainingClick => training_disabled (app w) = false /\ w' = startTraining w
  | SaveClick now => w' = {| app := saveProject now (app w); timers := timers w |}
  | ClassifyUpload file =>
      classify_disabled (app w) = false /\ w' = classifyNewAudio file w
  | TimerFires i draws =>
      (exists r, draws = [r] /\ timers w !! i = Some TrainingTimer /\
                 random_ok r = true /\
                 w' = {| app := training_timeout r (app w);
                         timers := delete i (timers w) |}) \/
      (exists r1 r2, draws = [r1; r2] /\ timers w !! i = Some ClassificationTimer /\
                     random_ok r1 = true /\ random_ok r2 = true /\
                     w' = {| app := classification_timeout r1 r2 (app w);
                             timers := delete i (timers w) |})
  end.
Proof.
  destruct ev as [v|element files| |now|file|i draws]; cbn [step]; intros H.
  - by simplify_eq.
  - destruct (handleDatasetUpload element files (app w)) as [s|] eqn:E;
      [|discriminate].
    cbn in H. exists s. simplify_eq. split; reflexivity.
  - destruct (training_disabled (app w)); [discriminate|].
    simplify_eq. split; reflexivity.
  - by simplify_eq.
  - destruct (classify_disabled (app w)); [discriminate|].
    simplify_eq. split; reflexivity.
  - destruct (timers w !! i) as [[|]|] eqn:E; [| |discriminate].
    + destruct draws as [|r [|? ?]]; try discriminate.
      destruct (random_ok r) eqn:Er; [|discriminate].
      left. exists r. simplify_eq. repeat split; reflexivity || assumption.
    + destruct draws as [|r1 [|r2 [|? ?]]]; try discriminate.
      destruct (random_ok r1) eqn:E1, (random_ok r2) eqn:E2; try discriminate.
      cbn in H. right. exists r1, r2. simplify_eq.
      repeat split; reflexivity || assumption.
Qed.

Lemma handleDatasetUpload_inv element files s s' :
  handleDatasetUpload element files s = Some s' ->
  exists prev,
    audioFiles s !! element = Some prev /\
    s' = setAudioFiles
           (<[element := prev ++ ((λ file, {| name := file_name file;
                                               size := file_size file;
                                               element := element |}) <$> files)]>
              (audioFiles s)) s.
Proof.
  unfold handleDatasetUpload. destruct (audioFiles s !! element) as [prev|];
    [|discriminate].
  cbn. intros ?. simplify_eq. eauto.
Qed.

(** *** The keys of [audioFiles] and the labels of its entries *)

Lemma initial_dom : dom (audioFiles initial) = class_set.
Proof. unfold initial, class_set, elements; cbn [audioFiles]. set_solver. Qed.

Lemma initial_labelled : labelled (audioFiles initial).
Proof.
  intros c arr f Hc Hf. unfold initial in Hc; cbn [audioFiles] in Hc.
  assert (arr = []) as ->; [|by apply elem_of_nil in Hf].
  destruct (decide (c = "aria")) as [E|?]; [subst c; by simplify_map_eq|].
  destruct (decide (c = "acqua")) as [E|?]; [subst c; by simplify_map_eq|].
  destruct (decide (c = "terra")) as [E|?]; [subst c; by simplify_map_eq|].
  destruct (decide (c = "fuoco")) as [E|?]; [subst c|]; by simplify_map_eq.
Qed.

Lemma handleDatasetUpload_dom element files s s' :
  handleDatasetUpload element files s = Some s' ->
  dom (audioFiles s') = dom (audioFiles s).
Proof.
  intros H. destruct (handleDatasetUpload_inv _ _ _ _ H) as (prev & Hprev & ->).
  cbn [setAudioFiles audioFiles]. rewrite dom_insert_L.
  apply subseteq_union_1_L, singleton_subseteq_l. by eapply elem_of_dom_2.
Qed.

Lemma handleDatasetUpload_labelled element files s s' :
  handleDatasetUpload element files s = Some s' ->
  labelled (audioFiles s) -> labelled (audioFiles s').
Proof.
  intros H Hl. destruct (handleDatasetUpload_inv _ _ _ _ H) as (prev & Hprev & ->).
  cbn [setAudioFiles audioFiles]. intros c arr f Hc Hf.
  destruct (decide (c = element)) as [->|Hne].
  - rewrite lookup_insert_eq in Hc. injection Hc as <-.
    apply elem_of_app in Hf as [Hf|Hf]; [by eapply Hl|].
    apply list_elem_of_fmap in Hf as (file & -> & _). reflexivity.
  - rewrite lookup_insert_ne in Hc by done. by eapply Hl.
Qed.

Lemma handleDatasetUpload_accepts element files s :
  element ∈ dom (audioFiles s) -> is_Some (handleDatasetUpload element files s).
Proof.
  intros H. apply elem_of_dom in H as [prev Hprev].
  unfold handleDatasetUpload. rewrite Hprev. cbn. eauto.
Qed.

(** Only [handleDatasetUpload] writes [audioFiles]. *)
Lemma step_audioFiles w ev w' : step w ev = Some w' ->
  audioFiles (app w') = audioFiles (app w) \/
  exists element files, handleDatasetUpload element files (app w) = Some (app w').
Proof.
  intros H. apply step_inv in H.
  destruct ev as [v|element files| |now|file|i draws].
  - subst w'. by left.
  - destruct H as (s & Hs & ->). right. eauto.
  - destruct H as [_ ->]. by left.
  - subst w'. by left.
  - destruct H as [_ ->]. by left.
  - destruct H as [(r & _ & _ & _ & ->)|(r1 & r2 & _ & _ & _ & _ & ->)]; by left.
Qed.

Lemma reachable_dataset w : reachable w ->
  dom (audioFiles (app w)) = class_set /\ labelled (audioFiles (app w)).
Proof.
  apply (reachable_invariant
           (λ w, dom (audioFiles (app w)) = class_set /\ labelled (audioFiles (app w)))).
  - split; [apply initial_dom | apply initial_labelled].
  - intros w0 ev w' [Hd Hl] Hs.
    destruct (step_audioFiles _ _ _ Hs) as [->|(element & files & Hu)]; [done|].
    split.
    + rewrite <- Hd. by eapply handleDatasetUpload_dom.
    + by eapply handleDatasetUpload_labelled.
Qed.

(** *** Pending trainings *)

Lemma trainings_in_flight_app ts1 ts2 :
  trainings_in_flight (ts1 ++ ts2) = trainings_in_flight ts1 + trainings_in_flight ts2.
Proof.
  induction ts1 as [|[|] ts1 IH]; simpl; lia.
Qed.

Lemma trainings_in_flight_delete ts : forall i t, ts !! i = Some t ->
  trainings_in_flight ts =
  trainings_in_flight (delete i ts) +
  match t with TrainingTimer => 1 | ClassificationTimer => 0 end.
Proof.
  induction ts as [|t0 ts IH]; intros [|i] t Hi; try discriminate.
  - cbn in Hi. injection Hi as ->.
    change (delete 0%nat (t :: ts)) with ts.
    destruct t; cbn [trainings_in_flight]; lia.
  - cbn in Hi. change (delete (S i) (t0 :: ts)) with (t0 :: delete i ts).
    specialize (IH i t Hi).
    destruct t0, t; cbn [trainings_in_flight] in *; lia.
Qed.

Lemma trainings_in_flight_pending ts : 0 < trainings_in_flight ts ->
  exists i, ts !! i = Some TrainingTimer.
Proof.
  induction ts as [|[|] ts IH]; cbn [trainings_in_flight]; intros H.
  - lia.
  - by exists 0%nat.
  - destruct (IH H) as [i Hi]. by exists (S i).
Qed.

Lemma training_disabled_flag s : training_disabled s = false -> isTraining s = false.
Proof. unfold training_disabled. by intros [? _]%orb_false_iff. Qed.

Lemma step_flag_counts w ev w' : flag_counts w -> step w ev = Some w' -> flag_counts w'.
Proof.
  unfold flag_counts. intros Hw H. apply step_inv in H.
  destruct ev as [v|element files| |now|file|i draws].
  - by subst w'.
  - destruct H as (s & Hs & ->).
    destruct (handleDatasetUpload_inv _ _ _ _ Hs) as (? & _ & ->).
    exact Hw.
  - destruct H as [Hd ->]. apply training_disabled_flag in Hd.
    rewrite Hd in Hw. cbn [startTraining timers app setIsTraining isTraining].
    rewrite trainings_in_flight_app. cbn [trainings_in_flight]. lia.
  - by subst w'.
  - destruct H as [_ ->]. cbn [classifyNewAudio timers app].
    rewrite trainings_in_flight_app. cbn [trainings_in_flight].
    cbn [setNewAudioForClassification isTraining]. lia.
  - destruct H as [(r & _ & Hi & _ & ->)|(r1 & r2 & _ & Hi & _ & _ & ->)];
      apply trainings_in_flight_delete in Hi; cbn [timers app].
    + cbn [training_timeout setModelAccuracy setIsTraining isTraining].
      destruct (isTraining (app w)); lia.
    + cbn [classification_timeout setConfidence setPrediction isTraining]. lia.
Qed.

Lemma reachable_flag_counts w : reachable w -> flag_counts w.
Proof.
  apply reachable_invariant; [reflexivity|].
  intros ? ? ?. apply step_flag_counts.
Qed.

(** *** What each event writes *)

Lemma step_modelAccuracy w ev w' : step w ev = Some w' ->
  modelAccuracy (app w') = modelAccuracy (app w) \/
  exists i r, ev = TimerFires i [r] /\ timers w !! i = Some TrainingTimer /\
              random_ok r = true /\
              modelAccuracy (app w') = Some (training_accuracy r).
Proof.
  intros H. apply step_inv in H.
  destruct ev as [v|element files| |now|file|i draws].
  - subst w'. by left.
  - destruct H as (s & Hs & ->).
    destruct (handleDatasetUpload_inv _ _ _ _ Hs) as (? & _ & ->). by left.
  - destruct H as [_ ->]. by left.
  - subst w'. by left.
  - destruct H as [_ ->]. by left.
  - destruct H as [(r & -> & Hi & Hr & ->)|(r1 & r2 & _ & _ & _ & _ & ->)].
    + right. exists i, r. auto.
    + by left.
Qed.

Lemma step_prediction w ev w' : step w ev = Some w' ->
  (prediction (app w') = prediction (app w) /\
   confidence (app w') = confidence (app w)) \/
  exists r1 r2, random_ok r1 = true /\ random_ok r2 = true /\
                prediction (app w') = randomElement r1 /\
                confidence (app w') = Some (classification_confidence r2).
Proof.
  intros H. apply step_inv in H.
  destruct ev as [v|element files| |now|file|i draws].
  - subst w'. by left.
  - destruct H as (s & Hs & ->).
    destruct (handleDatasetUpload_inv _ _ _ _ Hs) as (? & _ & ->). by left.
  - destruct H as [_ ->]. by left.
  - subst w'. by left.
  - destruct H as [_ ->]. by left.
  - destruct H as [(r & _ & _ & _ & ->)|(r1 & r2 & _ & _ & H1 & H2 & ->)].
    + by left.
    + right. exists r1, r2. auto.
Qed.

Lemma step_datasets w ev w' : step w ev = Some w' ->
  exists saved, datasets (app w') = datasets (app w) ++ saved.
Proof.
  intros H. apply step_inv in H.
  destruct ev as [v|element files| |now|file|i draws].
  - subst w'. exists []. by rewrite app_nil_r.
  - destruct H as (s & Hs & ->).
    destruct (handleDatasetUpload_inv _ _ _ _ Hs) as (? & _ & ->).
    exists []. by rewrite app_nil_r.
  - destruct H as [_ ->]. exists []. by rewrite app_nil_r.
  - subst w'. eexists. reflexivity.
  - destruct H as [_ ->]. exists []. by rewrite app_nil_r.
  - destruct H as [(r & _ & _ & _ & ->)|(r1 & r2 & _ & _ & _ & _ & ->)];
      exists []; by rewrite app_nil_r.
Qed.

Lemma run_datasets evs : forall w w', run w evs = Some w' ->
  datasets (app w) `prefix_of` datasets (app w').
Proof.
  induction evs as [|ev evs IH]; intros w w' H.
  - cbn in H. by simplify_eq.
  - cbn [run] in H. destruct (step w ev) as [w1|] eqn:E; [|discriminate].
    cbn in H. destruct (step_datasets _ _ _ E) as [saved Hs].
    etrans; [|by apply IH]. rewrite Hs. by apply prefix_app_r.
Qed.

Lemma run_modelAccuracy evs : forall w w', run w evs = Some w' ->
  forallb (λ ev, negb (fires_timer ev)) evs = true ->
  modelAccuracy (app w') = modelAccuracy (app w).
Proof.
  induction evs as [|ev evs IH]; intros w w' H Hf.
  - cbn in H. by simplify_eq.
  - cbn [run] in H. destruct (step w ev) as [w1|] eqn:E; [|discriminate].
    cbn in H. cbn [forallb] in Hf. apply andb_true_iff in Hf as [Hev Hf].
    rewrite (IH _ _ H Hf).
    destruct (step_modelAccuracy _ _ _ E) as [->|(i & r & -> & _)]; [done|].
    discriminate.
Qed.

Lemma reachable_accuracy w : reachable w -> accuracy_in_range (app w).
Proof.
  apply (reachable_invariant (λ w, accuracy_in_range (app w))).
  - intros a. discriminate.
  - intros w0 ev w' Hw Hs a Ha.
    destruct (step_modelAccuracy _ _ _ Hs) as [E|(i & r & _ & _ & Hr & E)];
      rewrite E in Ha.
    + by apply Hw.
    + injection Ha as <-. by apply training_accuracy_range.
Qed.

Lemma reachable_prediction w : reachable w -> prediction_well_formed (app w).
Proof.
  apply (reachable_invariant (λ w, prediction_well_formed (app w))).
  - exact I.
  - intros w0 ev w' Hw Hs. unfold prediction_well_formed in *.
    destruct (step_prediction _ _ _ Hs) as [[-> ->]|(r1 & r2 & H1 & H2 & -> & ->)];
      [done|].
    destruct (randomElement_defined r1 H1) as (c & -> & Hc).
    destruct (classification_confidence_range r2 H2) as [_ Hle].
    auto using confidence_nonneg.
Qed.

(** *** A whole classification, a whole training *)

Lemma classify_eq w file r1 r2 : classify_disabled (app w) = false ->
  classify w file r1 r2 =
  if random_ok r1 && random_ok r2
  then Some (randomElement r1, Some (classification_confidence r2))
  else None.
Proof.
  intros Hd. unfold classify. cbn [step]. rewrite Hd. cbn [mbind option_bind].
  cbn [classifyNewAudio timers step].
  rewrite list_lookup_middle by done.
  destruct (random_ok r1 && random_ok r2); reflexivity.
Qed.

Lemma train_eq w r : training_disabled (app w) = false -> random_ok r = true ->
  train w r = Some {| app := training_timeout r (setIsTraining true (app w));
                      timers := timers w |}.
Proof.
  intros Hd Hr. unfold train. cbn [step]. rewrite Hd. cbn [mbind option_bind].
  cbn [startTraining timers step app].
  rewrite list_lookup_middle by done. rewrite Hr.
  by rewrite delete_middle, app_nil_r.
Qed.

Lemma train_inv w r w' : train w r = Some w' ->
  training_disabled (app w) = false /\ random_ok r = true /\
  w' = {| app := training_timeout r (setIsTraining true (app w)); timers := timers w |}.
Proof.
  intros H. destruct (training_disabled (app w)) eqn:Hd.
  - unfold train in H. cbn [step] in H. rewrite Hd in H. discriminate.
  - destruct (random_ok r) eqn:Hr.
    + rewrite train_eq in H by done. by simplify_eq.
    + unfold train in H. cbn [step] in H. rewrite Hd in H.
      cbn [mbind option_bind startTraining timers step] in H.
      rewrite list_lookup_middle in H by done. rewrite Hr in H. discriminate.
Qed.

Lemma training_disabled_spec s :
  training_disabled s = true <->
  isTraining s = true \/ forall c arr, audioFiles s !! c = Some arr -> arr = [].
Proof.
  unfold training_disabled, Object_values.
  rewrite orb_true_iff, forallb_forall.
  split; (intros [H|H]; [by left|right]).
  - intros c arr Hc. apply length_zero_iff_nil, Nat.eqb_eq, H.
    apply list_elem_of_In, list_elem_of_fmap. exists (c, arr).
    split; [done|]. by apply elem_of_map_to_list.
  - intros arr Harr. apply list_elem_of_In, list_elem_of_fmap in Harr
      as ([c arr'] & -> & Hc).
    apply elem_of_map_to_list in Hc. by rewrite (H _ _ Hc).
Qed.
End VoiceClassifierAppFacts.

(** ** VoiceLab.jsx *)

Module VoiceLabFacts.
Import VoiceLab.

Lemma lab_initial_dom : dom (audioFiles initial) = class_set.
Proof. unfold initial, class_set, elements; cbn [audioFiles]. set_solver. Qed.

Lemma uploadFiles_dom element reply s s' :
  uploadFiles element reply s = Some s' -> dom (audioFiles s') = dom (audioFiles s).
Proof.
  unfold uploadFiles. destruct reply as [|files]; [by intros [= <-]|].
  destruct (audioFiles s !! element) as [prev|] eqn:E; [|discriminate].
  destruct files as [new|]; [|discriminate]. cbn. intros [= <-].
  cbn [setAudioFiles audioFiles]. rewrite dom_insert_L.
  apply subseteq_union_1_L, singleton_subseteq_l. by eapply elem_of_dom_2.
Qed.

Lemma removeFile_inv fname element s s' :
  removeFile fname element (RemoveResponse true) s = Some s' ->
  exists prev,
    audioFiles s !! element = Some prev /\
    s' = setAudioFiles
           (<[element := filter (λ f, filename f ≠ fname) prev]> (audioFiles s)) s.
Proof.
  unfold removeFile. destruct (audioFiles s !! element) as [prev|]; [|discriminate].
  cbn. intros [= <-]. eauto.
Qed.

Lemma removeFile_dom fname element reply s s' :
  removeFile fname element reply s = Some s' -> dom (audioFiles s') = dom (audioFiles s).
Proof.
  destruct reply as [|[|]]; try by intros [= <-].
  intros H. destruct (removeFile_inv _ _ _ _ H) as (prev & Hprev & ->).
  cbn [setAudioFiles audioFiles]. rewrite dom_insert_L.
  apply subseteq_union_1_L, singleton_subseteq_l. by eapply elem_of_dom_2.
Qed.

Lemma run_dom ops : forall s s', run s ops = Some s' ->
  dom (audioFiles s') = dom (audioFiles s).
Proof.
  induction ops as [|op ops IH]; intros s s' H.
  - cbn in H. by simplify_eq.
  - cbn [run] in H. destruct (apply_op s op) as [s1|] eqn:E; [|discriminate].
    cbn in H. rewrite (IH _ _ H).
    destruct op as [element reply|fname element reply]; cbn [apply_op] in E.
    + by eapply uploadFiles_dom.
    + by eapply removeFile_dom.
Qed.

(** An upload under one of the four names succeeds whenever the answer
    carries a list of files. *)
Lemma uploadFiles_accepts element files s :
  element ∈ dom (audioFiles s) ->
  is_Some (uploadFiles element (UploadBody (Some files)) s).
Proof.
  intros H. apply elem_of_dom in H as [prev Hprev].
  unfold uploadFiles. rewrite Hprev. cbn. eauto.
Qed.

Lemma filter_split fname (l : list StoredFile) :
  length (filter (λ f, filename f ≠ fname) l) + occurrences fname l = length l.
Proof.
  unfold occurrences. induction l as [|f l IH]; [reflexivity|].
  rewrite !filter_cons. destruct (decide (filename f = fname)) as [E|E].
  - rewrite decide_False by (intros H; by apply H). cbn [length]. lia.
  - rewrite decide_True by done. cbn [length]. lia.
Qed.

Lemma filter_absent fname (l : list StoredFile) :
  occurrences fname l = 0 -> filter (λ f, filename f ≠ fname) l = l.
Proof.
  intros H. pose proof (filter_split fname l) as Hs. rewrite H, Nat.add_0_r in Hs.
  clear H. induction l as [|f l IH]; [reflexivity|].
  rewrite filter_cons in *. destruct (decide (filename f ≠ fname)) as [E|E].
  - cbn [length] in Hs. f_equal. apply IH. lia.
  - pose proof (length_filter (λ f, filename f ≠ fname) l). cbn [length] in Hs. lia.
Qed.

Lemma filter_single fname (l : list StoredFile) :
  occurrences fname l = 1 ->
  exists l1 f l2, l = l1 ++ f :: l2 /\ filename f = fname /\
                  filter (λ f, filename f ≠ fname) l = l1 ++ l2.
Proof.
  induction l as [|f l IH]; intros H; [discriminate|].
  unfold occurrences in H. rewrite filter_cons in H.
  destruct (decide (filename f = fname)) as [E|E].
  - cbn [length] in H. exists [], f, l. rewrite !app_nil_l.
    repeat split; [done|].
    rewrite filter_cons, decide_False by (intros Hn; by apply Hn).
    apply filter_absent. unfold occurrences. lia.
  - destruct (IH H) as (l1 & f0 & l2 & -> & Hf & Hfl).
    exists (f :: l1), f0, l2. repeat split; [done|].
    rewrite filter_cons, decide_True by done. by rewrite Hfl.
Qed.

Lemma render_panel_not_ready data s :
  status data ≠ "ready" ->
  render_panel (loadDashboardData (DashboardBody (Some data)) s) = InitialPlaceholder.
Proof.
  intros H. unfold render_panel. cbn [loadDashboardData setDashboardData dashboardData].
  destruct (String.eqb_spec (status data) "ready"); [contradiction|reflexivity].
Qed.
End VoiceLabFacts.

(** * Part III. The claims *)

Module Claims.
Import JsNumber VoiceClassifierApp MockedResultFacts.
Import VoiceClassifierAppFacts Examples.

(** ** C1 *)

(** C1, as amended. For a prediction request on any sample (one that
    is identical to a training sample stored under "fuoco" included),
    the mocked predict operation shows one of the four classes, the one
    that the first draw of [Math.random] selects, with a confidence
    that the second draw fixes, at least 0.9 and at most 1. *)
Theorem classification_follows_the_draws (w : World) (file : File) (r1 r2 : float) :
  classify_disabled (app w) = false ->
  random_ok r1 = true -> random_ok r2 = true ->
  exists c,
    classify w file r1 r2 = Some (Some c, Some (classification_confidence r2)) /\
    randomElement r1 = Some c /\ c ∈ elements /\
    (0.9 <=? classification_confidence r2)%float = true /\
    (classification_confidence r2 <=? 1)%float = true.
Proof.
  intros Hd H1 H2. rewrite (classify_eq _ _ _ _ Hd), H1, H2. cbn [andb].
  destruct (randomElement_defined r1 H1) as (c & Hc & Hin).
  destruct (classification_confidence_range r2 H2) as [Hlo Hhi].
  exists c. rewrite Hc. auto.
Qed.

Lemma classification_follows_the_draws_witness :
  exists c,
    classify trained_world fuoco_sample 0.75 0.5
      = Some (Some c, Some (classification_confidence 0.5)) /\
    randomElement 0.75 = Some c /\ c ∈ elements /\
    (0.9 <=? classification_confidence 0.5)%float = true /\
    (classification_confidence 0.5 <=? 1)%float = true.
Proof.
  apply (classification_follows_the_draws trained_world fuoco_sample 0.75 0.5);
    vm_compute; reflexivity.
Defined.

(** C1 fails as stated: the sample stored under "fuoco" by the upload
    is classified as "acqua" when the draws are 0.25 and 0.5, and as
    "aria" when both draws are 0, then with confidence 0.9, which is
    not above 0.9. *)
Lemma known_fuoco_sample_not_classified_fuoco :
  audioFiles (app trained_world) !! "fuoco"
    = Some [{| name := "fuoco_01.wav"; size := 204800; element := "fuoco" |}] /\
  classify trained_world fuoco_sample 0.25 0.5
    = Some (Some "acqua", Some (classification_confidence 0.5)) /\
  classify trained_world fuoco_sample 0 0 = Some (Some "aria", Some 0.9%float) /\
  (0.9 <? 0.9)%float = false.
Proof. repeat split; vm_compute; reflexivity. Qed.

(** ** C2 *)

(** C2, as amended. The client extracts no features: the result of a
    classification is a function of the two draws of [Math.random]
    alone. Two runs with the same draws give exactly equal results,
    whatever the samples and the states they start from. *)
Theorem classification_depends_on_draws_only
    (w w' : World) (file file' : File) (r1 r2 : float) :
  classify_disabled (app w) = false -> classify_disabled (app w') = false ->
  classify w file r1 r2 = classify w' file' r1 r2.
Proof. intros Hd Hd'. by rewrite !classify_eq. Qed.

Lemma classification_depends_on_draws_only_witness :
  classify trained_world fuoco_sample 0.75 0.5
  = classify saved_world aria_sample 0.75 0.5.
Proof.
  apply (classification_depends_on_draws_only trained_world saved_world
           fuoco_sample aria_sample 0.75 0.5); vm_compute; reflexivity.
Defined.

(** C2 fails as stated: the same sample, classified twice from the same
    state, is "acqua" once and "fuoco" the other time. *)
Lemma same_sample_classified_twice_differs :
  classify trained_world fuoco_sample 0.25 0.5
    = Some (Some "acqua", Some (classification_confidence 0.5)) /\
  classify trained_world fuoco_sample 0.75 0.5
    = Some (Some "fuoco", Some (classification_confidence 0.5)) /\
  classify trained_world fuoco_sample 0.25 0.5
    <> classify trained_world fuoco_sample 0.75 0.5.
Proof.
  split; [vm_compute; reflexivity|]. split; [vm_compute; reflexivity|].
  intros H. vm_compute in H. discriminate H.
Qed.

(** ** C3 *)

(** C3, as amended. The client knows no minimum and no
    InsufficientDataError. While no training runs, a training cannot be
    started exactly when every class is empty (the button is disabled;
    nothing is produced). As soon as some class holds a sample, however
    few, a training starts and on completion reports an accuracy. *)
Theorem training_refused_only_without_samples (w : World) (r : float) :
  isTraining (app w) = false -> random_ok r = true ->
  (step w TrainingClick = None <->
   forall c arr, audioFiles (app w) !! c = Some arr -> arr = []) /\
  ((exists c f arr, audioFiles (app w) !! c = Some (f :: arr)) ->
   exists w', train w r = Some w' /\
              modelAccuracy (app w') = Some (training_accuracy r)).
Proof.
  intros Ht Hr.
  assert (Hspec := training_disabled_spec (app w)). rewrite Ht in Hspec.
  split.
  - cbn [step]. destruct (training_disabled (app w)).
    + split; [intros _|done]. destruct Hspec as [[?|?] _]; done.
    + split; [discriminate|]. intros H. destruct Hspec as [_ Hs].
      discriminate Hs. by right.
  - intros (c & f & arr & Hc).
    assert (Hd : training_disabled (app w) = false).
    { destruct (training_disabled (app w)); [|done].
      destruct Hspec as [[?|He] _]; [done|done|]. by specialize (He _ _ Hc). }
    eexists. split; [by apply train_eq|]. reflexivity.
Qed.

Lemma training_refused_only_without_samples_witness :
  (step one_sample_world TrainingClick = None <->
   forall c arr, audioFiles (app one_sample_world) !! c = Some arr -> arr = []) /\
  exists w', train one_sample_world 0.5 = Some w' /\
             modelAccuracy (app w') = Some (training_accuracy 0.5).
Proof.
  destruct (training_refused_only_without_samples one_sample_world 0.5)
    as [Hrefused Hstarts]; [vm_compute; reflexivity..|].
  split; [exact Hrefused|]. apply Hstarts.
  exists "fuoco", {| name := "fuoco_01.wav"; size := 204800; element := "fuoco" |}, [].
  vm_compute; reflexivity.
Defined.

(** C3 fails as stated: with two samples in all, one under "aria" and
    one under "fuoco", every class is below the minimum, and yet the
    training completes and reports an accuracy. *)
Lemma training_on_two_samples_succeeds :
  length <$> audioFiles (app two_sample_world) !! "aria" = Some 1%nat /\
  length <$> audioFiles (app two_sample_world) !! "acqua" = Some 0%nat /\
  length <$> audioFiles (app two_sample_world) !! "terra" = Some 0%nat /\
  length <$> audioFiles (app two_sample_world) !! "fuoco" = Some 1%nat /\
  (1 < Backend.minimum_samples)%nat /\
  modelAccuracy ∘ app <$> train two_sample_world 0.5 = Some (Some 0.975%float).
Proof.
  repeat split; try (vm_compute; reflexivity). unfold Backend.minimum_samples. lia.
Qed.

(** ** C4 *)

(** C4, as amended. After every sequence of uploads (and, in VoiceLab,
    removals) the class set is still exactly the four names, and an
    upload under any of them is accepted. In VoiceClassifierApp every
    stored entry carries the class it was uploaded under and lies under
    that class only. Neither component checks the other classes on an
    upload, so one file may be stored under several classes. *)
Theorem class_set_fixed_and_entries_labelled
    (evs : list Event) (w : World) (ops : list VoiceLab.Op) (s : VoiceLab.State) :
  run initial_world evs = Some w ->
  VoiceLab.run VoiceLab.initial ops = Some s ->
  (dom (audioFiles (app w)) = class_set /\
   labelled (audioFiles (app w)) /\
   (forall c1 c2 arr1 arr2 f,
      audioFiles (app w) !! c1 = Some arr1 -> audioFiles (app w) !! c2 = Some arr2 ->
      f ∈ arr1 -> f ∈ arr2 -> c1 = c2) /\
   forall c files, c ∈ elements -> is_Some (step w (DatasetUpload c files))) /\
  (dom (VoiceLab.audioFiles s) = VoiceLab.class_set /\
   forall c files, c ∈ VoiceLab.elements ->
     is_Some (VoiceLab.uploadFiles c (VoiceLab.UploadBody (Some files)) s)).
Proof.
  intros Hw Hs.
  destruct (reachable_dataset w (ex_intro _ evs Hw)) as [Hd Hl].
  assert (Hd' : dom (VoiceLab.audioFiles s) = VoiceLab.class_set).
  { rewrite (VoiceLabFacts.run_dom _ _ _ Hs). apply VoiceLabFacts.lab_initial_dom. }
  split; [split; [exact Hd|split; [exact Hl|split]]|split; [exact Hd'|]].
  - intros c1 c2 arr1 arr2 f H1 H2 Hf1 Hf2.
    by rewrite <- (Hl _ _ _ H1 Hf1), <- (Hl _ _ _ H2 Hf2).
  - intros c files Hc. cbn [step].
    destruct (handleDatasetUpload_accepts c files (app w)) as [s' ->]; [|by eexists].
    rewrite Hd. unfold class_set. by apply elem_of_list_to_set.
  - intros c files Hc. apply VoiceLabFacts.uploadFiles_accepts.
    rewrite Hd'. unfold VoiceLab.class_set. by apply elem_of_list_to_set.
Qed.

Lemma class_set_fixed_and_entries_labelled_witness :
  (dom (audioFiles (app two_sample_world)) = class_set /\
   labelled (audioFiles (app two_sample_world)) /\
   (forall c1 c2 arr1 arr2 f,
      audioFiles (app two_sample_world) !! c1 = Some arr1 ->
      audioFiles (app two_sample_world) !! c2 = Some arr2 ->
      f ∈ arr1 -> f ∈ arr2 -> c1 = c2) /\
   forall c files, c ∈ elements ->
     is_Some (step two_sample_world (DatasetUpload c files))) /\
  (dom (VoiceLab.audioFiles lab_state) = VoiceLab.class_set /\
   forall c files, c ∈ VoiceLab.elements ->
     is_Some (VoiceLab.uploadFiles c (VoiceLab.UploadBody (Some files)) lab_state)).
Proof.
  apply (class_set_fixed_and_entries_labelled
           [DatasetUpload "aria" [aria_sample]; DatasetUpload "fuoco" [fuoco_sample]]
           two_sample_world
           [VoiceLab.Upload "aria" (VoiceLab.UploadBody (Some [stored_file]));
            VoiceLab.Upload "terra" (VoiceLab.UploadBody (Some [other_stored_file]))]
           lab_state);
    vm_compute; reflexivity.
Defined.

(** C4 fails as stated: the file that the backend stored as [a.wav] is
    listed under "aria" and under "fuoco" after two uploads in VoiceLab;
    in VoiceClassifierApp the same file name and size end up under both
    classes as well. *)
Lemma same_file_under_two_classes :
  (s ← VoiceLab.run VoiceLab.initial
         [VoiceLab.Upload "aria" (VoiceLab.UploadBody (Some [stored_file]));
          VoiceLab.Upload "fuoco" (VoiceLab.UploadBody (Some [stored_file]))];
   Some (VoiceLab.audioFiles s !! "aria", VoiceLab.audioFiles s !! "fuoco"))
  = Some (Some [stored_file], Some [stored_file]) /\
  (w ← run initial_world
         [DatasetUpload "aria" [fuoco_sample]; DatasetUpload "fuoco" [fuoco_sample]];
   Some (audioFiles (app w) !! "aria", audioFiles (app w) !! "fuoco"))
  = Some (Some [{| name := "fuoco_01.wav"; size := 204800; element := "aria" |}],
          Some [{| name := "fuoco_01.wav"; size := 204800; element := "fuoco" |}]).
Proof. split; vm_compute; reflexivity. Qed.

(** ** C5 *)

(** C5. In every reachable state at most one training timer is
    pending, the flag [isTraining] is set exactly while one is, and
    while it is set a new training cannot be started. *)
Theorem at_most_one_training_in_flight (w : World) :
  reachable w ->
  (trainings_in_flight (timers w) <= 1)%nat /\
  (isTraining (app w) = true <-> trainings_in_flight (timers w) = 1%nat) /\
  (isTraining (app w) = true -> step w TrainingClick = None).
Proof.
  intros Hw. pose proof (reachable_flag_counts w Hw) as Hf. unfold flag_counts in Hf.
  split; [|split].
  - destruct (isTraining (app w)); lia.
  - destruct (isTraining (app w)); split; (done || lia).
  - intros Ht. cbn [step]. unfold training_disabled. by rewrite Ht.
Qed.

Lemma at_most_one_training_in_flight_witness :
  (trainings_in_flight (timers training_world) <= 1)%nat /\
  (isTraining (app training_world) = true <->
   trainings_in_flight (timers training_world) = 1%nat) /\
  (isTraining (app training_world) = true -> step training_world TrainingClick = None).
Proof.
  apply (at_most_one_training_in_flight training_world).
  exists [DatasetUpload "fuoco" [fuoco_sample]; TrainingClick].
  vm_compute; reflexivity.
Defined.

(** ** C6 *)

(** C6. Whatever happens to the page, saved projects stay as they were
    saved, with their accuracy and their dataset: the list of saved
    projects only grows at its end. A training that runs again leaves
    them untouched and puts a new accuracy in place of the displayed
    one; until a timer fires (a training that was refused, or one that
    is still in progress) the displayed accuracy is the previous one. *)
Theorem saved_projects_survive (w : World) (evs : list Event) (w' : World) :
  run w evs = Some w' ->
  (forall i p, datasets (app w) !! i = Some p -> datasets (app w') !! i = Some p) /\
  (forallb (λ ev, negb (fires_timer ev)) evs = true ->
   modelAccuracy (app w') = modelAccuracy (app w)) /\
  (forall r w1, train w r = Some w1 ->
     datasets (app w1) = datasets (app w) /\
     modelAccuracy (app w1) = Some (training_accuracy r)).
Proof.
  intros H. split; [|split].
  - intros i p Hp. eapply prefix_lookup_Some; [exact Hp|]. by eapply run_datasets.
  - by apply run_modelAccuracy.
  - intros r w1 Ht. by destruct (train_inv _ _ _ Ht) as (_ & _ & ->).
Qed.

Lemma saved_projects_survive_witness :
  (forall i p, datasets (app saved_world) !! i = Some p ->
     datasets (app training_again_world) !! i = Some p) /\
  modelAccuracy (app training_again_world) = modelAccuracy (app saved_world) /\
  (exists w1, train saved_world 0.25 = Some w1 /\
     datasets (app w1) = datasets (app saved_world) /\
     modelAccuracy (app w1) = Some (training_accuracy 0.25)).
Proof.
  destruct (saved_projects_survive saved_world [TrainingClick] training_again_world)
    as (Hsaved & Hprogress & Hagain); [vm_compute; reflexivity|].
  split; [exact Hsaved|]. split; [apply Hprogress; reflexivity|].
  exists (default initial_world (train saved_world 0.25)).
  split; [vm_compute; reflexivity|]. apply Hagain. vm_compute; reflexivity.
Defined.

(** ** C7 *)

(** C7. As long as no analysis has run, the request for the dashboard
    data is answered (it does not fail) with a status other than
    "ready", and the page, having loaded that answer, shows the
    placeholder of the initial state instead of the charts. The page
    shows that placeholder before any answer was loaded, and after any
    answer that is [null] or whose status is not "ready". *)
Theorem dashboard_not_ready_shows_placeholder (s : VoiceLab.State) :
  (exists data,
     Backend.get_dashboard_data None = VoiceLab.DashboardBody (Some data) /\
     VoiceLab.status data <> "ready" /\
     VoiceLab.render_panel
       (VoiceLab.loadDashboardData (Backend.get_dashboard_data None) s)
     = VoiceLab.InitialPlaceholder) /\
  VoiceLab.render_panel VoiceLab.initial = VoiceLab.InitialPlaceholder /\
  VoiceLab.render_panel (VoiceLab.loadDashboardData (VoiceLab.DashboardBody None) s)
  = VoiceLab.InitialPlaceholder /\
  (forall data, VoiceLab.status data <> "ready" ->
     VoiceLab.render_panel
       (VoiceLab.loadDashboardData (VoiceLab.DashboardBody (Some data)) s)
     = VoiceLab.InitialPlaceholder).
Proof.
  split; [|split; [reflexivity|split; [reflexivity|]]].
  - eexists. split; [reflexivity|]. split; [discriminate|].
    by apply VoiceLabFacts.render_panel_not_ready.
  - intros data Hd. by apply VoiceLabFacts.render_panel_not_ready.
Qed.

(** ** C8 *)

(** C8, as amended. For every file name and class, a successful
    remove-audio operation removes from that class's list every entry
    with that file name, as many as there are (exactly one when the
    name is listed once, the others keeping their order), and leaves
    the lists of all other classes unchanged. *)
Theorem removeFile_removes_every_match
    (s : VoiceLab.State) (fname element : string) (prev : list VoiceLab.StoredFile) :
  VoiceLab.audioFiles s !! element = Some prev ->
  exists s',
    VoiceLab.removeFile fname element (VoiceLab.RemoveResponse true) s = Some s' /\
    VoiceLab.audioFiles s' !! element
      = Some (filter (λ f, VoiceLab.filename f ≠ fname) prev) /\
    (forall c, c ≠ element -> VoiceLab.audioFiles s' !! c = VoiceLab.audioFiles s !! c) /\
    (length (filter (λ f, VoiceLab.filename f ≠ fname) prev)
       + VoiceLab.occurrences fname prev = length prev)%nat /\
    (VoiceLab.occurrences fname prev = 1%nat ->
     exists l1 f l2,
       prev = l1 ++ f :: l2 /\ VoiceLab.filename f = fname /\
       filter (λ f, VoiceLab.filename f ≠ fname) prev = l1 ++ l2).
Proof.
  intros Hprev. unfold VoiceLab.removeFile. rewrite Hprev. cbn [mbind option_bind].
  eexists. split; [reflexivity|]. cbn [VoiceLab.setAudioFiles VoiceLab.audioFiles].
  split; [by rewrite lookup_insert_eq|].
  split; [intros c Hc; by rewrite lookup_insert_ne|].
  split; [apply VoiceLabFacts.filter_split | apply VoiceLabFacts.filter_single].
Qed.

Lemma removeFile_removes_every_match_witness :
  exists s',
    VoiceLab.removeFile "a.wav" "aria" (VoiceLab.RemoveResponse true) lab_state = Some s' /\
    VoiceLab.audioFiles s' !! "aria"
      = Some (filter (λ f, VoiceLab.filename f ≠ "a.wav") [stored_file]) /\
    (forall c, c ≠ "aria" ->
       VoiceLab.audioFiles s' !! c = VoiceLab.audioFiles lab_state !! c) /\
    (length (filter (λ f, VoiceLab.filename f ≠ "a.wav") [stored_file])
       + VoiceLab.occurrences "a.wav" [stored_file] = length [stored_file])%nat /\
    (VoiceLab.occurrences "a.wav" [stored_file] = 1%nat ->
     exists l1 f l2,
       [stored_file] = l1 ++ f :: l2 /\ VoiceLab.filename f = "a.wav" /\
       filter (λ f, VoiceLab.filename f ≠ "a.wav") [stored_file] = l1 ++ l2).
Proof.
  apply (removeFile_removes_every_match lab_state "a.wav" "aria" [stored_file]).
  vm_compute; reflexivity.
Defined.

(** C8 fails as stated: with [a.wav] listed twice under "aria" one
    successful removal takes both entries away, and a successful
    removal of a name that is not listed takes none. *)
Lemma removeFile_removes_two_or_none :
  (s ← VoiceLab.run VoiceLab.initial
         [VoiceLab.Upload "aria" (VoiceLab.UploadBody (Some [stored_file]));
          VoiceLab.Upload "aria" (VoiceLab.UploadBody (Some [stored_file]))];
   Some (VoiceLab.audioFiles s !! "aria"))
  = Some (Some [stored_file; stored_file]) /\
  (s ← VoiceLab.run VoiceLab.initial
         [VoiceLab.Upload "aria" (VoiceLab.UploadBody (Some [stored_file]));
          VoiceLab.Upload "aria" (VoiceLab.UploadBody (Some [stored_file]));
          VoiceLab.Remove "a.wav" "aria" (VoiceLab.RemoveResponse true)];
   Some (VoiceLab.audioFiles s !! "aria"))
  = Some (Some []) /\
  (s ← VoiceLab.removeFile "b.wav" "aria" (VoiceLab.RemoveResponse true) lab_state;
   Some (VoiceLab.audioFiles s !! "aria"))
  = Some (Some [stored_file]).
Proof. repeat split; vm_compute; reflexivity. Qed.

(** ** C9 *)

(** C9. In every reachable state the prediction on display, if there
    is one, is one of the four class labels and comes with a
    confidence that lies between 0 and 1, bounds included. *)
Theorem prediction_has_class_and_confidence (w : World) :
  reachable w -> prediction_well_formed (app w).
Proof. apply reachable_prediction. Qed.

Lemma prediction_has_class_and_confidence_witness :
  prediction_well_formed (app classified_world).
Proof.
  apply (prediction_has_class_and_confidence classified_world).
  exists [DatasetUpload "fuoco" [fuoco_sample]; TrainingClick; TimerFires 0 [0.5%float];
          ClassifyUpload fuoco_sample; TimerFires 0 [0.75%float; 0.5%float]].
  vm_compute; reflexivity.
Defined.

(** ** C10 *)

(** C10, as amended. In every reachable state the accuracy on display,
    if there is one, lies between 0.95 and 1.0, both bounds included;
    and a training that is in progress has its timer pending, which on
    firing ends the training and reports such an accuracy, whatever
    the dataset. *)
Theorem accuracy_between_095_and_1 (w : World) :
  reachable w ->
  accuracy_in_range (app w) /\
  (isTraining (app w) = true ->
   exists i, timers w !! i = Some TrainingTimer /\
     forall r, random_ok r = true ->
       exists w', step w (TimerFires i [r]) = Some w' /\
                  isTraining (app w') = false /\
                  modelAccuracy (app w') = Some (training_accuracy r) /\
                  accuracy_in_range (app w')).
Proof.
  intros Hw. split; [by apply reachable_accuracy|].
  intros Ht. pose proof (reachable_flag_counts w Hw) as Hf.
  unfold flag_counts in Hf. rewrite Ht in Hf.
  destruct (trainings_in_flight_pending (timers w)) as [i Hi]; [lia|].
  exists i. split; [exact Hi|]. intros r Hr.
  cbn [step]. rewrite Hi, Hr. eexists. split; [reflexivity|].
  cbn [app training_timeout setModelAccuracy setIsTraining isTraining modelAccuracy].
  split; [reflexivity|]. split; [reflexivity|].
  intros a [= <-]. by apply training_accuracy_range.
Qed.

Lemma accuracy_between_095_and_1_witness :
  accuracy_in_range (app training_world) /\
  (isTraining (app training_world) = true ->
   exists i, timers training_world !! i = Some TrainingTimer /\
     forall r, random_ok r = true ->
       exists w', step training_world (TimerFires i [r]) = Some w' /\
                  isTraining (app w') = false /\
                  modelAccuracy (app w') = Some (training_accuracy r) /\
                  accuracy_in_range (app w')).
Proof.
  apply (accuracy_between_095_and_1 training_world).
  exists [DatasetUpload "fuoco" [fuoco_sample]; TrainingClick].
  vm_compute; reflexivity.
Defined.

(** C10 fails as stated: when [Math.random] returns the largest number
    below 1 (or the largest multiple of [2^-52] below 1), the sum
    [r * 0.05 + 0.95] rounds to 1, and the reported accuracy is 1.0,
    which is not below 1.0. *)
Lemma accuracy_reaches_one :
  random_ok largest_draw = true /\
  modelAccuracy ∘ app <$> train one_sample_world largest_draw = Some (Some 1%float) /\
  random_ok largest_draw_52 = true /\
  modelAccuracy ∘ app <$> train one_sample_world largest_draw_52 = Some (Some 1%float) /\
  (1 <? 1)%float = false.
Proof. repeat split; vm_compute; reflexivity. Qed.
End Claims.

(** * Part IV. Further properties of the code *)

(** ** Products by 100 *)

Module PercentFacts.
Import JsNumber Binary64Facts VoiceClassifierApp.
Local Open Scope Z_scope.

(** A value less than half a unit below a normal number [mb * 2^eb] of
    the same binade does not round below that number. *)
Lemma rounds_to_just_below V R mb eb :
  rounds_to V R -> bounded prec emax mb eb = true ->
  2 ^ 52 * bpow eb <= V -> 2 * (Zpos mb * bpow eb) - bpow eb < 2 * V ->
  Zpos mb * bpow eb <= SFreal R.
Proof.
  intros HR Hb Hbin Hnear. assert (Hbv := bias_val).
  destruct (Z_le_gt_dec (Zpos mb * bpow eb) V) as [Hle|Hgt].
  { by apply rounds_to_lower with (V := V). }
  destruct (bounded_spec _ _ Hb) as (Heb & Hmb & _).
  destruct HR as (n & g & Hg & _ & -> & Hn & Hlt & Hm).
  assert (HG : 0 < bpow g) by (apply bpow_pos; lia).
  assert (HE : 0 < bpow eb) by (apply bpow_pos; lia).
  assert (g = eb) as ->.
  { destruct (Z.lt_trichotomy g eb) as [L|[E|G]]; [exfalso|exact E|exfalso].
    - assert (bpow (g + 1) <= bpow eb) by (apply bpow_le; lia).
      rewrite bpow_shift in H by lia. change (2 ^ 1) with 2 in H.
      change (2 ^ 53) with (2 * 2 ^ 52) in Hlt.
      assert (0 < 2 ^ 52) by (change (2 ^ 52) with 4503599627370496; lia).
      nia.
    - specialize (Hm ltac:(lia)).
      assert (bpow (eb + 1) <= bpow g) by (apply bpow_le; lia).
      rewrite bpow_shift in H by lia. change (2 ^ 1) with 2 in H.
      change (2 ^ 53) with (2 * 2 ^ 52) in Hmb.
      assert (0 < 2 ^ 52) by (change (2 ^ 52) with 4503599627370496; lia).
      nia. }
  apply Z.mul_le_mono_nonneg_r; [lia|].
  destruct (Z_le_gt_dec (Zpos mb) n) as [?|Hn']; [assumption|exfalso].
  assert (n * bpow eb <= (Zpos mb - 1) * bpow eb)
    by (apply Z.mul_le_mono_nonneg_r; lia).
  lia.
Qed.

Lemma hundred_real : SFreal (Prim2SF 100) = 100 * bpow 0.
Proof.
  assert (Hbv := bias_val).
  change (Prim2SF 100) with (S754_finite false 7036874417766400 (-46)).
  cbn [SFreal cond_Zopp].
  replace (bpow 0) with (2 ^ 46 * bpow (-46))
    by (rewrite <- bpow_shift by lia; reflexivity).
  change (2 ^ 46) with 70368744177664. lia.
Qed.

(** The product by 100 of a number [x] between [lo] and 1 is a
    rounding of an exact value between [100 * lo] and 100. *)
Lemma percent_rounds x : SFnonneg (Prim2SF x) = true -> SFreal (Prim2SF x) <= bpow 0 ->
  rounds_to (100 * SFreal (Prim2SF x)) (Prim2SF (x * 100)).
Proof.
  intros N Hle. assert (Hbv := bias_val).
  assert (H0 : 0 < bpow 0) by (apply bpow_pos; lia).
  assert (B800 : bpow 7 <= bpow 800) by (apply bpow_le; lia).
  assert (B7 : bpow 7 = 128 * bpow 0).
  { change (bpow 7) with (bpow (0 + 7)). rewrite bpow_shift by lia. reflexivity. }
  destruct (mul_rounds x 100) as (V & E & R);
    [exact N | reflexivity | exact Hle | rewrite hundred_real; lia |].
  rewrite hundred_real in E.
  replace (100 * SFreal (Prim2SF x)) with V by nia. exact R.
Qed.

Lemma percent_at_most_100 x :
  SFnonneg (Prim2SF x) = true -> SFreal (Prim2SF x) <= bpow 0 ->
  (x * 100 <=? 100)%float = true.
Proof.
  intros N Hle. assert (R := percent_rounds x N Hle).
  apply leb_of_real; [exact (rounds_to_nonneg _ _ R) | reflexivity |].
  rewrite hundred_real.
  assert (E : 100 * bpow 0 = Zpos 7036874417766400 * bpow (-46)).
  { rewrite <- hundred_real. reflexivity. }
  rewrite E. apply (rounds_to_upper _ _ _ _ R); [reflexivity|]. rewrite <- E. lia.
Qed.

(** The order of the values is the order of canonical nonnegative numbers. *)
Lemma SFleb_real_inv x y :
  valid_binary x = true -> valid_binary y = true ->
  SFnonneg x = true -> SFnonneg y = true ->
  SFleb x y = true -> SFreal x <= SFreal y.
Proof.
  assert (Hbv := bias_val).
  destruct x as [sx| | |sx mx ex], y as [sy| | |sy my ey]; try discriminate;
    cbn [valid_binary SFnonneg SFreal]; intros Vx Vy Nx Ny H; try lia.
  - destruct sy; [discriminate|]. cbn [cond_Zopp].
    destruct (bounded_spec _ _ Vy) as (He & _).
    assert (0 < bpow ey) by (apply bpow_pos; lia). lia.
  - destruct sx; discriminate.
  - destruct sx, sy; try discriminate. cbn [cond_Zopp].
    destruct (bounded_spec _ _ Vx) as (Hex & Hmx & Hnx).
    destruct (bounded_spec _ _ Vy) as (Hey & Hmy & Hny).
    assert (0 < bpow ex) by (apply bpow_pos; lia).
    assert (0 < bpow ey) by (apply bpow_pos; lia).
    unfold SFleb, SFcompare in H.
    destruct (Z.compare_spec ex ey) as [E|L|G]; [subst ey| |discriminate].
    + rewrite Pos.compare_cont_spec in H. cbn [Pos.switch_Eq] in H.
      destruct (Pos.compare_spec mx my) as [E|L|G]; try discriminate; nia.
    + assert (bpow (ex + 1) <= bpow ey) by (apply bpow_le; lia).
      rewrite (bpow_shift ex 1) in H2 by lia. change (2 ^ 1) with 2 in H2.
      specialize (Hny ltac:(lia)). nia.
Qed.

(** A number between a positive constant and 1 is a nonnegative
    finite number, and its value lies between theirs. *)
Lemma between_real lo x mlo elo :
  Prim2SF lo = S754_finite false mlo elo ->
  (lo <=? x)%float = true -> (x <=? 1)%float = true ->
  SFnonneg (Prim2SF x) = true /\
  Zpos mlo * bpow elo <= SFreal (Prim2SF x) <= bpow 0.
Proof.
  intros Hlo H1 H2. rewrite FloatAxioms.leb_spec in H1, H2.
  assert (Vlo := Prim2SF_valid lo). assert (Vx := Prim2SF_valid x).
  assert (N : SFnonneg (Prim2SF x) = true).
  { rewrite Hlo in H1. change (Prim2SF 1) with (S754_finite false 4503599627370496 (-52)) in H2.
    destruct (Prim2SF x) as [[]|[]| |[] m e]; try reflexivity; discriminate. }
  split; [exact N|]. split.
  - replace (Zpos mlo * bpow elo) with (SFreal (Prim2SF lo))
      by (rewrite Hlo; reflexivity).
    apply SFleb_real_inv; try assumption. rewrite Hlo. reflexivity.
  - rewrite <- one_real. apply SFleb_real_inv; try assumption; reflexivity.
Qed.

(** [modelAccuracy * 100] for an accuracy between 0.95 and 1: the
    exact product may lie below 95 by [40 * 2^-53], and rounds to 95. *)
Lemma accuracy_percent a :
  (0.95 <=? a)%float = true -> (a <=? 1)%float = true ->
  (95 <=? a * 100)%float = true /\ (a * 100 <=? 100)%float = true.
Proof.
  intros Hlo Hhi. assert (Hbv := bias_val).
  destruct (between_real 0.95 a 8556839292003942 (-53) eq_refl Hlo Hhi)
    as (N & Hge & Hle).
  split; [|by apply percent_at_most_100].
  assert (R := percent_rounds a N Hle).
  apply leb_of_real; [reflexivity | exact (rounds_to_nonneg _ _ R) |].
  change (Prim2SF 95) with (S754_finite false 6685030696878080 (-46)).
  cbn [SFreal cond_Zopp].
  assert (P53 : 0 < bpow (-53)) by (apply bpow_pos; lia).
  assert (E46 : bpow (-46) = 2 ^ 7 * bpow (-53))
    by (rewrite <- bpow_shift by lia; reflexivity).
  change (2 ^ 7) with 128 in E46.
  apply (rounds_to_just_below _ _ _ _ R); [reflexivity| |].
  - rewrite E46. change (2 ^ 52) with 4503599627370496. lia.
  - rewrite E46. lia.
Qed.

(** [confidence * 100] for a confidence between 0.9 and 1. *)
Lemma confidence_percent x :
  (0.9 <=? x)%float = true -> (x <=? 1)%float = true ->
  (90 <=? x * 100)%float = true /\ (x * 100 <=? 100)%float = true.
Proof.
  intros Hlo Hhi. assert (Hbv := bias_val).
  destruct (between_real 0.9 x 8106479329266893 (-53) eq_refl Hlo Hhi)
    as (N & Hge & Hle).
  split; [|by apply percent_at_most_100].
  assert (R := percent_rounds x N Hle).
  apply leb_of_real; [reflexivity | exact (rounds_to_nonneg _ _ R) |].
  change (Prim2SF 90) with (S754_finite false 6333186975989760 (-46)).
  cbn [SFreal cond_Zopp].
  assert (P53 : 0 < bpow (-53)) by (apply bpow_pos; lia).
  assert (E46 : bpow (-46) = 2 ^ 7 * bpow (-53))
    by (rewrite <- bpow_shift by lia; reflexivity).
  change (2 ^ 7) with 128 in E46.
  apply (rounds_to_lower _ _ _ _ R); [reflexivity|].
  rewrite E46. lia.
Qed.

End PercentFacts.

(** ** VoiceClassifierApp.jsx: the dataset, the timers and the cards *)

Module VoiceClassifierAppPageFacts.
Import JsNumber VoiceClassifierApp VoiceClassifierAppPage.
Import MockedResultFacts VoiceClassifierAppFacts Examples.

Lemma run_app evs1 : forall evs2 w,
  run w (evs1 ++ evs2) = (w1 ← run w evs1; run w1 evs2).
Proof.
  induction evs1 as [|ev evs1 IH]; intros evs2 w; [reflexivity|].
  cbn [run List.app]. destruct (step w ev) as [w1|]; [|reflexivity].
  cbn. apply IH.
Qed.

Lemma reachable_run w evs w' : reachable w -> run w evs = Some w' -> reachable w'.
Proof.
  intros [evs0 H0] H. exists (evs0 ++ evs). rewrite run_app, H0. exact H.
Qed.

(** *** The dataset after a run *)

Lemma step_uploaded w ev w' c l : step w ev = Some w' ->
  audioFiles (app w) !! c = Some l ->
  audioFiles (app w') !! c = Some (l ++ uploaded c [ev]).
Proof.
  intros H Hc. apply step_inv in H.
  destruct ev as [v|element files| |now|file|i draws]; cbn [uploaded].
  - subst w'. by rewrite app_nil_r.
  - destruct H as (s & Hs & ->).
    destruct (handleDatasetUpload_inv _ _ _ _ Hs) as (prev & Hprev & ->).
    cbn [app setAudioFiles audioFiles]. rewrite app_nil_r.
    destruct (decide (element = c)) as [->|Hne].
    + rewrite lookup_insert_eq. congruence.
    + rewrite lookup_insert_ne by done. by rewrite app_nil_r.
  - destruct H as [_ ->]. by rewrite app_nil_r.
  - subst w'. by rewrite app_nil_r.
  - destruct H as [_ ->]. by rewrite app_nil_r.
  - destruct H as [(r & _ & _ & _ & ->)|(r1 & r2 & _ & _ & _ & _ & ->)];
      by rewrite app_nil_r.
Qed.

Lemma uploaded_cons c ev evs : uploaded c (ev :: evs) = uploaded c [ev] ++ uploaded c evs.
Proof. destruct ev; cbn [uploaded]; by rewrite ?app_nil_r. Qed.

(** X1. After any run of events, the list under a class is the list it
    held before followed by the files uploaded under that class during
    the run, in the order of the uploads: nothing is removed,
    reordered, or stored under another class. *)
Theorem dataset_is_what_was_uploaded evs : forall w w' c l,
  run w evs = Some w' -> audioFiles (app w) !! c = Some l ->
  audioFiles (app w') !! c = Some (l ++ uploaded c evs).
Proof.
  induction evs as [|ev evs IH]; intros w w' c l H Hc.
  - cbn in H. simplify_eq. by rewrite app_nil_r.
  - cbn [run] in H. destruct (step w ev) as [w1|] eqn:E; [|discriminate].
    cbn in H. rewrite uploaded_cons, app_assoc.
    eapply IH; [exact H|]. by eapply step_uploaded.
Qed.

(** *** Uploads compose *)

(** X2. Uploads compose. Two uploads under the same class amount to
    one upload of the two selections put together, and uploads under
    different classes commute; both hold also when the class is not a
    key of [audioFiles] and the upload throws. *)
Theorem uploads_compose s :
  (forall element files1 files2,
     (s1 ← handleDatasetUpload element files1 s;
      handleDatasetUpload element files2 s1) =
     handleDatasetUpload element (files1 ++ files2) s) /\
  (forall element1 files1 element2 files2, element1 <> element2 ->
     (s1 ← handleDatasetUpload element1 files1 s;
      handleDatasetUpload element2 files2 s1) =
     (s2 ← handleDatasetUpload element2 files2 s;
      handleDatasetUpload element1 files1 s2)).
Proof.
  split.
  - intros element files1 files2. unfold handleDatasetUpload.
    destruct (audioFiles s !! element) as [prev|] eqn:E; [|reflexivity].
    cbn [mbind option_bind setAudioFiles audioFiles].
    rewrite lookup_insert_eq. cbn [mbind option_bind].
    rewrite insert_insert_eq, fmap_app, app_assoc. reflexivity.
  - intros element1 files1 element2 files2 Hne. unfold handleDatasetUpload.
    destruct (audioFiles s !! element1) as [prev1|] eqn:E1,
             (audioFiles s !! element2) as [prev2|] eqn:E2;
      cbn [mbind option_bind setAudioFiles audioFiles];
      rewrite ?lookup_insert_ne by done; rewrite ?E1, ?E2;
      cbn [mbind option_bind setAudioFiles audioFiles]; try reflexivity.
    rewrite insert_insert_ne by done. reflexivity.
Qed.

(** *** Saved projects *)

(** X3. Every click on "Salva" appends exactly one project to the
    list of saved projects, and no other event changes that list. *)
Theorem one_saved_project_per_click evs : forall w w',
  run w evs = Some w' ->
  exists saved, datasets (app w') = datasets (app w) ++ saved /\
                length saved = saves evs.
Proof.
  induction evs as [|ev evs IH]; intros w w' H.
  - cbn in H. simplify_eq. exists []. by rewrite app_nil_r.
  - cbn [run] in H. destruct (step w ev) as [w1|] eqn:E; [|discriminate].
    cbn in H. destruct (IH _ _ H) as (saved & Hs & Hl).
    apply step_inv in E. rewrite Hs.
    destruct ev as [v|element files| |now|file|i draws]; cbn [saves].
    + subst w1. by exists saved.
    + destruct E as (s & Hup & ->).
      destruct (handleDatasetUpload_inv _ _ _ _ Hup) as (? & _ & ->).
      by exists saved.
    + destruct E as [_ ->]. by exists saved.
    + subst w1. cbn [app saveProject setDatasets datasets].
      eexists (_ :: saved). rewrite <- app_assoc. split; [reflexivity|].
      cbn. by rewrite Hl.
    + destruct E as [_ ->]. by exists saved.
    + destruct E as [(r & _ & _ & _ & ->)|(r1 & r2 & _ & _ & _ & _ & ->)];
        by exists saved.
Qed.


(** *** When the classification input is enabled *)

(** A number that is at least 0.95 is truthy. *)
Lemma accuracy_truthy a : (0.95 <=? a)%float = true -> truthy (Some a) = true.
Proof.
  intros H. unfold truthy, is_zero, is_nan.
  rewrite FloatAxioms.leb_spec in H. rewrite !FloatAxioms.eqb_spec.
  change (Prim2SF 0.95) with (S754_finite false 8556839292003942 (-53)) in H.
  change (Prim2SF 0) with (S754_zero false).
  destruct (Prim2SF a) as [s|s| |s m e]; try discriminate H.
  - by destruct s.
  - destruct s; [discriminate H|]. unfold SFeqb, SFcompare.
    by rewrite Z.compare_refl, Pos.compare_cont_refl.
Qed.

Lemma reachable_trained w : reachable w ->
  (classification_started w -> modelAccuracy (app w) <> None) /\
  (modelAccuracy (app w) <> None -> classify_disabled (app w) = false).
Proof.
  intros Hw. split.
  - revert w Hw.
    apply (reachable_invariant
             (λ w, classification_started w -> modelAccuracy (app w) <> None)).
    + unfold classification_started, initial_world, initial; cbn.
      intros [?|[?|[?|Hin]]]; try done. by apply elem_of_nil in Hin.
    + intros w ev w' IH Hs. pose proof (step_inv _ _ _ Hs) as Hi.
      unfold classification_started in *.
      destruct ev as [v|element files| |now|file|i draws].
      * subst w'. exact IH.
      * destruct Hi as (s & Hup & ->).
        destruct (handleDatasetUpload_inv _ _ _ _ Hup) as (? & _ & ->). exact IH.
      * destruct Hi as [_ ->]. cbn [app startTraining setIsTraining prediction
          confidence newAudioForClassification modelAccuracy timers].
        intros [?|[?|[?|Hin]]]; apply IH; auto.
        apply elem_of_app in Hin as [Hin|Hin]; [auto|].
        apply list_elem_of_singleton in Hin. discriminate.
      * subst w'. exact IH.
      * destruct Hi as [Hen ->]. intros _.
        cbn [app classifyNewAudio setNewAudioForClassification modelAccuracy].
        unfold classify_disabled in Hen.
        destruct (modelAccuracy (app w)); [done|discriminate].
      * destruct Hi as [(r & _ & _ & _ & ->)|(r1 & r2 & _ & Hi & _ & _ & ->)].
        -- intros _. cbn. done.
        -- intros _. cbn [app classification_timeout setConfidence setPrediction
             modelAccuracy]. apply IH. do 3 right.
           by eapply list_elem_of_lookup_2.
  - intros Hne. unfold classify_disabled.
    destruct (modelAccuracy (app w)) as [a|] eqn:E; [|done].
    destruct (reachable_accuracy w Hw a E) as [Hlo _].
    by rewrite accuracy_truthy.
Qed.

Lemma step_trained w ev w' : step w ev = Some w' ->
  modelAccuracy (app w) <> None -> modelAccuracy (app w') <> None.
Proof.
  intros Hs Hne.
  destruct (step_modelAccuracy _ _ _ Hs) as [->|(i & r & _ & _ & _ & ->)]; done.
Qed.

(** X4. Once the input for the audio to classify is enabled, it stays
    enabled whatever happens next. *)
Theorem classification_stays_enabled w evs w' :
  reachable w -> run w evs = Some w' ->
  classify_disabled (app w) = false -> classify_disabled (app w') = false.
Proof.
  intros Hw Hrun Hen.
  apply (reachable_trained w' (reachable_run _ _ _ Hw Hrun)).
  apply (run_invariant (λ w, modelAccuracy (app w) <> None)
           (λ w0 ev w1 H0 Hs, step_trained w0 ev w1 Hs H0) evs w w'); [|exact Hrun].
  unfold classify_disabled in Hen. destruct (modelAccuracy (app w)); done.
Qed.

(** X5. Nothing of a classification exists before a training has
    completed: in every reachable state with a prediction, a
    confidence, a file to classify or a pending classification timer,
    [modelAccuracy] is a number that is at least 0.95 and the input is
    enabled. *)
Theorem classification_needs_a_completed_training w :
  reachable w ->
  prediction (app w) <> None \/ confidence (app w) <> None \/
  newAudioForClassification (app w) <> None \/ ClassificationTimer ∈ timers w ->
  classify_disabled (app w) = false /\
  exists a, modelAccuracy (app w) = Some a /\ (0.95 <=? a)%float = true.
Proof.
  intros Hw Hc. destruct (reachable_trained w Hw) as [H1 H2].
  specialize (H1 Hc). split; [by apply H2|].
  destruct (modelAccuracy (app w)) as [a|] eqn:E; [|done].
  exists a. split; [done|]. by destruct (reachable_accuracy w Hw a E).
Qed.

(** *** Pending timers always fire *)

Lemma random_ok_zero : random_ok 0 = true.
Proof. reflexivity. Qed.

Lemma fire_all_runs ts : forall s,
  exists s', run {| app := s; timers := ts |} (fire_all ts)
             = Some {| app := s'; timers := [] |}.
Proof.
  induction ts as [|[|] ts IH]; intros s; cbn [fire_all run].
  - eauto.
  - cbn [step timers lookup list_lookup app]. rewrite random_ok_zero.
    cbn [mbind option_bind]. apply IH.
  - cbn [step timers lookup list_lookup app]. rewrite random_ok_zero.
    cbn [andb mbind option_bind]. apply IH.
Qed.

Lemma timers_keep_the_dataset evs : forall w1 w2,
  run w1 evs = Some w2 -> forallb fires_timer evs = true ->
  audioFiles (app w2) = audioFiles (app w1).
Proof.
  induction evs as [|ev evs IH]; intros w1 w2 H1 H2.
  - cbn in H1. by simplify_eq.
  - cbn [run] in H1. destruct (step w1 ev) as [w3|] eqn:E3; [|discriminate].
    cbn in H1. cbn [forallb] in H2. apply andb_true_iff in H2 as [Hev H2].
    rewrite (IH _ _ H1 H2). apply step_inv in E3.
    destruct ev; try discriminate Hev.
    destruct E3 as [(r & _ & _ & _ & ->)|(r1 & r2 & _ & _ & _ & _ & ->)];
      reflexivity.
Qed.

Lemma fire_all_fires ts : forallb fires_timer (fire_all ts) = true.
Proof. induction ts as [|[|] ts IH]; cbn; auto. Qed.

(** X6. Every training and every classification that was started can
    complete: from any reachable state the pending timers can fire one
    after the other, after which no timer is pending, [isTraining] is
    false and the dataset is as it was. *)
Theorem pending_timers_can_all_fire w :
  reachable w ->
  exists w', run w (fire_all (timers w)) = Some w' /\
             timers w' = [] /\ isTraining (app w') = false /\
             audioFiles (app w') = audioFiles (app w).
Proof.
  intros Hw. destruct w as [s ts].
  destruct (fire_all_runs ts s) as [s' Hrun]. cbn [timers].
  eexists. split; [exact Hrun|]. split; [reflexivity|].
  pose proof (reachable_flag_counts _ (reachable_run _ _ _ Hw Hrun)) as Hf.
  unfold flag_counts in Hf. cbn [timers app trainings_in_flight] in Hf.
  split; [cbn [app]; by destruct (isTraining s')|].
  apply (timers_keep_the_dataset _ _ _ Hrun), fire_all_fires.
Qed.

(** *** The cards of the dataset *)

(** X7. The cards of the dataset render in every reachable state:
    there is one card per class, in the order of the keys of
    [elementColors], it shows the number of files of its class, and
    it shows the files and the characteristics of the class (which
    [getElementCharacteristics] defines for each of the four) exactly
    when there is a file. *)
Theorem dataset_cards_always_render w : reachable w ->
  exists cards,
    render_cards (app w) = Some cards /\
    card_element <$> cards = elements /\
    forall card, card ∈ cards ->
      exists files,
        audioFiles (app w) !! card_element card = Some files /\
        card_count card = length files /\
        (files = [] -> card_files card = [] /\ card_characteristics card = None) /\
        (files <> [] -> card_files card = files /\
                        card_characteristics card
                        = getElementCharacteristics (card_element card) /\
                        card_characteristics card <> None).
Proof.
  intros Hw. destruct (reachable_dataset w Hw) as [Hdom _].
  assert (Hcard : forall element, element ∈ elements ->
            exists card files,
              render_card (app w) element = Some card /\
              card_element card = element /\
              audioFiles (app w) !! element = Some files /\
              card_count card = length files /\
              (files = [] -> card_files card = [] /\ card_characteristics card = None) /\
              (files <> [] -> card_files card = files /\
                              card_characteristics card
                              = getElementCharacteristics element /\
                              card_characteristics card <> None)).
  { intros element He.
    assert (Hin : element ∈ dom (audioFiles (app w))).
    { rewrite Hdom. unfold class_set. by apply elem_of_list_to_set. }
    apply elem_of_dom in Hin as [files Hfiles].
    assert (Hc : is_Some (getElementCharacteristics element)).
    { unfold elements in He.
      repeat (apply elem_of_cons in He as [->|He]; [by eexists|]).
      by apply elem_of_nil in He. }
    destruct Hc as [shown Hshown].
    unfold render_card. rewrite Hfiles. cbn [mbind option_bind].
    destruct files as [|f files]; cbn [length Nat.ltb Nat.leb].
    - eexists _, _. repeat split; try reflexivity; done.
    - rewrite Hshown. cbn [mbind option_bind]. eexists _, _.
      split; [reflexivity|]. cbn. repeat split; done. }
  destruct (Hcard "aria") as (c1 & f1 & R1 & E1 & H1); [unfold elements; repeat first [apply list_elem_of_here | apply list_elem_of_further]|].
  destruct (Hcard "acqua") as (c2 & f2 & R2 & E2 & H2); [unfold elements; repeat first [apply list_elem_of_here | apply list_elem_of_further]|].
  destruct (Hcard "terra") as (c3 & f3 & R3 & E3 & H3); [unfold elements; repeat first [apply list_elem_of_here | apply list_elem_of_further]|].
  destruct (Hcard "fuoco") as (c4 & f4 & R4 & E4 & H4); [unfold elements; repeat first [apply list_elem_of_here | apply list_elem_of_further]|].
  exists [c1; c2; c3; c4]. split; [|split].
  - unfold render_cards, elements. cbn [mapM]. rewrite R1, R2, R3, R4. reflexivity.
  - cbn. by rewrite E1, E2, E3, E4.
  - intros card Hin.
    repeat (apply elem_of_cons in Hin as [->|Hin];
            [first [ rewrite E1; by exists f1 | rewrite E2; by exists f2
                   | rewrite E3; by exists f3 | rewrite E4; by exists f4 ]|]).
    by apply elem_of_nil in Hin.
Qed.


(** *** Examples *)

Lemma two_sample_world_reachable : reachable two_sample_world.
Proof.
  exists [DatasetUpload "aria" [aria_sample]; DatasetUpload "fuoco" [fuoco_sample]].
  vm_compute; reflexivity.
Qed.

Lemma trained_world_reachable : reachable trained_world.
Proof.
  exists [DatasetUpload "fuoco" [fuoco_sample]; TrainingClick; TimerFires 0 [0.5%float]].
  vm_compute; reflexivity.
Qed.

Lemma classified_world_reachable : reachable classified_world.
Proof.
  exists [DatasetUpload "fuoco" [fuoco_sample]; TrainingClick; TimerFires 0 [0.5%float];
          ClassifyUpload fuoco_sample; TimerFires 0 [0.75%float; 0.5%float]].
  vm_compute; reflexivity.
Qed.

Lemma training_world_reachable : reachable training_world.
Proof.
  exists [DatasetUpload "fuoco" [fuoco_sample]; TrainingClick].
  vm_compute; reflexivity.
Qed.

Lemma dataset_is_what_was_uploaded_witness :
  audioFiles (app two_sample_world) !! "fuoco"
  = Some ([] ++ uploaded "fuoco" [DatasetUpload "aria" [aria_sample];
                                  DatasetUpload "fuoco" [fuoco_sample]]).
Proof.
  apply (dataset_is_what_was_uploaded _ initial_world); vm_compute; reflexivity.
Defined.

Lemma uploads_compose_witness :
  (s1 ← handleDatasetUpload "aria" [aria_sample] initial;
   handleDatasetUpload "fuoco" [fuoco_sample] s1) =
  (s2 ← handleDatasetUpload "fuoco" [fuoco_sample] initial;
   handleDatasetUpload "aria" [aria_sample] s2).
Proof.
  apply (proj2 (uploads_compose initial)). discriminate.
Defined.

Lemma one_saved_project_per_click_witness :
  exists saved, datasets (app saved_world) = datasets (app trained_world) ++ saved /\
                length saved = 1.
Proof.
  apply (one_saved_project_per_click [SaveClick "2024-05-01T10:00:00.000Z"]
           trained_world saved_world).
  vm_compute; reflexivity.
Defined.

Lemma classification_stays_enabled_witness :
  classify_disabled (app classified_world) = false.
Proof.
  apply (classification_stays_enabled trained_world
           [ClassifyUpload fuoco_sample; TimerFires 0 [0.75%float; 0.5%float]]
           classified_world).
  - apply trained_world_reachable.
  - vm_compute; reflexivity.
  - vm_compute; reflexivity.
Defined.

Lemma classification_needs_a_completed_training_witness :
  classify_disabled (app classified_world) = false /\
  exists a, modelAccuracy (app classified_world) = Some a /\ (0.95 <=? a)%float = true.
Proof.
  apply (classification_needs_a_completed_training classified_world).
  - apply classified_world_reachable.
  - left. vm_compute. discriminate.
Defined.

Lemma pending_timers_can_all_fire_witness :
  exists w', run training_world (fire_all (timers training_world)) = Some w' /\
             timers w' = [] /\ isTraining (app w') = false /\
             audioFiles (app w') = audioFiles (app training_world).
Proof.
  apply (pending_timers_can_all_fire training_world), training_world_reachable.
Defined.

Lemma dataset_cards_always_render_witness :
  exists cards,
    render_cards (app two_sample_world) = Some cards /\
    card_element <$> cards = elements /\
    forall card, card ∈ cards ->
      exists files,
        audioFiles (app two_sample_world) !! card_element card = Some files /\
        card_count card = length files /\
        (files = [] -> card_files card = [] /\ card_characteristics card = None) /\
        (files <> [] -> card_files card = files /\
                        card_characteristics card
                        = getElementCharacteristics (card_element card) /\
                        card_characteristics card <> None).
Proof.
  apply (dataset_cards_always_render two_sample_world), two_sample_world_reachable.
Defined.

End VoiceClassifierAppPageFacts.

(** ** VoiceClassifierApp.jsx: the percentages on display *)

Module PagePercentFacts.
Import JsNumber VoiceClassifierApp VoiceClassifierAppPage.
Import MockedResultFacts VoiceClassifierAppFacts VoiceClassifierAppPageFacts PercentFacts.
Import Examples.

Lemma reachable_drawn_prediction w : reachable w -> drawn_prediction (app w).
Proof.
  apply (reachable_invariant (λ w, drawn_prediction (app w))).
  - exact I.
  - intros w0 ev w' Hw Hs. unfold drawn_prediction in *.
    destruct (step_prediction _ _ _ Hs) as [[-> ->]|(r1 & r2 & H1 & H2 & -> & ->)];
      [done|].
    destruct (randomElement_defined r1 H1) as (c & -> & Hc).
    destruct (classification_confidence_range r2 H2) as [Hlo Hhi]. auto.
Qed.

(** X8. The percentages on display. In every reachable state the
    performance panel is absent exactly when no training has
    completed, and otherwise shows [modelAccuracy * 100] between 95
    and 100; the prediction card, when there is a prediction, shows
    one of the four classes with [confidence * 100] between 90 and
    100. All bounds are included and hold for the binary64 products. *)
Theorem percentages_on_display w : reachable w ->
  match render_performance (app w) with
  | Performance percent _ =>
      (95 <=? percent)%float = true /\ (percent <=? 100)%float = true
  | NoPerformance => modelAccuracy (app w) = None
  end /\
  match render_prediction (app w) with
  | Some (c, percent) =>
      c ∈ elements /\ (90 <=? percent)%float = true /\ (percent <=? 100)%float = true
  | None => prediction (app w) = None
  end.
Proof.
  intros Hw. split.
  - unfold render_performance.
    destruct (modelAccuracy (app w)) as [a|] eqn:E; [|reflexivity].
    destruct (reachable_accuracy w Hw a E) as [Hlo Hhi].
    rewrite (accuracy_truthy a Hlo). cbn [to_number default].
    by apply accuracy_percent.
  - pose proof (reachable_drawn_prediction w Hw) as Hd.
    unfold drawn_prediction in Hd. unfold render_prediction.
    destruct (prediction (app w)) as [c|], (confidence (app w)) as [x|];
      try done.
    destruct Hd as (Hc & Hlo & Hhi).
    destruct c as [|a c].
    { exfalso. unfold elements in Hc.
      repeat (apply elem_of_cons in Hc as [Hc|Hc]; [discriminate Hc|]).
      by apply elem_of_nil in Hc. }
    cbn [to_number default]. split; [exact Hc|]. by apply confidence_percent.
Qed.

Lemma percentages_on_display_witness :
  match render_performance (app classified_world) with
  | Performance percent _ =>
      (95 <=? percent)%float = true /\ (percent <=? 100)%float = true
  | NoPerformance => modelAccuracy (app classified_world) = None
  end /\
  match render_prediction (app classified_world) with
  | Some (c, percent) =>
      c ∈ elements /\ (90 <=? percent)%float = true /\ (percent <=? 100)%float = true
  | None => prediction (app classified_world) = None
  end.
Proof.
  apply (percentages_on_display classified_world), classified_world_reachable.
Defined.
End PagePercentFacts.

(** ** VoiceLab.jsx: sessions and the chart *)

Module VoiceLabSessionFacts.
Import JsNumber VoiceLab VoiceLabSession VoiceLabFacts.

(** *** The dataset of a session *)

(** What an upload or a removal does to [audioFiles] depends on
    [audioFiles] only. *)
Lemma apply_op_audioFiles op s1 s2 : audioFiles s1 = audioFiles s2 ->
  match apply_op s1 op, apply_op s2 op with
  | Some s1', Some s2' =>
      audioFiles s1' = audioFiles s2' /\
      isAnalyzing s1' = isAnalyzing s1 /\ dashboardData s1' = dashboardData s1
  | None, None => True
  | _, _ => False
  end.
Proof.
  intros E. destruct op as [element [|[files|]]|fname element [|[]]];
    cbn [apply_op uploadFiles removeFile]; rewrite <- ?E.
  all: try (destruct (audioFiles s1 !! element); cbn; [|done]).
  all: try (by rewrite E).
  all: done.
Qed.

Lemma apply_session_op_inv s op s' sent : apply_session_op s op = Some (s', sent) ->
  isAnalyzing (lab s') = match op with
                         | Analyze _ _ => false
                         | _ => isAnalyzing (lab s)
                         end /\
  match op with
  | Dataset op => exists l, apply_op (lab s) op = Some l /\ audioFiles (lab s') = audioFiles l
  | _ => audioFiles (lab s') = audioFiles (lab s)
  end.
Proof.
  destruct op as [op|reply dashboard|reply|element reply]; cbn [apply_session_op].
  - destruct (apply_op (lab s) op) as [l|] eqn:E; [|done]. cbn. intros ?; simplify_eq.
    pose proof (apply_op_audioFiles op (lab s) (lab s) eq_refl) as H.
    rewrite E in H. cbn. split; [tauto|eauto].
  - intros ?; simplify_eq. destruct reply, dashboard; done.
  - intros ?; simplify_eq. destruct reply; done.
  - unfold addToDataset. destruct (liveAnalysis s);
      [destruct reply as [|[[[] ?]|]]|]; cbn; intros ?; by simplify_eq.
Qed.

(** X9. Analysing the dataset, analysing a recording and adding a
    recording to the dataset never change the lists of files on the
    page: after any session these lists are those that its uploads
    and removals alone produce. Moreover a session that starts with
    [isAnalyzing] false ends with it false, whether its analyses
    failed or not. *)
Theorem session_dataset_is_uploads_and_removals ops : forall s s' sent,
  run_session s ops = Some (s', sent) ->
  (exists l, run (lab s) (dataset_ops ops) = Some l /\
             audioFiles (lab s') = audioFiles l) /\
  (isAnalyzing (lab s) = false -> isAnalyzing (lab s') = false).
Proof.
  induction ops as [|op ops IH]; intros s s' sent H.
  - cbn in H. simplify_eq. cbn. eauto.
  - cbn [run_session] in H.
    destruct (apply_session_op s op) as [[s1 sent1]|] eqn:E; [|done]. cbn in H.
    destruct (run_session s1 ops) as [[s2 sent2]|] eqn:E2; [|done]. cbn in H.
    simplify_eq. destruct (IH _ _ _ E2) as [(l & Hl & Ha) Hn].
    destruct (apply_session_op_inv _ _ _ _ E) as [Hflag Hfiles]. split.
    + assert (Hsame : forall l1 l2 ops, audioFiles l1 = audioFiles l2 ->
                match run l1 ops, run l2 ops with
                | Some l1', Some l2' => audioFiles l1' = audioFiles l2'
                | None, None => True
                | _, _ => False
                end).
      { intros l1 l2 ops0. revert l1 l2.
        induction ops0 as [|o ops0 IH0]; intros l1 l2 El; cbn [run]; [done|].
        pose proof (apply_op_audioFiles o l1 l2 El) as Ho.
        destruct (apply_op l1 o), (apply_op l2 o); try done. cbn.
        apply IH0. tauto. }
      destruct op as [op|reply dashboard|reply|element reply]; cbn [dataset_ops run].
      * destruct Hfiles as (l0 & -> & Hl0). cbn.
        specialize (Hsame (lab s1) l0 (dataset_ops ops) Hl0). rewrite Hl in Hsame.
        destruct (run l0 (dataset_ops ops)) as [l'|]; [|done].
        exists l'. split; [done|congruence].
      * specialize (Hsame (lab s1) (lab s) (dataset_ops ops) Hfiles).
        rewrite Hl in Hsame.
        destruct (run (lab s) (dataset_ops ops)) as [l'|]; [|done].
        exists l'. split; [done|congruence].
      * specialize (Hsame (lab s1) (lab s) (dataset_ops ops) Hfiles).
        rewrite Hl in Hsame.
        destruct (run (lab s) (dataset_ops ops)) as [l'|]; [|done].
        exists l'. split; [done|congruence].
      * specialize (Hsame (lab s1) (lab s) (dataset_ops ops) Hfiles).
        rewrite Hl in Hsame.
        destruct (run (lab s) (dataset_ops ops)) as [l'|]; [|done].
        exists l'. split; [done|congruence].
    + intros H0. apply Hn. rewrite Hflag. by destruct op.
Qed.

(** *** Additions *)


(** *** The dashboard on display *)

Lemma apply_session_op_dashboard s op s' sent : apply_session_op s op = Some (s', sent) ->
  dashboardData (lab s') = dashboardData (lab s) \/
  exists results data, op = Analyze (AnalysisBody results) (DashboardBody data) /\
                       dashboardData (lab s') = data.
Proof.
  destruct op as [op|reply dashboard|reply|element reply]; cbn [apply_session_op].
  - destruct (apply_op (lab s) op) as [l|] eqn:E; [|done]. cbn. intros ?; simplify_eq.
    pose proof (apply_op_audioFiles op (lab s) (lab s) eq_refl) as H.
    rewrite E in H. left. cbn. tauto.
  - intros ?; simplify_eq. destruct reply as [|results], dashboard as [|data];
      cbn; eauto.
  - intros ?; simplify_eq. destruct reply; by left.
  - unfold addToDataset. destruct (liveAnalysis s);
      [destruct reply as [|[[[] ?]|]]|]; cbn; intros ?; simplify_eq; by left.
Qed.

(** X11. When the page shows the scientific dashboard, its data has
    the status "ready" and is what the backend sent for the dashboard
    after an analysis whose own request went through (or it was there
    when the session started): a failed analysis never brings a
    dashboard on display. *)
Theorem dashboard_comes_from_an_analysis ops : forall s s' sent data,
  run_session s ops = Some (s', sent) ->
  render_panel (lab s') = ScientificDashboard data ->
  status data = "ready" /\
  (dashboardData (lab s) = Some data \/
   exists results, Analyze (AnalysisBody results) (DashboardBody (Some data)) ∈ ops).
Proof.
  induction ops as [|op ops IH]; intros s s' sent data H Hp.
  - cbn in H. simplify_eq. unfold render_panel in Hp.
    destruct (dashboardData (lab s')) as [d|]; [|done].
    destruct (String.eqb (status d) "ready") eqn:E; [|done]. simplify_eq.
    apply String.eqb_eq in E. auto.
  - cbn [run_session] in H.
    destruct (apply_session_op s op) as [[s1 sent1]|] eqn:E; [|done]. cbn in H.
    destruct (run_session s1 ops) as [[s2 sent2]|] eqn:E2; [|done]. cbn in H.
    simplify_eq. destruct (IH _ _ _ _ E2 Hp) as [Hr [Hd|(results & Hin)]].
    + split; [exact Hr|].
      destruct (apply_session_op_dashboard _ _ _ _ E) as [Hs|(results & d & -> & Hs)].
      * left. congruence.
      * right. exists results. rewrite Hs in Hd. subst d. apply list_elem_of_here.
    + split; [exact Hr|]. right. exists results. by apply list_elem_of_further.
Qed.

(** *** Removals *)

Lemma filter_twice fname (l : list StoredFile) :
  filter (λ f, filename f ≠ fname) (filter (λ f, filename f ≠ fname) l)
  = filter (λ f, filename f ≠ fname) l.
Proof. apply list_filter_filter_l. auto. Qed.

Lemma filter_swap fname1 fname2 (l : list StoredFile) :
  filter (λ f, filename f ≠ fname1) (filter (λ f, filename f ≠ fname2) l)
  = filter (λ f, filename f ≠ fname2) (filter (λ f, filename f ≠ fname1) l).
Proof.
  rewrite !list_filter_filter. apply list_filter_iff. tauto.
Qed.

(** X12. Removing a file name from a class twice is the same as
    removing it once, and two removals, of any names from any classes,
    give the same state in either order (also when one of them
    throws). *)
Theorem removals_repeat_and_commute s fname1 element1 fname2 element2 :
  (s1 ← removeFile fname1 element1 (RemoveResponse true) s;
   removeFile fname1 element1 (RemoveResponse true) s1)
  = removeFile fname1 element1 (RemoveResponse true) s /\
  (s1 ← removeFile fname1 element1 (RemoveResponse true) s;
   removeFile fname2 element2 (RemoveResponse true) s1)
  = (s2 ← removeFile fname2 element2 (RemoveResponse true) s;
     removeFile fname1 element1 (RemoveResponse true) s2).
Proof.
  unfold removeFile. split.
  - destruct (audioFiles s !! element1) as [prev|] eqn:E; [|reflexivity].
    cbn [mbind option_bind setAudioFiles audioFiles].
    rewrite lookup_insert_eq. cbn [mbind option_bind].
    by rewrite insert_insert_eq, filter_twice.
  - destruct (decide (element1 = element2)) as [<-|Hne].
    + destruct (audioFiles s !! element1) as [prev|] eqn:E; [|reflexivity].
      cbn [mbind option_bind setAudioFiles audioFiles].
      rewrite !lookup_insert_eq. cbn [mbind option_bind setAudioFiles audioFiles].
      by rewrite !insert_insert_eq, filter_swap.
    + destruct (audioFiles s !! element1) as [prev1|] eqn:E1,
               (audioFiles s !! element2) as [prev2|] eqn:E2;
        cbn [mbind option_bind setAudioFiles audioFiles];
        rewrite ?lookup_insert_ne by done; rewrite ?E1, ?E2;
        cbn [mbind option_bind setAudioFiles audioFiles]; try reflexivity.
      by rewrite insert_insert_ne.
Qed.

(** X13. Removing what was just uploaded restores the state: if a
    class lists no file of a given name, then uploading files of that
    name under the class and removing the name from the class leaves
    the state exactly as it was. *)
Theorem upload_then_remove_restores s element fname files prev :
  audioFiles s !! element = Some prev ->
  (forall f, f ∈ prev -> filename f ≠ fname) ->
  (forall f, f ∈ files -> filename f = fname) ->
  (s1 ← uploadFiles element (UploadBody (Some files)) s;
   removeFile fname element (RemoveResponse true) s1) = Some s.
Proof.
  intros Hprev Hold Hnew. unfold uploadFiles, removeFile. rewrite Hprev.
  cbn [mbind option_bind setAudioFiles audioFiles].
  rewrite lookup_insert_eq. cbn [mbind option_bind setAudioFiles audioFiles].
  rewrite insert_insert_eq, filter_app.
  assert (filter (λ f, filename f ≠ fname) prev = prev) as ->.
  { clear Hprev. induction prev as [|f prev IH]; [done|].
    rewrite filter_cons_True by (apply Hold; apply list_elem_of_here).
    f_equal. apply IH. intros g Hg. apply Hold. by apply list_elem_of_further. }
  assert (filter (λ f, filename f ≠ fname) files = []) as ->.
  { clear Hprev. induction files as [|f files IH]; [done|].
    rewrite filter_cons_False
      by (intros Hne; apply Hne, Hnew, list_elem_of_here).
    apply IH. intros g Hg. apply Hnew. by apply list_elem_of_further. }
  rewrite app_nil_r, insert_id by done. by destruct s.
Qed.

(** *** Which runs go through *)

Lemma apply_op_throws s op : dom (audioFiles s) = class_set ->
  apply_op s op = None <-> op_throws op = true.
Proof.
  intros Hdom.
  assert (Hkey : forall element,
            audioFiles s !! element = None <-> ¬ element ∈ elements).
  { intros element. rewrite <- not_elem_of_dom, Hdom. unfold class_set.
    by rewrite elem_of_list_to_set. }
  destruct op as [element [|[files|]]|fname element [|[]]];
    cbn [apply_op uploadFiles removeFile op_throws]; try done.
  - rewrite orb_false_r, negb_true_iff, bool_decide_eq_false, <- Hkey.
    destruct (audioFiles s !! element); cbn; split; intros; done.
  - rewrite orb_true_r. destruct (audioFiles s !! element); done.
  - rewrite negb_true_iff, bool_decide_eq_false, <- Hkey.
    destruct (audioFiles s !! element); cbn; split; intros; done.
Qed.

(** X14. On a state with the four classes, a sequence of uploads and
    removals goes through unless one of them updates the state for a
    class that is not one of the four or with an answer that has no
    [files]. *)
Theorem run_fails_exactly_when_an_update_throws ops : forall s,
  dom (audioFiles s) = class_set ->
  run s ops = None <-> exists op, op ∈ ops /\ op_throws op = true.
Proof.
  induction ops as [|op ops IH]; intros s Hdom; cbn [run].
  - split; [done|]. intros (op & Hin & _). by apply elem_of_nil in Hin.
  - destruct (apply_op s op) as [s1|] eqn:E; cbn.
    + assert (Hdom1 : dom (audioFiles s1) = class_set).
      { rewrite <- Hdom. apply (run_dom [op]). cbn. by rewrite E. }
      rewrite (IH s1 Hdom1). split.
      * intros (o & Hin & Ho). exists o. split; [by apply list_elem_of_further|done].
      * intros (o & Hin & Ho). apply elem_of_cons in Hin as [->|Hin]; [|eauto].
        apply (apply_op_throws s _ Hdom) in Ho. congruence.
    + split; [|done]. intros _. exists op. split; [apply list_elem_of_here|].
      by apply (apply_op_throws s _ Hdom).
Qed.

(** *** The chart *)






(** *** Examples *)

Lemma session_dataset_is_uploads_and_removals_witness :
  (exists l, run (lab initial_session) (dataset_ops session_ops) = Some l /\
             audioFiles (lab session_end.1) = audioFiles l) /\
  (isAnalyzing (lab initial_session) = false -> isAnalyzing (lab session_end.1) = false).
Proof.
  apply (session_dataset_is_uploads_and_removals session_ops initial_session
           session_end.1 session_end.2).
  vm_compute; reflexivity.
Defined.


Lemma dashboard_comes_from_an_analysis_witness :
  status ready_dashboard = "ready" /\
  (dashboardData (lab initial_session) = Some ready_dashboard \/
   exists results,
     Analyze (AnalysisBody results) (DashboardBody (Some ready_dashboard)) ∈ session_ops).
Proof.
  apply (dashboard_comes_from_an_analysis session_ops initial_session
           session_end.1 session_end.2); vm_compute; reflexivity.
Defined.

Lemma upload_then_remove_restores_witness :
  (s1 ← uploadFiles "aria" (UploadBody (Some [recording])) initial;
   removeFile "a.wav" "aria" (RemoveResponse true) s1) = Some initial.
Proof.
  apply (upload_then_remove_restores initial "aria" "a.wav" [recording] []).
  - vm_compute; reflexivity.
  - intros f Hf. by apply elem_of_nil in Hf.
  - intros f Hf. apply list_elem_of_singleton in Hf. by subst f.
Defined.

Lemma run_fails_exactly_when_an_update_throws_witness :
  run initial [Upload "vento" (UploadBody (Some [recording]))] = None <->
  exists op, op ∈ [Upload "vento" (UploadBody (Some [recording]))] /\ op_throws op = true.
Proof.
  apply (run_fails_exactly_when_an_update_throws
           [Upload "vento" (UploadBody (Some [recording]))] initial).
  apply lab_initial_dom.
Defined.


End VoiceLabSessionFacts.

(** ** ProjectManager.jsx *)

Module ProjectManagerFacts.
Import JsNumber ProjectManager.

Lemma SFleb_trans x y z : SFleb x y = true -> SFleb y z = true -> SFleb x z = true.
Proof.
  unfold SFleb, SFcompare.
  destruct x as [[]|[]| |[] mx ex], y as [[]|[]| |[] my ey], z as [[]|[]| |[] mz ez];
    try (intros; reflexivity); try (intros; discriminate).
  all: destruct (Z.compare_spec ex ey), (Z.compare_spec ey ez), (Z.compare_spec ex ez);
    try (intros; reflexivity); try (intros; discriminate); try lia; subst.
  all: rewrite ?Pos.compare_cont_spec; cbn [Pos.switch_Eq].
  all: destruct (Pos.compare_spec mx my), (Pos.compare_spec my mz), (Pos.compare_spec mx mz);
    cbn; try (intros; reflexivity); try (intros; discriminate); try lia.
Qed.

Lemma leb_trans (x y z : float) :
  (x <=? y)%float = true -> (y <=? z)%float = true -> (x <=? z)%float = true.
Proof. rewrite !leb_spec. apply SFleb_trans. Qed.


(** X16. The text and the colour of the status badge of a project
    always agree: "Vuoto" goes with gray, "Ottimale" with green,
    "Buono" with yellow and "In sviluppo" with blue. *)
Theorem status_text_and_colour_agree project :
  (getProjectStatusText project = "Vuoto" <->
   getProjectStatusColor project = "bg-gray-100 text-gray-600") /\
  (getProjectStatusText project = "Ottimale" <->
   getProjectStatusColor project = "bg-green-100 text-green-700") /\
  (getProjectStatusText project = "Buono" <->
   getProjectStatusColor project = "bg-yellow-100 text-yellow-700") /\
  (getProjectStatusText project = "In sviluppo" <->
   getProjectStatusColor project = "bg-blue-100 text-blue-700").
Proof.
  unfold getProjectStatusText, getProjectStatusColor.
  destruct (totalFiles project =? 0)%float, (0.96 <=? accuracy project)%float,
    (0.85 <=? accuracy project)%float; repeat split; intros; done.
Qed.

(** X17. Among projects that have files, the status rises with the
    accuracy: if one project has at most the accuracy of another, then
    "Ottimale" for the first gives "Ottimale" for the second, "Buono"
    for the first gives "Buono" or "Ottimale" for the second, and "In
    sviluppo" for the second gives "In sviluppo" for the first. *)
Theorem status_rises_with_accuracy p q :
  (totalFiles p =? 0)%float = false -> (totalFiles q =? 0)%float = false ->
  (accuracy p <=? accuracy q)%float = true ->
  (getProjectStatusText p = "Ottimale" -> getProjectStatusText q = "Ottimale") /\
  (getProjectStatusText p = "Buono" ->
   getProjectStatusText q = "Buono" \/ getProjectStatusText q = "Ottimale") /\
  (getProjectStatusText q = "In sviluppo" -> getProjectStatusText p = "In sviluppo").
Proof.
  intros Hp Hq Hle. unfold getProjectStatusText. rewrite Hp, Hq.
  destruct (0.96 <=? accuracy p)%float eqn:E1.
  - rewrite (leb_trans _ _ _ E1 Hle). repeat split; intros; done || auto.
  - destruct (0.85 <=? accuracy p)%float eqn:E2.
    + rewrite (leb_trans _ _ _ E2 Hle).
      destruct (0.96 <=? accuracy q)%float; repeat split; intros; done || auto.
    + destruct (0.96 <=? accuracy q)%float, (0.85 <=? accuracy q)%float;
        repeat split; intros; done || auto.
Qed.

Lemma status_rises_with_accuracy_witness :
  getProjectStatusText voci = "Buono" /\
  (getProjectStatusText voci_ottimale = "Buono" \/
   getProjectStatusText voci_ottimale = "Ottimale").
Proof.
  split; [reflexivity|].
  apply (status_rises_with_accuracy voci voci_ottimale); reflexivity.
Defined.

(** *** Running a handler *)

Lemma handler_inv props s ev h : handler props s ev = Some h ->
  match ev with
  | Mount => h = loadProjects props
  | NewProjectClick => h = setShowCreateForm true
  | CancelClick => showCreateForm s = true /\ h = setShowCreateForm false
  | CreateClick =>
      showCreateForm s = true /\ isLoading s = false /\
      blank (np_name (newProject s)) = false /\
      h = createProject props (newProject s)
  | SaveCurrentClick =>
      isLoading s = false /\ is_Some (currentProject props) /\
      h = saveCurrentProject props
  | ImportChange (Some f) answer => h = importProject props f answer
  | ImportChange None _ => h = mret ()
  | LoadClick card =>
      exists project, projects s !! card = Some project /\ isLoading s = false /\
        h = loadProject props (project_id project)
  | DuplicateClick card answer =>
      exists project, projects s !! card = Some project /\ isLoading s = false /\
        h = duplicateProject props (newProject s) (project_id project) (name project)
              answer
  | ExportClick card =>
      exists project, projects s !! card = Some project /\ isLoading s = false /\
        h = exportProject props (project_id project) (name project)
  | DeleteClick card confirmed =>
      exists project, projects s !! card = Some project /\ isLoading s = false /\
        h = deleteProject props (project_id project) (name project) confirmed
  | NameChange v =>
      showCreateForm s = true /\
      h = updateNewProject (λ prev,
            {| np_name := v; np_description := np_description prev;
               np_trainer := np_trainer prev |})
  | DescriptionChange v =>
      showCreateForm s = true /\
      h = updateNewProject (λ prev,
            {| np_name := np_name prev; np_description := v;
               np_trainer := np_trainer prev |})
  | TrainerChange v =>
      showCreateForm s = true /\
      h = updateNewProject (λ prev,
            {| np_name := np_name prev; np_description := np_description prev;
               np_trainer := v |})
  end.
Proof.
  destruct ev; cbn [handler]; intros H; try (by simplify_eq).
  - destruct (showCreateForm s); by simplify_eq.
  - destruct (showCreateForm s); by simplify_eq.
  - destruct (showCreateForm s); by simplify_eq.
  - destruct (showCreateForm s); by simplify_eq.
  - destruct (showCreateForm s), (isLoading s), (blank (np_name (newProject s)));
      simplify_eq. cbn in *. simplify_eq. repeat split.
  - destruct (currentProject props), (isLoading s); simplify_eq. eauto.
  - destruct fileName; by simplify_eq.
  - destruct (projects s !! card) as [p|]; [|done]. cbn in H.
    destruct (isLoading s); simplify_eq. eauto.
  - destruct (projects s !! card) as [p|]; [|done]. cbn in H.
    destruct (isLoading s); simplify_eq. eauto.
  - destruct (projects s !! card) as [p|]; [|done]. cbn in H.
    destruct (isLoading s); simplify_eq. eauto.
  - destruct (projects s !! card) as [p|]; [|done]. cbn in H.
    destruct (isLoading s); simplify_eq. eauto.
Qed.


(** [loadProjects] always returns: it catches what it throws. It
    sends one request, writes no cell but [projects], and shows
    nothing to the user. *)
Lemma loadProjects_run props answers r :
  exists listed trace,
    loadProjects props answers r =
      (Returned (),
       {| state := {| projects := listed;
                      showCreateForm := showCreateForm (state r);
                      showImportForm := showImportForm (state r);
                      newProject := newProject (state r);
                      selectedProjects := selectedProjects (state r);
                      isLoading := isLoading (state r) |};
          fetches := S (fetches r);
          effects := (effects r ++ [Fetch "GET" (API_BASE props +:+ "/projects") []])
                     ++ trace |}) /\
    listed = match answers (fetches r) with
             | Responds _ (BodyObject o) => default [] (j_projects o)
             | _ => projects (state r)
             end /\
    (trace = [] \/ trace = [ConsoleError "Error loading projects:"]).
Proof.
  destruct r as [[] n es].
  cbv [loadProjects try_catch mbind handler_bind mret handler_ret throw effect update
       console_error fetch json property setProjects].
  cbn [fst snd state fetches effects projects showCreateForm showImportForm newProject
       selectedProjects isLoading].
  destruct (answers n) as [|ok [| |o]]; cbn [snd]; eexists _, _;
    (split; [|split]); try reflexivity; cbn [state projects];
    first [ rewrite app_nil_r; reflexivity | reflexivity
          | left; reflexivity | right; reflexivity | idtac ].
  all: first [left; reflexivity | right; reflexivity].
Qed.

Ltac run_handler H :=
  cbv [loadProject createProject saveCurrentProject duplicateProject
       deleteProject exportProject importProject
       try_catch try_catch_finally mbind handler_bind mret handler_ret throw
       effect update alert console_error onProjectChange fetch json blob property defined ok
       setProjects setShowCreateForm setNewProject updateNewProject setIsLoading] in H;
  cbn [fst snd state fetches effects List.app projects showCreateForm showImportForm
       newProject selectedProjects isLoading
       j_projects j_project j_new_project j_message] in H.

Ltac answer_cases H :=
  cbn [fst snd state fetches effects List.app projects showCreateForm
       showImportForm newProject selectedProjects isLoading
       j_projects j_project j_new_project j_message] in H;
  repeat (match type of H with
          | context [loadProjects ?p ?a ?r0] =>
              let listed := fresh "listed" in
              let trace := fresh "trace" in
              let Heq := fresh "Heq" in
              let Hlisted := fresh "Hlisted" in
              let Htrace := fresh "Htrace" in
              destruct (loadProjects_run p a r0)
                as (listed & trace & Heq & Hlisted & Htrace);
              rewrite Heq in H; clear Heq;
              cbn [fst snd state fetches effects projects showCreateForm showImportForm
                   newProject selectedProjects isLoading] in Hlisted
          | context [match ?answers ?n with FetchThrows => _ | Responds _ _ => _ end] =>
              let E := fresh "Hanswer" in
              destruct (answers n) as [|[] [| |?]] eqn:E
          | context [match ?x with Some _ => _ | None => _ end] =>
              let E := fresh "E" in destruct x eqn:E
          | context [if ?b then _ else _] =>
              let E := fresh "E" in destruct b eqn:E
          end;
          cbn [fst snd state fetches effects List.app projects showCreateForm
               showImportForm newProject selectedProjects isLoading
       j_projects j_project j_new_project j_message] in H).

Ltac dispatch_cases H h Hh :=
  unfold dispatch in H;
  match type of H with
  | context [handler ?props ?s ?ev] =>
      destruct (handler props s ev) as [h|] eqn:Hh; [|discriminate];
      apply handler_inv in Hh; cbn [mbind option_bind] in H;
      apply (inj Some) in H
  end.

Ltac handler_cases H :=
  let h := fresh "h" in
  let Hh := fresh "Hh" in
  let Hblank := fresh "Hblank" in
  dispatch_cases H h Hh;
  lazymatch type of Hh with
  | exists _, _ => destruct Hh as (?project & ?Hcard & ?Hloading & Hh)
  | _ /\ _ /\ _ /\ _ => destruct Hh as (?Hform & ?Hloading & Hblank & Hh)
  | _ /\ _ /\ _ => destruct Hh as (?Hloading & ?Hcurrent & Hh)
  | _ /\ _ => destruct Hh as (?Hform & Hh)
  | _ => idtac
  end;
  subst h; run_handler H; try (rewrite Hblank in H; run_handler H).

Ltac event_cases H ev :=
  destruct ev as [| | |?v|?v|?v| | |[?f|] ?answer|?card|?card ?answer|?card
                 |?card ?confirmed];
  handler_cases H.

Ltac finish_run H :=
  injection H as <- <-;
  cbn [state fetches effects projects showCreateForm showImportForm newProject
       selectedProjects isLoading].

Ltac split_traces :=
  repeat match goal with
  | Ht : _ = [] \/ _ = [_] |- _ => destruct Ht; subst
  end.

Ltac no_such_effect :=
  split_traces; cbn [List.app]; intros Hin;
  repeat (apply elem_of_cons in Hin as [Hin|Hin]; [discriminate Hin|]);
  by apply elem_of_nil in Hin.

(** X18. No handler lets an exception escape, whatever the backend
    answers. Every handler that sends a request, the initial load of
    the list apart, ends with [isLoading] false, also when a request
    fails; a handler that sends none, and the initial load, leave
    [isLoading] as it was. *)
Theorem handlers_return_and_reset_isLoading props answers s ev outcome r :
  dispatch props answers s ev = Some (outcome, r) ->
  outcome = Returned () /\
  (ev <> Mount -> 0 < fetches r -> isLoading (state r) = false) /\
  (ev = Mount \/ fetches r = 0 -> isLoading (state r) = isLoading s).
Proof.
  intros H. event_cases H ev; answer_cases H.
  all: finish_run H.
  all: repeat split; intros; try done; try lia; try (by intuition).
Qed.

Lemma handlers_return_and_reset_isLoading_witness :
  (example gone_after_first listing CreateClick).1 = Returned () /\
  fetches (example gone_after_first listing CreateClick).2 = 3 /\
  isLoading (state (example gone_after_first listing CreateClick).2) = false.
Proof.
  assert (H : dispatch lab_props gone_after_first listing CreateClick
              = Some ((example gone_after_first listing CreateClick).1,
                      (example gone_after_first listing CreateClick).2))
    by (vm_compute; reflexivity).
  destruct (handlers_return_and_reset_isLoading _ _ _ _ _ _ H) as (Ho & Hreset & _).
  split; [exact Ho|]. split; [vm_compute; reflexivity|].
  apply Hreset; [discriminate|]. vm_compute. lia.
Defined.

(** X19. An answer with an error status is reported nowhere: when the
    first request of a handler (the initial load apart) is answered
    with a status that is not a success, the handler sends no other
    request, shows no alert, writes nothing to the console and leaves
    the list of projects and the form as they were; [isLoading] is
    reset to false. *)
Theorem error_status_is_silent props answers s ev outcome r body :
  dispatch props answers s ev = Some (outcome, r) ->
  ev <> Mount -> 0 < fetches r -> answers 0 = Responds false body ->
  fetches r = 1 /\
  (forall text, Alert text ∉ effects r) /\
  (forall text, ConsoleError text ∉ effects r) /\
  projects (state r) = projects s /\
  showCreateForm (state r) = showCreateForm s /\
  newProject (state r) = newProject s /\
  isLoading (state r) = false.
Proof.
  intros H Hev Hsent Hfirst. event_cases H ev; try congruence.
  all: try rewrite Hfirst in H; answer_cases H.
  all: finish_run H; cbn [fetches] in Hsent; try lia.
  all: repeat split; try done; intros text; no_such_effect.
Qed.

Lemma error_status_is_silent_witness :
  fetches (example all_refused listing (DeleteClick 0 true)).2 = 1 /\
  (forall text, Alert text ∉ effects (example all_refused listing (DeleteClick 0 true)).2) /\
  projects (state (example all_refused listing (DeleteClick 0 true)).2) = projects listing /\
  isLoading (state (example all_refused listing (DeleteClick 0 true)).2) = false.
Proof.
  assert (H : dispatch lab_props all_refused listing (DeleteClick 0 true)
              = Some ((example all_refused listing (DeleteClick 0 true)).1,
                      (example all_refused listing (DeleteClick 0 true)).2))
    by (vm_compute; reflexivity).
  destruct (error_status_is_silent _ _ _ _ _ _ BodyNull H)
    as (Hn & Ha & _ & Hp & _ & _ & Hl);
    [discriminate | vm_compute; lia | reflexivity |].
  auto.
Defined.

(** X20. Whenever its button lets [createProject] run, the request
    is sent with the three fields as they were typed, and the form is
    closed and cleared exactly when the answer has a success status
    and a body that parses; otherwise the form stays open with what
    was typed. *)
Theorem createProject_clears_the_form_on_success props answers s outcome r :
  dispatch props answers s CreateClick = Some (outcome, r) ->
  (exists rest,
     effects r =
       Fetch "POST" (API_BASE props +:+ "/projects/create")
         [("name", np_name (newProject s));
          ("description", np_description (newProject s));
          ("trainer", np_trainer (newProject s))] :: rest) /\
  match answers 0 with
  | Responds true (BodyNull | BodyObject _) =>
      showCreateForm (state r) = false /\ newProject (state r) = emptyProject
  | _ => showCreateForm (state r) = true /\ newProject (state r) = newProject s
  end.
Proof.
  intros H. handler_cases H; answer_cases H.
  all: finish_run H; split; [eexists; reflexivity|]; try done.
Qed.

Lemma createProject_clears_the_form_on_success_witness :
  (showCreateForm (state (example all_fine listing CreateClick).2) = false /\
   newProject (state (example all_fine listing CreateClick).2) = emptyProject) /\
  (showCreateForm (state (example all_refused listing CreateClick).2) = true /\
   newProject (state (example all_refused listing CreateClick).2) = newProject listing).
Proof.
  assert (H1 : dispatch lab_props all_fine listing CreateClick
               = Some ((example all_fine listing CreateClick).1,
                       (example all_fine listing CreateClick).2))
    by (vm_compute; reflexivity).
  assert (H2 : dispatch lab_props all_refused listing CreateClick
               = Some ((example all_refused listing CreateClick).1,
                       (example all_refused listing CreateClick).2))
    by (vm_compute; reflexivity).
  split.
  - exact (proj2 (createProject_clears_the_form_on_success _ _ _ _ _ H1)).
  - exact (proj2 (createProject_clears_the_form_on_success _ _ _ _ _ H2)).
Defined.

(** X21. When the backend answers the creation with the new project,
    [createProject] ends by announcing it as created and loaded,
    whatever became of the load; [onProjectChange] is called exactly
    when the load was answered with a success status and an object. *)
Theorem createProject_announces_whatever_the_load props answers s outcome r o p :
  dispatch props answers s CreateClick = Some (outcome, r) ->
  answers 0 = Responds true (BodyObject o) -> j_project o = Some p ->
  last (effects r) =
    Some (Alert ("Progetto " +:+ dquote +:+ name p +:+ dquote +:+
                 " creato e caricato!")) /\
  (forall x, OnProjectChange x ∈ effects r <->
             exists o', answers 2 = Responds true (BodyObject o') /\ x = j_project o').
Proof.
  intros H Hfirst Hp. destruct o as [? created ? ?]; cbn in Hp; subst created.
  handler_cases H. rewrite Hfirst in H.
  answer_cases H; try congruence.
  all: finish_run H.
  all: split; [rewrite !app_comm_cons; apply last_snoc|].
  all: intros x; split_traces; cbn [List.app].
  all: split;
    [ intros Hin;
      repeat (apply elem_of_cons in Hin as [Hin|Hin];
              [first [ discriminate Hin
                     | injection Hin as ->; eexists; split; reflexivity ]|]);
      by apply elem_of_nil in Hin
    | intros (o' & Ho' & ->); simplify_eq;
      repeat first [ apply list_elem_of_here | apply list_elem_of_further ] ].

Qed.

Lemma createProject_announces_whatever_the_load_witness :
  last (effects (example gone_after_first listing CreateClick).2) =
    Some (Alert ("Progetto " +:+ dquote +:+ "Voci 2" +:+ dquote +:+
                 " creato e caricato!")) /\
  (forall x, OnProjectChange x ∉ effects (example gone_after_first listing CreateClick).2).
Proof.
  assert (H : dispatch lab_props gone_after_first listing CreateClick
              = Some ((example gone_after_first listing CreateClick).1,
                      (example gone_after_first listing CreateClick).2))
    by (vm_compute; reflexivity).
  destruct (createProject_announces_whatever_the_load _ _ _ _ _ reply voci_ottimale
              H eq_refl eq_refl) as [Hlast Hon].
  split; [exact Hlast|]. intros x Hx. apply Hon in Hx as (o' & Ho' & _).
  discriminate Ho'.
Defined.

(** X22. The initial load of the list ignores the status of the
    answer: a body that is an object replaces the list (by the empty
    list when it has no [projects]), anything else leaves the list as
    it was; no alert is ever shown. *)
Theorem loadProjects_ignores_the_status props answers s outcome r :
  dispatch props answers s Mount = Some (outcome, r) ->
  projects (state r) =
    match answers 0 with
    | Responds _ (BodyObject o) => default [] (j_projects o)
    | _ => projects s
    end /\
  (forall text, Alert text ∉ effects r).
Proof.
  intros H. handler_cases H. answer_cases H. finish_run H.
  split; [exact Hlisted|]. intros text. no_such_effect.
Qed.

Lemma loadProjects_ignores_the_status_witness :
  projects (state (example all_refused listing Mount).2) = projects listing /\
  (forall text, Alert text ∉ effects (example all_refused listing Mount).2).
Proof.
  assert (H : dispatch lab_props all_refused listing Mount
              = Some ((example all_refused listing Mount).1,
                      (example all_refused listing Mount).2))
    by (vm_compute; reflexivity).
  exact (loadProjects_ignores_the_status _ _ _ _ _ H).
Defined.

(** X23. The list of projects on display only ever changes to a list
    that the backend sent in answer to a request of the same handler
    (the empty list, when the answer is an object without
    [projects]): no handler adds, removes or edits a project on its
    own. *)
Theorem projects_come_from_the_backend props answers s ev outcome r :
  dispatch props answers s ev = Some (outcome, r) ->
  projects (state r) = projects s \/
  exists n status o,
    n < fetches r /\ answers n = Responds status (BodyObject o) /\
    projects (state r) = default [] (j_projects o).
Proof.
  intros H. event_cases H ev; answer_cases H.
  all: finish_run H; subst; try (by left).
  all: repeat match goal with
              | |- context [match ?a ?n with FetchThrows => _ | Responds _ _ => _ end] =>
                  let E := fresh "E" in destruct (a n) as [|? [| |?]] eqn:E
              end;
       try (by left); right; do 3 eexists; (split; [|split; [eassumption|reflexivity]]);
       lia.
Qed.

Lemma projects_come_from_the_backend_witness :
  projects (state (example all_fine listing (DeleteClick 0 true)).2) = projects listing \/
  exists n status o,
    n < fetches (example all_fine listing (DeleteClick 0 true)).2 /\
    all_fine n = Responds status (BodyObject o) /\
    projects (state (example all_fine listing (DeleteClick 0 true)).2)
    = default [] (j_projects o).
Proof.
  assert (H : dispatch lab_props all_fine listing (DeleteClick 0 true)
              = Some ((example all_fine listing (DeleteClick 0 true)).1,
                      (example all_fine listing (DeleteClick 0 true)).2))
    by (vm_compute; reflexivity).
  exact (projects_come_from_the_backend _ _ _ _ _ _ H).
Defined.

(** X24. Dismissing the dialog of a handler leaves everything as it
    was: when [prompt] returns no name, [confirm] returns [false] or
    no file was selected, no request is sent, the state is as it
    was, no alert is shown and [onProjectChange] is not called. *)
Theorem dismissed_dialog_changes_nothing props answers s ev outcome r :
  dispatch props answers s ev = Some (outcome, r) -> dismissed ev = true ->
  state r = s /\ fetches r = 0 /\
  (forall text, Alert text ∉ effects r) /\
  (forall x, OnProjectChange x ∉ effects r).
Proof.
  intros H Hd. dispatch_cases H h Hh.
  destruct ev as [| | |?v|?v|?v| | |[?f|] ?answer|?card|?card ?answer|?card
                 |?card ?confirmed]; try discriminate Hd; cbn [dismissed] in Hd.
  all: try (destruct Hh as (?project & ?Hcard & ?Hloading & Hh)).
  all: subst h; run_handler H; try rewrite Hd in H;
    try (destruct confirmed; [discriminate Hd|]);
    cbn [negb fst snd state fetches effects List.app] in H.
  all: finish_run H; repeat split; intros ?; no_such_effect.
Qed.

Lemma dismissed_dialog_changes_nothing_witness :
  state (example all_fine listing (DeleteClick 0 false)).2 = listing /\
  fetches (example all_fine listing (DeleteClick 0 false)).2 = 0 /\
  (forall text, Alert text ∉ effects (example all_fine listing (DeleteClick 0 false)).2) /\
  (forall x, OnProjectChange x ∉ effects (example all_fine listing (DeleteClick 0 false)).2).
Proof.
  assert (H : dispatch lab_props all_fine listing (DeleteClick 0 false)
              = Some ((example all_fine listing (DeleteClick 0 false)).1,
                      (example all_fine listing (DeleteClick 0 false)).2))
    by (vm_compute; reflexivity).
  exact (dismissed_dialog_changes_nothing _ _ _ _ _ _ H eq_refl).
Defined.

(** X25. [exportProject] sends one request, leaves the list and the
    form as they were, and downloads a file exactly when the answer
    has a success status and a body that can be read; the file is
    named after the project, with [_export.zip] appended. *)
Theorem exportProject_only_downloads props answers s card outcome r project :
  dispatch props answers s (ExportClick card) = Some (outcome, r) ->
  projects s !! card = Some project ->
  projects (state r) = projects s /\
  showCreateForm (state r) = showCreateForm s /\
  newProject (state r) = newProject s /\
  fetches r = 1 /\
  (forall f, Download f ∈ effects r <->
             f = name project +:+ "_export.zip" /\
             exists body, answers 0 = Responds true body /\ body <> BodyThrows).
Proof.
  intros H Hp. handler_cases H. answer_cases H.
  all: finish_run H; simplify_eq.
  all: split; [done|split; [done|split; [done|split; [done|]]]].
  all: intros f; split;
    [ intros Hin;
      repeat (apply elem_of_cons in Hin as [Hin|Hin];
              [first [ discriminate Hin
                     | injection Hin as ->;
                       split; [reflexivity|eexists; split; [reflexivity|discriminate]] ]|]);
      by apply elem_of_nil in Hin
    | intros (-> & body & Hb & Hne);
      first [ congruence
            | repeat first [ apply list_elem_of_here | apply list_elem_of_further ] ] ].
Qed.

Lemma exportProject_only_downloads_witness :
  projects (state (example all_fine listing (ExportClick 0)).2) = projects listing /\
  fetches (example all_fine listing (ExportClick 0)).2 = 1 /\
  Download "Voci_export.zip" ∈ effects (example all_fine listing (ExportClick 0)).2.
Proof.
  assert (H : dispatch lab_props all_fine listing (ExportClick 0)
              = Some ((example all_fine listing (ExportClick 0)).1,
                      (example all_fine listing (ExportClick 0)).2))
    by (vm_compute; reflexivity).
  destruct (exportProject_only_downloads _ _ _ _ _ _ voci H eq_refl)
    as (Hp & _ & _ & Hn & Hd).
  split; [exact Hp|]. split; [exact Hn|].
  apply Hd. split; [reflexivity|]. eexists. split; [reflexivity|discriminate].
Defined.

End ProjectManagerFacts.
